(** * windermere-bloom-ml: feature-matrix and label construction

    A shallow embedding of the leakage-safe feature layer of the repository
    and of what stands next to it:

    - [labels/label_builder.py]              (modules [LabelBuilder],
                                              [LabelAudit])
    - [features/feature_builder.py]          (modules [FeatureBuilder],
                                              [LagFeatures])
    - [features/build_feature_matrix.py]     (modules [FeatureMatrixBuilder],
                                              [FeatureMatrixStore])
    - [clean/builder.py]                     (modules [CleanDatasetBuilder],
                                              [CleanLayer])
    - [baselines/baseline_models.py]         (module [Baselines])

    Conventions of the embedding.

    - Python floats are exact rationals ([Q]); the float NaN, [None] and
      [pd.NaT] are [None] of an [option].  Infinite floats are not modelled.
    - A timestamp is the number of nanoseconds since 1970-01-01T00:00 ([Z]),
      which is what a pandas [datetime64[ns]] holds; time zones are left out.
    - A [str] is the [string] of its code points, one character each; a
      text with a code point above U+00FF is not modelled.
    - A raising call returns [Raise e]; a returning call returns [Ok v].
    - The functions of pandas and of the Python runtime that the code calls
      are written out in modules [Py] and [Pandas] from their documented
      behaviour; what cannot be written out (parsing a float from text,
      printing a float, quoting a JSON string, SHA-256, sine and cosine) is
      a field of the record [Py.extern], or an argument of the one function
      that needs it.
    - Not embedded: [FeatureBuilder.build] (its joins on the index and
      [sort_index] depend on how pandas treats repeated timestamps),
      [harmonise_units] and [dedupe_and_sort] of the clean layer, the
      scikit-learn baseline and the ranking metrics.

    Part I holds the definitions: the runtime, the source modules, the
    concrete inputs of the test suite, and the notions in which the
    properties are stated.  Part II holds the properties. *)

From Stdlib Require Import String Ascii ZArith QArith List Bool Lia Lqa.
From Stdlib Require Import Permutation Sorted DecimalString DecimalPos DecimalZ.
From Stdlib Require DecimalN DecimalFacts.
Import ListNotations.

Set Implicit Arguments.
Open Scope string_scope.
Open Scope list_scope.

(* ================================================================== *)
(** * Part I.  Definitions                                             *)
(* ================================================================== *)

(** ** The Python runtime *)

Module Py.

Inductive exn : Type :=
| ValueError (msg : string)
| KeyError (key : string).

Inductive result (A : Type) : Type :=
| Ok (a : A)
| Raise (e : exn).

Arguments Ok {A} a.
Arguments Raise {A} e.

Definition bind {A B : Type} (c : result A) (k : A -> result B) : result B :=
  match c with
  | Ok a => k a
  | Raise e => Raise e
  end.

Definition raises {A : Type} (c : result A) : Prop :=
  exists e, c = Raise e.

Definition returns {A : Type} (c : result A) : Prop :=
  exists a, c = Ok a.

(** What the embedding takes from outside the repository. *)
Record extern : Type := {
  (** [pd.to_numeric] on one [str] cell; [None] when pandas cannot parse it *)
  to_numeric_str : string -> option Q;
  (** [repr] of a float, as [json.dumps] prints it *)
  float_repr : Q -> string;
  (** a JSON string literal, quotes and escapes included *)
  json_quote : string -> string;
  (** [hashlib.sha256(bytes).hexdigest()] *)
  sha256_hexdigest : string -> string;
  (** [np.sin(2 * np.pi * a / b)] and [np.cos(2 * np.pi * a / b)] *)
  sin_2pi : Q -> Q -> Q;
  cos_2pi : Q -> Q -> Q
}.

(** [str(n)] for an [int]. *)
Definition str_of_int (n : Z) : string :=
  NilZero.string_of_int (Z.to_int n).

(** [c.isspace()], which is also what [str.strip()] drops: tab to carriage
    return, the four separators U+001C to U+001F, the space, the next-line
    control U+0085 and the no-break space U+00A0. *)
Definition isspace (c : ascii) : bool :=
  let n := nat_of_ascii c in
  ((9 <=? n) && (n <=? 13) || (28 <=? n) && (n <=? 32)
   || (n =? 133) || (n =? 160))%nat.

(** The white space that [int()] skips around a literal: the six of C's
    [isspace], and the white space above U+007F, which [int()] reads as a
    space.  The separators U+001C to U+001F are not among them. *)
Definition int_isspace (c : ascii) : bool :=
  let n := nat_of_ascii c in
  ((9 <=? n) && (n <=? 13) || (n =? 32) || (n =? 133) || (n =? 160))%nat.

(** [s.lstrip()] and [s.lstrip("0")]: drop the leading characters that
    satisfy [drop]. *)
Fixpoint lstrip (drop : ascii -> bool) (s : string) : string :=
  match s with
  | EmptyString => EmptyString
  | String c s' => if drop c then lstrip drop s' else s
  end.

(** [s.rstrip()]. *)
Fixpoint rstrip (drop : ascii -> bool) (s : string) : string :=
  match s with
  | EmptyString => EmptyString
  | String c s' =>
      match rstrip drop s' with
      | EmptyString => if drop c then EmptyString else String c EmptyString
      | r => String c r
      end
  end.

(** [s.strip()]. *)
Definition strip (s : string) : string :=
  rstrip isspace (lstrip isspace s).

Definition is_zero_digit (c : ascii) : bool := Ascii.eqb c "0"%char.

(** The value of an ASCII decimal digit. *)
Definition digit_of (c : ascii) : option Z :=
  let n := nat_of_ascii c in
  if ((48 <=? n) && (n <=? 57))%nat then Some (Z.of_nat (n - 48)) else None.

(** The digits of an [int] literal, with single underscores between
    digits; [after_digit] says that the last character read was a digit. *)
Fixpoint digits (s : string) (acc : Z) (after_digit : bool) : option Z :=
  match s with
  | EmptyString => if after_digit then Some acc else None
  | String c s' =>
      match digit_of c with
      | Some d => digits s' (10 * acc + d)%Z true
      | None =>
          if Ascii.eqb c "_"%char && after_digit
          then digits s' acc false
          else None
      end
  end.

(** How many decimal digits a text holds. *)
Fixpoint digit_count (s : string) : nat :=
  match s with
  | EmptyString => O
  | String c s' =>
      match digit_of c with
      | Some _ => S (digit_count s')
      | None => digit_count s'
      end
  end.

(** [sys.int_info.default_max_str_digits]: the longest literal that [int()]
    converts (CPython 3.11 and later, unless the interpreter is told
    otherwise). *)
Definition max_str_digits : nat := 4300.

(** [int(s)] for a [str]: surrounding whitespace, an optional sign, decimal
    digits; anything else is the [ValueError] of [int()], and so is a
    literal of more than [max_str_digits] digits. *)
Definition int_of_str (s : string) : result Z :=
  let t := rstrip int_isspace (lstrip int_isspace s) in
  let parsed :=
    match t with
    | String "-"%char r => option_map Z.opp (digits r 0%Z false)
    | String "+"%char r => digits r 0%Z false
    | _ => digits t 0%Z false
    end in
  match parsed with
  | Some n =>
      if (max_str_digits <? digit_count t)%nat
      then Raise (ValueError "Exceeds the limit (4300 digits) for integer string conversion")
      else Ok n
  | None => Raise (ValueError "invalid literal for int() with base 10")
  end.

(** [x in xs] for strings. *)
Definition str_in (x : string) (xs : list string) : bool :=
  existsb (String.eqb x) xs.

(** A [dict] with [str] keys, in insertion order: [d[k] = v]. *)
Fixpoint dict_set {V : Type} (k : string) (v : V) (d : list (string * V))
  : list (string * V) :=
  match d with
  | [] => [(k, v)]
  | (k', v') :: d' =>
      if String.eqb k k' then (k, v) :: d' else (k', v') :: dict_set k v d'
  end.

(** [d.get(k)]. *)
Fixpoint dict_get {V : Type} (k : string) (d : list (string * V)) : option V :=
  match d with
  | [] => None
  | (k', v) :: d' => if String.eqb k k' then Some v else dict_get k d'
  end.

End Py.

Import Py.

Notation "x <- c ;; k" := (Py.bind c (fun x => k))
  (at level 61, c at next level, right associativity).

(** ** The pandas operations the code calls *)

Module Pandas.

(** One cell of an [object] column. *)
Inductive cell : Type :=
| CFloat (x : Q)
| CInt (n : Z)
| CStr (s : string)
| CNull.

(** A column-oriented frame: the length of the index and the columns in
    order. *)
Record frame : Type := {
  nrows : nat;
  columns : list (string * list cell)
}.

(** [pd.to_numeric(x, errors="coerce")] on one cell. *)
Definition to_numeric (ext : extern) (c : cell) : option Q :=
  match c with
  | CFloat x => Some x
  | CInt n => Some (inject_Z n)
  | CStr s => to_numeric_str ext s
  | CNull => None
  end.

Definition isna {A : Type} (x : option A) : bool :=
  match x with Some _ => false | None => true end.

(** [bool.astype(int)]. *)
Definition int_of_bool (b : bool) : Z := if b then 1 else 0.

(** Float comparisons; a comparison with NaN is [False]. *)
Definition Qgtb (x y : Q) : bool := negb (Qle_bool x y).
Definition Qgeb (x y : Q) : bool := Qle_bool y x.

Definition gt (x : option Q) (y : Q) : bool :=
  match x with Some v => Qgtb v y | None => false end.

Definition ge (x : option Q) (y : Q) : bool :=
  match x with Some v => Qgeb v y | None => false end.

(** [s.shift(k)] for [k >= 0]: the first [k] positions become NaN. *)
Definition shift {A : Type} (k : nat) (s : list (option A)) : list (option A) :=
  firstn (length s) (repeat None k ++ s).

(** The positions [i-w+1 .. i] of [s], cut at the start of the series. *)
Definition window {A : Type} (w i : nat) (s : list A) : list A :=
  firstn (i + 1 - (i + 1 - w)) (skipn (i + 1 - w) s).

(** The non-null values of a float series. *)
Fixpoint dropna (xs : list (option Q)) : list Q :=
  match xs with
  | [] => []
  | Some x :: xs' => x :: dropna xs'
  | None :: xs' => dropna xs'
  end.

Definition Qsum (xs : list Q) : Q := fold_right Qplus 0 xs.

(** The mean of the non-null values, NaN when fewer than [min_periods]
    (or none) are present. *)
Definition nanmean (min_periods : nat) (xs : list (option Q)) : option Q :=
  let vs := dropna xs in
  if (length vs <? min_periods)%nat then None
  else match vs with
       | [] => None
       | _ => Some (Qsum vs / inject_Z (Z.of_nat (length vs)))
       end.

(** [s.rolling(window=w, min_periods=mp).mean()]. *)
Definition rolling_mean (w : Z) (min_periods : nat) (s : list (option Q))
  : result (list (option Q)) :=
  if (w <? 0)%Z then
    Raise (ValueError "window must be an integer 0 or greater")
  else if (w <? Z.of_nat min_periods)%Z then
    Raise (ValueError "min_periods must be <= window")
  else
    Ok (map (fun i => nanmean min_periods (window (Z.to_nat w) i s))
            (seq 0 (length s))).

(** [df.sort_values(keys)]: a stable sort, [le] the order of the keys. *)
Section Sort.
Variable A : Type.
Variable le : A -> A -> bool.

Fixpoint insert_sorted (x : A) (l : list A) : list A :=
  match l with
  | [] => [x]
  | y :: l' => if le x y then x :: l else y :: insert_sorted x l'
  end.

Definition sort_values (l : list A) : list A :=
  fold_right insert_sorted [] l.

End Sort.

(** The order of [sort_values([site, time])]. *)
Definition site_time_le (s1 : string) (t1 : Z) (s2 : string) (t2 : Z) : bool :=
  match String.compare s1 s2 with
  | Lt => true
  | Eq => (t1 <=? t2)%Z
  | Gt => false
  end.

(** [Index(keys).is_monotonic_increasing]. *)
Fixpoint is_monotonic_increasing (ks : list Z) : bool :=
  match ks with
  | [] => true
  | k :: ks' =>
      match ks' with
      | [] => true
      | k' :: _ => (k <=? k')%Z && is_monotonic_increasing ks'
      end
  end.

(** [pd.merge_asof(left, right, left_on, right_on, by,
    direction="backward", allow_exact_matches=True)]: each left row is paired
    with the last right row, in the order of [right], that has the same [by]
    value and a key [<=] the left key.  pandas refuses keys that are not
    sorted. *)
Section MergeAsof.
Variables L R : Type.
Variable l_on : L -> Z.
Variable l_by : L -> string.
Variable r_on : R -> Z.
Variable r_by : R -> string.

(** The right pointer moves on while the right key is [<=] the left key and
    remembers the last row seen for the [by] value. *)
Fixpoint asof_scan (by_ : string) (t : Z) (right : list R) (last : option R)
  : option R :=
  match right with
  | [] => last
  | r :: right' =>
      if (r_on r <=? t)%Z then
        asof_scan by_ t right'
          (if String.eqb (r_by r) by_ then Some r else last)
      else last
  end.

(** A right row that the backward search may return for a left row with
    [by] value [b] and key [t]. *)
Definition candidate (b : string) (t : Z) (r : R) : Prop :=
  r_by r = b /\ (r_on r <= t)%Z.

Definition merge_asof (left : list L) (right : list R)
  : result (list (L * option R)) :=
  if negb (is_monotonic_increasing (map l_on left)) then
    Raise (ValueError "left keys must be sorted")
  else if negb (is_monotonic_increasing (map r_on right)) then
    Raise (ValueError "right keys must be sorted")
  else
    Ok (map (fun l => (l, asof_scan (l_by l) (l_on l) right None)) left).

End MergeAsof.

(** [Series.dt.year]: the calendar year (proleptic Gregorian) of a
    timestamp. *)
Definition NS_PER_DAY : Z := (86400 * 1000000000)%Z.

Definition year_of_days (days : Z) : Z :=
  (let z := days + 719468 in
   let era := z / 146097 in
   let doe := z - era * 146097 in
   let yoe := (doe - doe / 1460 + doe / 36524 - doe / 146096) / 365 in
   let doy := doe - (365 * yoe + yoe / 4 - yoe / 100) in
   let mp := (5 * doy + 2) / 153 in
   let y := yoe + era * 400 in
   if mp <? 10 then y else y + 1)%Z.

Definition dt_year (t : Z) : Z := year_of_days (t / NS_PER_DAY)%Z.

(** [Series.dt.month]. *)
Definition month_of_days (days : Z) : Z :=
  (let z := days + 719468 in
   let era := z / 146097 in
   let doe := z - era * 146097 in
   let yoe := (doe - doe / 1460 + doe / 36524 - doe / 146096) / 365 in
   let doy := doe - (365 * yoe + yoe / 4 - yoe / 100) in
   let mp := (5 * doy + 2) / 153 in
   if mp <? 10 then mp + 3 else mp - 9)%Z.

Definition dt_month (t : Z) : Z := month_of_days (t / NS_PER_DAY)%Z.

(** The day number of the first of January of year [y]. *)
Definition days_of_new_year (y : Z) : Z :=
  (let p := y - 1 in 365 * p + p / 4 - p / 100 + p / 400 - 719162)%Z.

(** [Series.dt.dayofyear]. *)
Definition dt_dayofyear (t : Z) : Z :=
  (let days := t / NS_PER_DAY in
   days - days_of_new_year (year_of_days days) + 1)%Z.

(** [Timedelta.total_seconds() / 86400.0]. *)
Definition days_of_ns (d : Z) : Q := Qmake d 86400000000000.

End Pandas.

Import Pandas.

(** ** labels/label_builder.py *)

Module LabelBuilder.

Record LabelConfig : Type := {
  chl_value_col : string;
  threshold_ugL : Q;
  label_col : string;
  strictly_greater : bool;
  label_version : string
}.

(** The defaults of the dataclass. *)
Definition default_config : LabelConfig := {|
  chl_value_col := "chl_ugL";
  threshold_ugL := 20;
  label_col := "y";
  strictly_greater := true;
  label_version := "LBL_V1"
|}.

Definition json_bool (b : bool) : string := if b then "true" else "false".

(** [json.dumps(asdict(config), sort_keys=True, default=str)]. *)
Definition config_json (ext : extern) (cfg : LabelConfig) : string :=
  let field k v := (json_quote ext k ++ ": " ++ v)%string in
  ("{" ++ String.concat ", " [
     field "chl_value_col" (json_quote ext (chl_value_col cfg));
     field "label_col" (json_quote ext (label_col cfg));
     field "label_version" (json_quote ext (label_version cfg));
     field "strictly_greater" (json_bool (strictly_greater cfg));
     field "threshold_ugL" (float_repr ext (threshold_ugL cfg))
   ] ++ "}")%string.

Definition fingerprint (ext : extern) (cfg : LabelConfig) : string :=
  sha256_hexdigest ext (config_json ext cfg).

(** The label of one target value: [(chl > threshold).astype(int)], or
    [>=] when [strictly_greater] is off. *)
Definition label_of (cfg : LabelConfig) (chl : option Q) : Z :=
  if strictly_greater cfg
  then int_of_bool (gt chl (threshold_ugL cfg))
  else int_of_bool (ge chl (threshold_ugL cfg)).

(** [out[name] = values]. *)
Definition set_column (name : string) (values : list cell) (df : frame) : frame :=
  {| nrows := nrows df; columns := dict_set name values (columns df) |}.

Definition build_from_feature_matrix (ext : extern) (cfg : LabelConfig)
  (df_feat : frame) : result frame :=
  match dict_get (chl_value_col cfg) (columns df_feat) with
  | None => Raise (ValueError "Missing chlorophyll column in df_feat")
  | Some col =>
      let out := df_feat in
      let chl := map (to_numeric ext) col in
      let out := set_column (label_col cfg)
                   (map (fun x => CInt (label_of cfg x)) chl) out in
      let out := set_column "label_version"
                   (repeat (CStr (label_version cfg)) (nrows out)) out in
      let out := set_column "label_config_fingerprint"
                   (repeat (CStr (fingerprint ext cfg)) (nrows out)) out in
      Ok out
  end.

End LabelBuilder.

(** ** features/feature_builder.py *)

Module FeatureBuilder.

(** [f"{prefix}_{w}"]. *)
Definition roll_name (prefix : string) (w : Z) : string :=
  (prefix ++ "_" ++ str_of_int w)%string.

(** The loop of [_rolling_mean_features] over [windows]; [out] is the dict
    of the columns made so far. *)
Fixpoint rolling_loop (prefix : string) (s_shifted : list (option Q))
  (windows : list Z) (out : list (string * list (option Q)))
  : result (list (string * list (option Q))) :=
  match windows with
  | [] => Ok out
  | w :: windows' =>
      col <- rolling_mean w 1 s_shifted ;;
      rolling_loop prefix s_shifted windows'
        (dict_set (roll_name prefix w) col out)
  end.

Definition _rolling_mean_features (ext : extern) (df : frame) (col : string)
  (windows : list Z) (prefix : string)
  : result (list (string * list (option Q))) :=
  match dict_get col (columns df) with
  | None => Raise (KeyError col)
  | Some cells =>
      let s := map (to_numeric ext) cells in
      (* shift before rolling *)
      let s_shifted := shift 1 s in
      rolling_loop prefix s_shifted windows []
  end.

End FeatureBuilder.

(** ** features/build_feature_matrix.py *)

Module FeatureMatrixBuilder.

(** [DeterminandId = Union[int, str]]. *)
Inductive DeterminandId : Type :=
| DInt (n : Z)
| DStr (s : string).

Record FeatureMatrixConfig : Type := {
  datetime_col : string;
  site_col : string;
  determinand_col : string;
  value_col : string;
  unit_col : string;
  determinand_cast : string;
  window_start_year : Z;
  window_end_year : Z;
  target_determinand_id : DeterminandId;
  threshold_ugL : Q;
  predictor_ids : list DeterminandId;
  lookback_days : Z;
  add_missing_flags : bool;
  add_age_days : bool;
  add_seasonality : bool;
  add_days_since_last_chl : bool;
  output_dir : string;
  snapshot_id : option string;
  feature_version : string
}.

(** The defaults of the dataclass. *)
Definition default_config : FeatureMatrixConfig := {|
  datetime_col := "phenomenonTime";
  site_col := "samplingPoint.notation";
  determinand_col := "determinand.notation";
  value_col := "result";
  unit_col := "unit";
  determinand_cast := "str";
  window_start_year := 2005;
  window_end_year := 2025;
  target_determinand_id := DInt 7887;
  threshold_ugL := 20;
  predictor_ids := [DInt 348; DInt 9686; DInt 61];
  lookback_days := 30;
  add_missing_flags := true;
  add_age_days := true;
  add_seasonality := true;
  add_days_since_last_chl := true;
  output_dir := "data/features";
  snapshot_id := None;
  feature_version := "FEAT_V1"
|}.

(** One row of [df_clean], seen through the five configured columns.  The
    datetime cell is given by what [pd.to_datetime(errors="coerce")] makes of
    it: [None] for a cell that becomes [NaT]. *)
Record obs : Type := {
  o_datetime : option Z;
  o_site : string;
  o_det : DeterminandId;
  o_value : cell;
  o_unit : string
}.

Record clean_frame : Type := {
  df_columns : list string;
  df_rows : list obs
}.

Inductive artifact : Type :=
| AStr (s : string)
| AInt (n : Z)
| AFloat (x : option Q).

(** The builder object: [self._df], [self.config], [self.artifacts]. *)
Record builder : Type := {
  _df : clean_frame;
  config : FeatureMatrixConfig;
  artifacts : list (string * artifact)
}.

Definition _validate_inputs (self : builder) : result unit :=
  let cfg := config self in
  let required := [datetime_col cfg; site_col cfg; determinand_col cfg;
                   value_col cfg; unit_col cfg] in
  let missing :=
    filter (fun c => negb (str_in c (df_columns (_df self)))) required in
  match missing with
  | _ :: _ => Raise (ValueError "df_clean missing required columns")
  | [] =>
      if negb (str_in (determinand_cast cfg) ["str"; "int"; "none"]) then
        Raise (ValueError "determinand_cast must be one of: 'str', 'int', 'none'")
      else if (window_end_year cfg <? window_start_year cfg)%Z then
        Raise (ValueError "window_end_year must be >= window_start_year")
      else if (lookback_days cfg <=? 0)%Z then
        Raise (ValueError "lookback_days must be > 0")
      else Ok tt
  end.

(** [FeatureMatrixBuilder(df_clean, config)]. *)
Definition __init__ (df_clean : clean_frame) (cfg : FeatureMatrixConfig)
  : result builder :=
  let self := {| _df := df_clean; config := cfg; artifacts := [] |} in
  _ <- _validate_inputs self ;;
  Ok self.

(** A determinand identifier after normalisation: a [str], an [int], or a
    number that [pd.to_numeric] made (NaN when it could not). *)
Inductive det_key : Type :=
| KStr (s : string)
| KInt (n : Z)
| KNum (x : option Q).

(** [str(d)]. *)
Definition str_of_det (d : DeterminandId) : string :=
  match d with
  | DInt n => str_of_int n
  | DStr s => s
  end.

(** [int(d)]. *)
Definition int_of_det (d : DeterminandId) : result Z :=
  match d with
  | DInt n => Ok n
  | DStr s => int_of_str s
  end.

(** [pd.to_numeric(d, errors="coerce")] on one identifier cell. *)
Definition numeric_of_det (ext : extern) (d : DeterminandId) : option Q :=
  match d with
  | DInt n => Some (inject_Z n)
  | DStr s => to_numeric_str ext s
  end.

Definition raw_key (d : DeterminandId) : det_key :=
  match d with
  | DInt n => KInt n
  | DStr s => KStr s
  end.

(** [_normalize_det(series, target)] gives the normalised series and the
    normalised target. *)
Definition _normalize_det (ext : extern) (cfg : FeatureMatrixConfig)
  (series : list DeterminandId) (target : DeterminandId)
  : result (list det_key * det_key) :=
  let cast := determinand_cast cfg in
  if String.eqb cast "str" then
    Ok (map (fun d => KStr (str_of_det d)) series, KStr (str_of_det target))
  else if String.eqb cast "int" then
    t <- int_of_det target ;;
    Ok (map (fun d => KNum (numeric_of_det ext d)) series, KInt t)
  else
    Ok (map raw_key series, raw_key target).

(** Elementwise [==]. *)
Definition key_eqb (a b : det_key) : bool :=
  match a, b with
  | KStr x, KStr y => String.eqb x y
  | KInt x, KInt y => Z.eqb x y
  | KNum (Some x), KInt y => Qeq_bool x (inject_Z y)
  | KInt x, KNum (Some y) => Qeq_bool (inject_Z x) y
  | KNum (Some x), KNum (Some y) => Qeq_bool x y
  | _, _ => false
  end.

(** A row whose datetime is parsed, with the [year] column. *)
Record wrow : Type := {
  w_time : Z;
  w_year : Z;
  w_obs : obs
}.

(** [df.dropna(subset=[datetime_col])] after parsing, and the [year]
    column. *)
Fixpoint parse_datetimes (rows : list obs) : list wrow :=
  match rows with
  | [] => []
  | o :: rows' =>
      match o_datetime o with
      | Some t =>
          {| w_time := t; w_year := dt_year t; w_obs := o |}
            :: parse_datetimes rows'
      | None => parse_datetimes rows'
      end
  end.

Definition _filter_window (cfg : FeatureMatrixConfig) (df : clean_frame)
  : list wrow :=
  filter (fun r => (window_start_year cfg <=? w_year r)%Z
                   && (w_year r <=? window_end_year cfg)%Z)
         (parse_datetimes (df_rows df)).

(** [df[mask]] for a boolean mask. *)
Fixpoint select {A : Type} (mask : list bool) (rows : list A) : list A :=
  match mask, rows with
  | b :: mask', r :: rows' =>
      if b then r :: select mask' rows' else select mask' rows'
  | _, _ => []
  end.

(** A row of one analyte's series: site, time and numeric value. *)
Record srow : Type := {
  s_site : string;
  s_time : Z;
  s_value : Q
}.

(** [pd.to_numeric(value, errors="coerce")] then [dropna(subset=[value])],
    keeping the site, time and value columns. *)
Fixpoint numeric_rows (ext : extern) (rows : list wrow) : list srow :=
  match rows with
  | [] => []
  | r :: rows' =>
      match to_numeric ext (o_value (w_obs r)) with
      | Some v =>
          {| s_site := o_site (w_obs r); s_time := w_time r; s_value := v |}
            :: numeric_rows ext rows'
      | None => numeric_rows ext rows'
      end
  end.

Definition srow_le (a b : srow) : bool :=
  site_time_le (s_site a) (s_time a) (s_site b) (s_time b).

(** The rows of one determinand in the window, numeric and sorted: the part
    that [_build_target_anchor] and [_extract_predictor_series] share. *)
Definition determinand_series (ext : extern) (cfg : FeatureMatrixConfig)
  (df : clean_frame) (determinand_id : DeterminandId) : result (list srow) :=
  let dfw := _filter_window cfg df in
  norm <- _normalize_det ext cfg (map (fun r => o_det (w_obs r)) dfw)
            determinand_id ;;
  let '(det_norm, target_norm) := norm in
  let d := select (map (fun k => key_eqb k target_norm) det_norm) dfw in
  let d := numeric_rows ext d in
  Ok (sort_values srow_le d).

(** One cell of the feature matrix. *)
Inductive fcell : Type :=
| FFloat (x : option Q)
| FTime (t : option Z)
| FInt (n : Z)
| FStr (s : option string).

(** One row of the feature matrix: the four anchor columns and, by name,
    the columns added after them. *)
Record frow : Type := {
  f_site : string;
  f_time : Z;
  chl_ugL : Q;
  y : Z;
  f_extra : list (string * fcell)
}.

(** The feature matrix: its column labels in order and its rows. *)
Record fframe : Type := {
  f_columns : list string;
  f_rows : list frow
}.

Definition frow_le (a b : frow) : bool :=
  site_time_le (f_site a) (f_time a) (f_site b) (f_time b).

(** [row[name] = v]. *)
Definition set_cell (name : string) (v : fcell) (r : frow) : frow :=
  {| f_site := f_site r; f_time := f_time r; chl_ugL := chl_ugL r; y := y r;
     f_extra := dict_set name v (f_extra r) |}.

(** [row[name]]. *)
Definition get_cell (name : string) (r : frow) : option fcell :=
  dict_get name (f_extra r).

(** A new column label goes last; an existing one keeps its place. *)
Definition add_column (name : string) (cols : list string) : list string :=
  if str_in name cols then cols else cols ++ [name].

Definition _build_target_anchor (ext : extern) (self : builder) : result fframe :=
  let cfg := config self in
  df_t <- determinand_series ext cfg (_df self) (target_determinand_id cfg) ;;
  Ok {| f_columns := [site_col cfg; datetime_col cfg; "chl_ugL"; "y"];
        f_rows :=
          map (fun r =>
                 {| f_site := s_site r; f_time := s_time r;
                    chl_ugL := s_value r;
                    y := int_of_bool (Qgtb (s_value r) (threshold_ugL cfg));
                    f_extra := [] |}) df_t |}.

(** The series comes back with its time column named [feature_name__time]
    and its value column named [feature_name]; the names are carried by
    [_merge_asof_backward]. *)
Definition _extract_predictor_series (ext : extern) (self : builder)
  (determinand_id : DeterminandId) : result (list srow) :=
  determinand_series ext (config self) (_df self) determinand_id.

Definition time_name (feature_name : string) : string :=
  (feature_name ++ "__time")%string.
Definition age_name (feature_name : string) : string :=
  (feature_name ++ "__age_days")%string.
Definition missing_name (feature_name : string) : string :=
  (feature_name ++ "__is_missing")%string.

(** What [_merge_asof_backward] does to one merged row: [m] is the matched
    predictor row, if any. *)
Definition lookback_row (cfg : FeatureMatrixConfig) (feature_name : string)
  (l : frow) (m : option srow) : frow :=
  let value := option_map s_value m in
  let ptime := option_map s_time m in
  let merged := set_cell (time_name feature_name) (FTime ptime)
                  (set_cell feature_name (FFloat value) l) in
  (* age calculation *)
  let age := option_map (fun t => days_of_ns (f_time l - t)) ptime in
  let merged :=
    if add_age_days cfg
    then set_cell (age_name feature_name) (FFloat age) merged
    else merged in
  (* lookback enforcement *)
  let stale := gt age (inject_Z (lookback_days cfg)) in
  let merged :=
    if stale then
      let merged := set_cell feature_name (FFloat None) merged in
      let merged := set_cell (time_name feature_name) (FTime None) merged in
      if add_age_days cfg
      then set_cell (age_name feature_name) (FFloat None) merged
      else merged
    else merged in
  (* missingness flag *)
  if add_missing_flags cfg then
    let na := match get_cell feature_name merged with
              | Some (FFloat None) => true
              | _ => false
              end in
    set_cell (missing_name feature_name) (FInt (int_of_bool na)) merged
  else merged.

(** A predictor whose time label is already a column of the anchor frame
    gets pandas' suffixes on both sides, and the lookup by the plain label
    after the merge fails.  A predictor whose value label alone is taken (a
    text identifier that spells a column label of an earlier predictor) is
    refused here as well; the properties of the join below ask for distinct
    labels. *)
Definition _merge_asof_backward (self : builder) (anchor : fframe)
  (pred : list srow) (feature_name : string) : result fframe :=
  let cfg := config self in
  let a := sort_values frow_le (f_rows anchor) in
  let p := sort_values srow_le pred in
  merged <- merge_asof f_time f_site s_time s_site a p ;;
  if str_in feature_name (f_columns anchor)
     || str_in (time_name feature_name) (f_columns anchor)
  then Raise (KeyError (time_name feature_name))
  else
    let cols := f_columns anchor ++ [time_name feature_name; feature_name] in
    let cols := if add_age_days cfg
                then add_column (age_name feature_name) cols else cols in
    let cols := if add_missing_flags cfg
                then add_column (missing_name feature_name) cols else cols in
    Ok {| f_columns := cols;
          f_rows := map (fun lm => lookback_row cfg feature_name (fst lm) (snd lm))
                        merged |}.

(** The seasonality columns of one row. *)
Definition seasonality_row (ext : extern) (r : frow) : frow :=
  let month := inject_Z (dt_month (f_time r)) in
  let doy := inject_Z (dt_dayofyear (f_time r)) in
  let r := set_cell "month_sin" (FFloat (Some (sin_2pi ext month 12))) r in
  let r := set_cell "month_cos" (FFloat (Some (cos_2pi ext month 12))) r in
  let r := set_cell "doy_sin" (FFloat (Some (sin_2pi ext doy (1461 # 4)))) r in
  set_cell "doy_cos" (FFloat (Some (cos_2pi ext doy (1461 # 4)))) r.

(** [groupby(site)[time].diff()] in days; [last] holds the time of the last
    row seen for each site. *)
Fixpoint group_diff (last : list (string * Z)) (rows : list frow) : list frow :=
  match rows with
  | [] => []
  | r :: rows' =>
      let d := option_map (fun p => days_of_ns (f_time r - p))
                 (dict_get (f_site r) last) in
      set_cell "days_since_last_chl" (FFloat d) r
        :: group_diff (dict_set (f_site r) (f_time r) last) rows'
  end.

Definition _add_time_features (ext : extern) (self : builder) (df : fframe)
  : fframe :=
  let cfg := config self in
  let out := df in
  let out :=
    if add_seasonality cfg then
      {| f_columns :=
           fold_left (fun cols c => add_column c cols)
             ["month_sin"; "month_cos"; "doy_sin"; "doy_cos"] (f_columns out);
         f_rows := map (seasonality_row ext) (f_rows out) |}
    else out in
  if add_days_since_last_chl cfg then
    {| f_columns := add_column "days_since_last_chl" (f_columns out);
       f_rows := group_diff [] (sort_values frow_le (f_rows out)) |}
  else out.

Definition json_bool (b : bool) : string := if b then "true" else "false".

Definition json_det (ext : extern) (d : DeterminandId) : string :=
  match d with
  | DInt n => str_of_int n
  | DStr s => json_quote ext s
  end.

(** [json.dumps(asdict(self.config), sort_keys=True, default=str)]. *)
Definition config_json (ext : extern) (cfg : FeatureMatrixConfig) : string :=
  let field k v := (json_quote ext k ++ ": " ++ v)%string in
  ("{" ++ String.concat ", " [
     field "add_age_days" (json_bool (add_age_days cfg));
     field "add_days_since_last_chl" (json_bool (add_days_since_last_chl cfg));
     field "add_missing_flags" (json_bool (add_missing_flags cfg));
     field "add_seasonality" (json_bool (add_seasonality cfg));
     field "datetime_col" (json_quote ext (datetime_col cfg));
     field "determinand_cast" (json_quote ext (determinand_cast cfg));
     field "determinand_col" (json_quote ext (determinand_col cfg));
     field "feature_version" (json_quote ext (feature_version cfg));
     field "lookback_days" (str_of_int (lookback_days cfg));
     field "output_dir" (json_quote ext (output_dir cfg));
     field "predictor_ids"
       ("[" ++ String.concat ", " (map (json_det ext) (predictor_ids cfg)) ++ "]");
     field "site_col" (json_quote ext (site_col cfg));
     field "snapshot_id"
       (match snapshot_id cfg with
        | Some s => json_quote ext s
        | None => "null"
        end);
     field "target_determinand_id" (json_det ext (target_determinand_id cfg));
     field "threshold_ugL" (float_repr ext (threshold_ugL cfg));
     field "unit_col" (json_quote ext (unit_col cfg));
     field "value_col" (json_quote ext (value_col cfg));
     field "window_end_year" (str_of_int (window_end_year cfg));
     field "window_start_year" (str_of_int (window_start_year cfg))
   ] ++ "}")%string.

Definition _make_config_fingerprint (ext : extern) (self : builder) : string :=
  sha256_hexdigest ext (config_json ext (config self)).

(** [f"det_{pid}"]. *)
Definition feature_name (pid : DeterminandId) : string :=
  ("det_" ++ str_of_det pid)%string.

(** The loop of [build] over [cfg.predictor_ids]. *)
Fixpoint merge_predictors (ext : extern) (self : builder)
  (pids : list DeterminandId) (df_feat : fframe) : result fframe :=
  match pids with
  | [] => Ok df_feat
  | pid :: pids' =>
      pred <- _extract_predictor_series ext self pid ;;
      df_feat' <- _merge_asof_backward self df_feat pred (feature_name pid) ;;
      merge_predictors ext self pids' df_feat'
  end.

(** [df[name] = v] for a scalar [v]. *)
Definition set_scalar_column (name : string) (v : fcell) (df : fframe) : fframe :=
  {| f_columns := add_column name (f_columns df);
     f_rows := map (set_cell name v) (f_rows df) |}.

Definition Zsum (xs : list Z) : Z := fold_right Z.add 0%Z xs.

(** [builder.build()]: the feature matrix and the builder with its
    [artifacts] filled in. *)
Definition build (ext : extern) (self : builder) : result (fframe * builder) :=
  let cfg := config self in
  let fingerprint := _make_config_fingerprint ext self in
  anchor <- _build_target_anchor ext self ;;
  let df_feat := anchor in
  (* merge predictors *)
  df_feat <- merge_predictors ext self (predictor_ids cfg) df_feat ;;
  (* time-derived features *)
  let df_feat := _add_time_features ext self df_feat in
  (* deterministic ordering *)
  let df_feat := {| f_columns := f_columns df_feat;
                    f_rows := sort_values frow_le (f_rows df_feat) |} in
  (* governance columns *)
  let df_feat := set_scalar_column "feature_version"
                   (FStr (Some (feature_version cfg))) df_feat in
  let df_feat := set_scalar_column "feature_config_fingerprint"
                   (FStr (Some fingerprint)) df_feat in
  let df_feat := set_scalar_column "snapshot_id"
                   (FStr (snapshot_id cfg)) df_feat in
  let n := List.length (f_rows df_feat) in
  let n_pos := Zsum (map y (f_rows df_feat)) in
  let arts := dict_set "feature_config_fingerprint" (AStr fingerprint)
                (artifacts self) in
  let arts := dict_set "n_rows" (AInt (Z.of_nat n)) arts in
  let arts := dict_set "n_pos" (AInt n_pos) arts in
  let arts := dict_set "pos_rate"
                (AFloat (match n with
                         | O => None
                         | _ => Some (inject_Z n_pos / inject_Z (Z.of_nat n))
                         end)) arts in
  Ok (df_feat, {| _df := _df self; config := cfg; artifacts := arts |}).

(** [build_feature_matrix(df_clean, config)]. *)
Definition build_feature_matrix (ext : extern) (df_clean : clean_frame)
  (cfg : FeatureMatrixConfig) : result fframe :=
  b <- __init__ df_clean cfg ;;
  r <- build ext b ;;
  Ok (fst r).

End FeatureMatrixBuilder.

(** ** clean/builder.py: the determinand filter *)

Module CleanDatasetBuilder.

Import FeatureMatrixBuilder.

(** [str(x).strip().lstrip("0") or "0"], which is also what
    [.astype(str).str.strip().str.lstrip("0").replace("", "0")] makes of one
    cell. *)
Definition normalize_id (d : DeterminandId) : string :=
  match lstrip is_zero_digit (strip (str_of_det d)) with
  | EmptyString => "0"
  | s => s
  end.

(** [filter_determinands(df)]: the rows whose normalised identifier is
    wanted, each with its [_det_id_norm]. *)
Definition filter_determinands (determinand_ids : list DeterminandId)
  (df : list obs) : list (obs * string) :=
  let det_norm := map (fun o => normalize_id (o_det o)) df in
  let wanted := map normalize_id determinand_ids in
  select (map (fun k => str_in k wanted) det_norm) (combine df det_norm).

End CleanDatasetBuilder.

(** ** Concrete inputs

    The inputs of the repository's tests, and a few others, on which the
    definitions above are run. *)

Module Fixtures.

Import FeatureMatrixBuilder.

(** A stand-in for the outside world: a text of decimal digits is numeric
    and no other text is, printing and hashing are the identity. *)
Definition test_ext : extern := {|
  to_numeric_str := fun s =>
    match NilZero.int_of_string s with
    | Some d => Some (inject_Z (Z.of_int d))
    | None => None
    end;
  float_repr := fun _ => "<float>";
  json_quote := fun s => s;
  sha256_hexdigest := fun s => s;
  sin_2pi := fun _ _ => 0;
  cos_2pi := fun _ _ => 0
|}.

(** Midnight of the [d]-th of January 2005. *)
Definition jan_2005 (d : Z) : Z := ((12784 + d - 1) * NS_PER_DAY)%Z.

(** [tests/test_label_builder.py]: the frame [{"chl_ugL": [19.9, 20.0, 20.1]}]. *)
Definition boundary_frame : frame := {|
  nrows := 3;
  columns := [("chl_ugL", [CFloat (199 # 10); CFloat 20; CFloat (201 # 10)])]
|}.

(** A target column with a null and a text cell. *)
Definition dirty_frame : frame := {|
  nrows := 3;
  columns := [("chl_ugL", [CNull; CStr "n/a"; CFloat 25])]
|}.

Definition clean_columns : list string :=
  ["samplingPoint.notation"; "phenomenonTime"; "determinand.notation";
   "result"; "unit"; "_det_id_norm"].

(** The configuration of [tests/test_feature_matrix_builder.py], with the
    lookback and the two column switches left open. *)
Definition test_config (lookback : Z) (flags ages : bool) : FeatureMatrixConfig := {|
  datetime_col := "phenomenonTime";
  site_col := "samplingPoint.notation";
  determinand_col := "determinand.notation";
  value_col := "result";
  unit_col := "unit";
  determinand_cast := "str";
  window_start_year := 2005;
  window_end_year := 2025;
  target_determinand_id := DStr "7887";
  threshold_ugL := 20;
  predictor_ids := [DStr "348"];
  lookback_days := lookback;
  add_missing_flags := flags;
  add_age_days := ages;
  add_seasonality := true;
  add_days_since_last_chl := true;
  output_dir := "data/features";
  snapshot_id := Some "test_snap";
  feature_version := "FEAT_V1"
|}.

Definition mk_obs (site : string) (d : Z) (det : DeterminandId) (v : Q) : obs := {|
  o_datetime := Some (jan_2005 d);
  o_site := site;
  o_det := det;
  o_value := CFloat v;
  o_unit := "ug/L"
|}.

(** [test_feature_matrix_rows_equal_chl_anchors]. *)
Definition anchors_frame : clean_frame := {|
  df_columns := clean_columns;
  df_rows := [mk_obs "A" 1 (DStr "7887") 10;
              mk_obs "A" 10 (DStr "348") 1;
              mk_obs "A" 20 (DStr "7887") 30]
|}.

(** [test_lookback_enforced_stale_predictor_dropped]: a predictor on the
    1st, an anchor on the 10th. *)
Definition stale_frame : clean_frame := {|
  df_columns := clean_columns;
  df_rows := [mk_obs "A" 1 (DStr "348") 1;
              mk_obs "A" 10 (DStr "7887") 25]
|}.

Definition mk_builder (df : clean_frame) (cfg : FeatureMatrixConfig) : builder :=
  {| _df := df; config := cfg; artifacts := [] |}.

Definition empty_matrix : fframe := {| f_columns := []; f_rows := [] |}.

(** The matrix and the builder that a call of [build] returned. *)
Definition built_matrix (r : result (fframe * builder)) : fframe :=
  match r with
  | Ok (M, _) => M
  | Raise _ => empty_matrix
  end.

Definition built_builder (b : builder) (r : result (fframe * builder)) : builder :=
  match r with
  | Ok (_, b') => b'
  | Raise _ => b
  end.

Definition first_row (M : fframe) : frow :=
  hd {| f_site := ""; f_time := 0; chl_ugL := 0; y := 0; f_extra := [] |}
     (f_rows M).

(** The stale-predictor test with a lookback of five days, run. *)
Definition stale_builder : builder :=
  mk_builder stale_frame (test_config 5 true true).

Definition stale_matrix : fframe :=
  Eval vm_compute in built_matrix (build test_ext stale_builder).

Definition stale_built : builder :=
  Eval vm_compute in built_builder stale_builder (build test_ext stale_builder).

Definition stale_row : frow := Eval vm_compute in first_row stale_matrix.

(** The row-count test, run. *)
Definition anchors_builder : builder :=
  mk_builder anchors_frame (test_config 30 true true).

Definition anchors_matrix : fframe :=
  Eval vm_compute in built_matrix (build test_ext anchors_builder).

Definition anchors_built : builder :=
  Eval vm_compute in built_builder anchors_builder (build test_ext anchors_builder).

(** The same input with the missingness flags switched off. *)
Definition unflagged_builder : builder :=
  mk_builder stale_frame (test_config 5 false true).

(** The predictor series of both: one observation on the 1st of January. *)
Definition stale_series : list srow :=
  [{| s_site := "A"; s_time := jan_2005 1; s_value := 1 |}].

(** A table whose pH rows carry the identifier as the text [61], as the
    integer [61] and as the padded text [061]. *)
Definition ph_frame : clean_frame := {|
  df_columns := clean_columns;
  df_rows := [mk_obs "A" 1 (DStr "61") 7;
              mk_obs "A" 2 (DInt 61) 8;
              mk_obs "A" 3 (DStr "061") 9]
|}.

(** The default configuration with another comparison mode. *)
Definition cast_config (cast : string) : FeatureMatrixConfig := {|
  datetime_col := "phenomenonTime";
  site_col := "samplingPoint.notation";
  determinand_col := "determinand.notation";
  value_col := "result";
  unit_col := "unit";
  determinand_cast := cast;
  window_start_year := 2005;
  window_end_year := 2025;
  target_determinand_id := DInt 7887;
  threshold_ugL := 20;
  predictor_ids := [DInt 348; DInt 9686; DInt 61];
  lookback_days := 30;
  add_missing_flags := true;
  add_age_days := true;
  add_seasonality := true;
  add_days_since_last_chl := true;
  output_dir := "data/features";
  snapshot_id := None;
  feature_version := "FEAT_V1"
|}.

(** Anchors at two sites whose times interleave: A on the 1st and the
    20th, B on the 10th, and one predictor observation at A. *)
Definition two_site_frame : clean_frame := {|
  df_columns := clean_columns;
  df_rows := [mk_obs "A" 1 (DStr "7887") 10;
              mk_obs "B" 10 (DStr "7887") 30;
              mk_obs "A" 20 (DStr "7887") 30;
              mk_obs "A" 1 (DStr "348") 1]
|}.

(** The test configuration without predictors. *)
Definition no_predictor_config : FeatureMatrixConfig := {|
  datetime_col := "phenomenonTime";
  site_col := "samplingPoint.notation";
  determinand_col := "determinand.notation";
  value_col := "result";
  unit_col := "unit";
  determinand_cast := "str";
  window_start_year := 2005;
  window_end_year := 2025;
  target_determinand_id := DStr "7887";
  threshold_ugL := 20;
  predictor_ids := [];
  lookback_days := 30;
  add_missing_flags := true;
  add_age_days := true;
  add_seasonality := true;
  add_days_since_last_chl := true;
  output_dir := "data/features";
  snapshot_id := Some "test_snap";
  feature_version := "FEAT_V1"
|}.

End Fixtures.

(** ** The claims, in the terms of the code *)

Module Spec.

Import FeatureMatrixBuilder.

(** The columns that [df_clean] must have. *)
Definition required_columns (cfg : FeatureMatrixConfig) : list string :=
  [datetime_col cfg; site_col cfg; determinand_col cfg; value_col cfg;
   unit_col cfg].

(** The four configuration errors. *)
Definition bad_configuration (df : clean_frame) (cfg : FeatureMatrixConfig) : Prop :=
  (exists c, In c (required_columns cfg) /\ ~ In c (df_columns df)) \/
  ~ In (determinand_cast cfg) ["str"; "int"; "none"] \/
  (window_end_year cfg < window_start_year cfg)%Z \/
  (lookback_days cfg <= 0)%Z.

End Spec.

Module RollingSpec.

(** The values of [s] at the positions [t-w], ..., [t-1] that exist. *)
Definition prior_values (w t : nat) (s : list (option Q)) : list (option Q) :=
  map (fun i => nth i s None) (seq (t - w) (t - (t - w))).

(** The mean of a list of numbers; there is none for the empty list. *)
Definition mean_of (vs : list Q) : option Q :=
  match vs with
  | [] => None
  | _ => Some (Qsum vs / inject_Z (Z.of_nat (List.length vs)))
  end.

Definition strictly_increasing (vs : list Q) : Prop :=
  forall i j, (i < j)%nat -> (j < List.length vs)%nat -> nth i vs 0 < nth j vs 0.

(** [tests/test_features_leakage.py]: a toy frame with an increasing
    chlorophyll column. *)
Definition toy_values : list Q := [0; 1; 2; 3; 4; 5].

Definition toy_df : frame := {|
  nrows := 6;
  columns := [("chl", map CFloat toy_values)]
|}.

End RollingSpec.

Module MatrixSpec.

Import FeatureMatrixBuilder.

(** Whether an identifier cell [d] of the table is the determinand [target]
    under the configured comparison mode. *)
Definition det_matches (ext : extern) (cfg : FeatureMatrixConfig)
  (d target : DeterminandId) : bool :=
  if String.eqb (determinand_cast cfg) "str" then
    String.eqb (str_of_det d) (str_of_det target)
  else if String.eqb (determinand_cast cfg) "int" then
    match int_of_det target, numeric_of_det ext d with
    | Ok t, Some x => Qeq_bool x (inject_Z t)
    | _, _ => false
    end
  else
    match d, target with
    | DInt a, DInt b => Z.eqb a b
    | DStr a, DStr b => String.eqb a b
    | _, _ => false
    end.

(** A row of the series of determinand [id]: its timestamp parses, its year
    is in the window, its identifier is [id] and its value is numeric. *)
Definition in_series (ext : extern) (cfg : FeatureMatrixConfig)
  (id : DeterminandId) (o : obs) : bool :=
  match o_datetime o with
  | Some t =>
      (window_start_year cfg <=? dt_year t)%Z
      && (dt_year t <=? window_end_year cfg)%Z
      && det_matches ext cfg (o_det o) id
      && negb (isna (to_numeric ext (o_value o)))
  | None => false
  end.

(** The series row that a table row gives: site, parsed time, numeric
    value. *)
Definition series_row (ext : extern) (o : obs) : option srow :=
  match o_datetime o, to_numeric ext (o_value o) with
  | Some t, Some v => Some {| s_site := o_site o; s_time := t; s_value := v |}
  | _, _ => None
  end.

(** A target anchor: a row of the series of the target determinand. *)
Definition is_target_anchor (ext : extern) (cfg : FeatureMatrixConfig)
  (o : obs) : bool :=
  in_series ext cfg (target_determinand_id cfg) o.

Definition anchor_count (ext : extern) (cfg : FeatureMatrixConfig)
  (df : clean_frame) : nat :=
  List.length (filter (is_target_anchor ext cfg) (df_rows df)).

End MatrixSpec.

Module JoinSpec.

Import FeatureMatrixBuilder.

(** A row of the predictor series [S] that an anchor at [site] and time [t]
    may be joined with: same site, not after the anchor. *)
Definition eligible (S : list srow) (site : string) (t : Z) (o : srow) : Prop :=
  In o S /\ s_site o = site /\ (s_time o <= t)%Z.

(** An eligible row with the latest timestamp. *)
Definition latest_eligible (S : list srow) (site : string) (t : Z) (o : srow)
  : Prop :=
  eligible S site t o /\
  forall o', eligible S site t o' -> (s_time o' <= s_time o)%Z.

(** The observation at [t_obs] is at most [lookback_days] before [t]. *)
Definition within_lookback (cfg : FeatureMatrixConfig) (t t_obs : Z) : Prop :=
  (t - t_obs <= lookback_days cfg * NS_PER_DAY)%Z.

(** The column labels that [_merge_asof_backward] writes for a predictor. *)
Definition feature_labels (name : string) : list string :=
  [name; time_name name; age_name name; missing_name name].

Definition predictor_labels (pid : DeterminandId) : list string :=
  feature_labels (feature_name pid).

(** No two predictor columns share a label. *)
Definition labels_distinct (cfg : FeatureMatrixConfig) : Prop :=
  NoDup (flat_map predictor_labels (predictor_ids cfg)).

(** The age test of the lookback enforcement, on the matched row. *)
Definition match_age (t : Z) (m : option srow) : option Q :=
  option_map (fun o => days_of_ns (t - s_time o)) m.

Definition match_stale (cfg : FeatureMatrixConfig) (t : Z) (m : option srow)
  : bool :=
  gt (match_age t m) (inject_Z (lookback_days cfg)).

(** The cells of predictor [name] in row [r] are those that the join with
    the matched row [m] and the lookback enforcement leave. *)
Definition joined (cfg : FeatureMatrixConfig) (name : string)
  (m : option srow) (r : frow) : Prop :=
  let stale := match_stale cfg (f_time r) m in
  get_cell name r
    = Some (FFloat (if stale then None else option_map s_value m)) /\
  get_cell (time_name name) r
    = Some (FTime (if stale then None else option_map s_time m)) /\
  (add_age_days cfg = true ->
   get_cell (age_name name) r
     = Some (FFloat (if stale then None else match_age (f_time r) m))) /\
  (add_missing_flags cfg = true ->
   get_cell (missing_name name) r
     = Some (FInt (int_of_bool (if stale then true else isna m)))).

(** The row [r] carries the join of predictor [pid]: the match is the one
    that the backward search finds in the sorted series. *)
Definition row_joined (ext : extern) (self : builder) (pid : DeterminandId)
  (r : frow) : Prop :=
  forall S, _extract_predictor_series ext self pid = Ok S ->
    is_monotonic_increasing (map s_time (sort_values srow_le S)) = true /\
    joined (config self) (feature_name pid)
      (asof_scan s_time s_site (f_site r) (f_time r)
         (sort_values srow_le S) None) r.

(** Two rows with the same site and time that agree on the cells [ks]. *)
Definition agree_on (ks : list string) (r r' : frow) : Prop :=
  f_site r = f_site r' /\ f_time r = f_time r' /\
  forall k, In k ks -> get_cell k r = get_cell k r'.

(** The labels of the columns that [build] adds after the predictors. *)
Definition late_labels : list string :=
  ["month_sin"; "month_cos"; "doy_sin"; "doy_cos"; "days_since_last_chl";
   "feature_version"; "feature_config_fingerprint"; "snapshot_id"].

End JoinSpec.

Module ClaimsAsStated.

Import FeatureMatrixBuilder JoinSpec.

(** C1 as the specification words it: the joined value is the value of the
    latest eligible observation, whatever its age. *)
Definition asof_join_claim (ext : extern) (self : builder) : Prop :=
  forall self' M pid S r,
    build ext self = Ok (M, self') ->
    In pid (predictor_ids (config self)) ->
    _extract_predictor_series ext self pid = Ok S ->
    In r (f_rows M) ->
    ((forall o, ~ eligible S (f_site r) (f_time r) o) ->
     get_cell (feature_name pid) r = Some (FFloat None)) /\
    ((exists o, eligible S (f_site r) (f_time r) o) ->
     exists o, latest_eligible S (f_site r) (f_time r) o /\
               get_cell (feature_name pid) r = Some (FFloat (Some (s_value o)))).

(** C2 as the specification words it: the missing flag and the age are
    there for every row, whatever the configuration switches. *)
Definition staleness_claim (ext : extern) (self : builder) : Prop :=
  forall self' M pid S r,
    build ext self = Ok (M, self') ->
    In pid (predictor_ids (config self)) ->
    _extract_predictor_series ext self pid = Ok S ->
    In r (f_rows M) ->
    let name := feature_name pid in
    (forall o, latest_eligible S (f_site r) (f_time r) o ->
               ~ within_lookback (config self) (f_time r) (s_time o) ->
               get_cell name r = Some (FFloat None) /\
               get_cell (time_name name) r = Some (FTime None) /\
               get_cell (age_name name) r = Some (FFloat None) /\
               get_cell (missing_name name) r = Some (FInt 1)) /\
    (get_cell (missing_name name) r = Some (FInt 1) <->
     get_cell name r = Some (FFloat None)) /\
    (forall x, get_cell name r = Some (FFloat (Some x)) ->
               exists a, get_cell (age_name name) r = Some (FFloat (Some a)) /\
                         a <= inject_Z (lookback_days (config self))).

(** Two identifiers select the same series. *)
Definition same_series (ext : extern) (self : builder) (a b : DeterminandId)
  : Prop :=
  _extract_predictor_series ext self a = _extract_predictor_series ext self b.

(** C8 as the specification words it: under each of the three comparison
    modes the three spellings of 61 select the same series. *)
Definition identifier_equivalence_claim (ext : extern) : Prop :=
  forall self,
    In (determinand_cast (config self)) ["str"; "int"; "none"] ->
    same_series ext self (DStr "061") (DStr "61") /\
    same_series ext self (DStr "61") (DInt 61).

End ClaimsAsStated.

(** ** The order and the provenance of the rows of the matrix *)

Module OrderSpec.

Import FeatureMatrixBuilder MatrixSpec.

(** The order of [sort_values([site, time])] on two rows: an earlier site
    label, or the same site and a time that is not later. *)
Definition site_time_before (s1 : string) (t1 : Z) (s2 : string) (t2 : Z) : Prop :=
  String.compare s1 s2 = Lt \/ (s1 = s2 /\ (t1 <= t2)%Z).

(** Every row comes before every row below it. *)
Definition in_site_time_order (rows : list frow) : Prop :=
  forall i j ri rj, (i < j)%nat ->
    nth_error rows i = Some ri -> nth_error rows j = Some rj ->
    site_time_before (f_site ri) (f_time ri) (f_site rj) (f_time rj).

(** The anchor columns of a row: site, time, chlorophyll value and label. *)
Definition anchor_of (r : frow) : string * Z * Q * Z :=
  (f_site r, f_time r, chl_ugL r, y r).

(** The anchor that a row of the target series gives under [cfg]. *)
Definition anchor_of_series (cfg : FeatureMatrixConfig) (p : srow)
  : string * Z * Q * Z :=
  (s_site p, s_time p, s_value p,
   int_of_bool (Qgtb (s_value p) (threshold_ugL cfg))).

(** The target anchors of the input table, in the order of the table: site,
    parsed time, numeric value and label of every row of the target
    determinand in the year window. *)
Definition target_observations (ext : extern) (cfg : FeatureMatrixConfig)
  (df : clean_frame) : list (string * Z * Q * Z) :=
  flat_map (fun o => match series_row ext o with
                     | Some p => [anchor_of_series cfg p]
                     | None => []
                     end)
           (filter (is_target_anchor ext cfg) (df_rows df)).

(** Sorted as [sort_values([site, time])] leaves a frame. *)
Definition frow_sorted (rows : list frow) : Prop :=
  StronglySorted (fun a b => frow_le a b = true) rows.

(** The rows that [_add_time_features] starts from: the merged rows with
    their seasonality cells, if those are asked for. *)
Definition seasonal_rows (ext : extern) (self : builder) (df : fframe)
  : list frow :=
  if add_seasonality (config self)
  then map (seasonality_row ext) (f_rows df) else f_rows df.

(** The timestamps of the rows never go back, whatever the site. *)
Definition times_never_go_back (rows : list frow) : Prop :=
  forall i j ri rj, (i < j)%nat ->
    nth_error rows i = Some ri -> nth_error rows j = Some rj ->
    (f_time ri <= f_time rj)%Z.

End OrderSpec.

(** ** features/build_feature_matrix.py: [save] *)

Module FeatureMatrixStore.

Import FeatureMatrixBuilder.

(** A value of the JSON sidecar; the one list in it is a list of texts. *)
Inductive json : Type :=
| JNull
| JStr (s : string)
| JInt (n : Z)
| JFloat (x : option Q)
| JList (l : list string).

(** [self.artifacts.get(k)] as [json.dumps] sees it. *)
Definition json_of_artifact (a : option artifact) : json :=
  match a with
  | None => JNull
  | Some (AStr s) => JStr s
  | Some (AInt n) => JInt n
  | Some (AFloat x) => JFloat x
  end.

(** What [save] leaves in [cfg.output_dir]: the parquet file with the frame
    it was given and the sidecar with the metadata.  [out_path] is
    [out_dir / fname].  The failures of the file system are not part of the
    embedding. *)
Record saved : Type := {
  out_dir : string;
  fname : string;
  parquet : fframe;
  sidecar : string;
  meta : list (string * json)
}.

Definition save (self : builder) (df_feat : fframe) : saved :=
  let cfg := config self in
  let snap := match snapshot_id cfg with
              | Some EmptyString | None => "unknown_snapshot"
              | Some s => s
              end in
  let fname := ("features_" ++ snap ++ "_lb" ++ str_of_int (lookback_days cfg)
                ++ "_" ++ feature_version cfg ++ ".parquet")%string in
  {| out_dir := output_dir cfg;
     fname := fname;
     parquet := df_feat;
     sidecar := (fname ++ ".meta.json")%string;
     meta := [
       ("snapshot_id", match snapshot_id cfg with
                       | Some s => JStr s
                       | None => JNull
                       end);
       ("feature_version", JStr (feature_version cfg));
       ("lookback_days", JInt (lookback_days cfg));
       ("predictor_ids", JList (map str_of_det (predictor_ids cfg)));
       ("target_determinand_id", JStr (str_of_det (target_determinand_id cfg)));
       ("threshold_ugL", JFloat (Some (threshold_ugL cfg)));
       ("window", JStr (str_of_int (window_start_year cfg) ++ "-"
                        ++ str_of_int (window_end_year cfg))%string);
       ("feature_config_fingerprint",
        json_of_artifact (dict_get "feature_config_fingerprint" (artifacts self)));
       ("n_rows", json_of_artifact (dict_get "n_rows" (artifacts self)));
       ("n_pos", json_of_artifact (dict_get "n_pos" (artifacts self)));
       ("pos_rate", json_of_artifact (dict_get "pos_rate" (artifacts self)))
     ] |}.

End FeatureMatrixStore.

(** ** Notions for the time features and for changed configurations *)

Module TimeSpec.

Import FeatureMatrixBuilder.

(** The gap in days between row [i] of [rows] and the row above it, when
    both are at the same site; there is none for the first row and under a
    row of another site. *)
Definition previous_gap (rows : list frow) (i : nat) : option Q :=
  match i with
  | O => None
  | S k =>
      match nth_error rows k, nth_error rows i with
      | Some p, Some r =>
          if String.eqb (f_site p) (f_site r)
          then Some (days_of_ns (f_time r - f_time p)) else None
      | _, _ => None
      end
  end.

(** The time of the last row of [rows] at [site], [acc] if there is none. *)
Definition last_seen (site : string) (rows : list frow) (acc : option Z)
  : option Z :=
  fold_left (fun a p => if String.eqb (f_site p) site then Some (f_time p) else a)
            rows acc.

(** [dataclasses.replace(cfg, predictor_ids=pids)]. *)
Definition with_predictor_ids (cfg : FeatureMatrixConfig)
  (pids : list DeterminandId) : FeatureMatrixConfig := {|
  datetime_col := datetime_col cfg;
  site_col := site_col cfg;
  determinand_col := determinand_col cfg;
  value_col := value_col cfg;
  unit_col := unit_col cfg;
  determinand_cast := determinand_cast cfg;
  window_start_year := window_start_year cfg;
  window_end_year := window_end_year cfg;
  target_determinand_id := target_determinand_id cfg;
  threshold_ugL := threshold_ugL cfg;
  predictor_ids := pids;
  lookback_days := lookback_days cfg;
  add_missing_flags := add_missing_flags cfg;
  add_age_days := add_age_days cfg;
  add_seasonality := add_seasonality cfg;
  add_days_since_last_chl := add_days_since_last_chl cfg;
  output_dir := output_dir cfg;
  snapshot_id := snapshot_id cfg;
  feature_version := feature_version cfg
|}.

End TimeSpec.

(** ** More concrete inputs *)

Module Lakes.

Import FeatureMatrixBuilder Fixtures.

(** Two sites whose times do not interleave: chlorophyll at A on the 1st
    and the 5th of January 2005 and at B on the 10th and the 20th, with a
    phosphorus reading before three of the four. *)
Definition two_lakes_frame : clean_frame := {|
  df_columns := clean_columns;
  df_rows := [mk_obs "B" 20 (DStr "7887") 40;
              mk_obs "A" 5 (DStr "7887") 30;
              mk_obs "B" 10 (DStr "7887") 12;
              mk_obs "A" 1 (DStr "7887") 10;
              mk_obs "A" 3 (DStr "348") 2;
              mk_obs "B" 10 (DStr "348") 3]
|}.

Definition two_lakes_builder : builder :=
  mk_builder two_lakes_frame (test_config 30 true true).

Definition two_lakes_matrix : fframe :=
  Eval vm_compute in built_matrix (build test_ext two_lakes_builder).

Definition two_lakes_built : builder :=
  Eval vm_compute in
    built_builder two_lakes_builder (build test_ext two_lakes_builder).

(** The second row of the matrix: site A on the 5th. *)
Definition two_lakes_row : frow :=
  Eval vm_compute in
    nth 1 (f_rows two_lakes_matrix) (first_row two_lakes_matrix).

(** The same table with the acidity joined before the phosphorus. *)
Definition more_predictors_builder : builder :=
  mk_builder two_lakes_frame
    (TimeSpec.with_predictor_ids (test_config 30 true true)
       [DStr "61"; DStr "348"]).

Definition more_predictors_matrix : fframe :=
  Eval vm_compute in built_matrix (build test_ext more_predictors_builder).

Definition more_predictors_built : builder :=
  Eval vm_compute in
    built_builder more_predictors_builder (build test_ext more_predictors_builder).

Definition more_predictors_row : frow :=
  Eval vm_compute in
    nth 1 (f_rows more_predictors_matrix) (first_row more_predictors_matrix).

(** The same predictor as an integer and as a text: one label twice. *)
Definition repeated_builder : builder :=
  mk_builder anchors_frame
    (TimeSpec.with_predictor_ids (test_config 30 true true) [DInt 348; DStr "348"]).

(** Integer mode with a predictor identifier that is no number. *)
Definition unconvertible_builder : builder :=
  mk_builder ph_frame
    (TimeSpec.with_predictor_ids (cast_config "int") [DStr "pH"]).

End Lakes.

(** ** labels/label_builder.py: [audit_summary] *)

Module LabelAudit.

Import LabelBuilder.

(** The dict that [audit_summary] returns. *)
Record summary : Type := {
  n : Z;
  n_pos : Z;
  pos_rate : option Q;
  a_threshold_ugL : Q;
  a_strictly_greater : bool;
  a_label_version : string;
  a_label_config_fingerprint : string
}.

(** [int(x)] for a float: the fraction is cut off. *)
Definition int_of_float (x : Q) : Z := Z.quot (Qnum x) (Z.pos (Qden x)).

(** [Series.sum()] of a column of numbers, nulls skipped; [None] for a
    column that holds text. *)
Fixpoint nansum (col : list cell) : option Q :=
  match col with
  | [] => Some 0
  | c :: col' =>
      match c with
      | CFloat x => option_map (Qplus x) (nansum col')
      | CInt k => option_map (Qplus (inject_Z k)) (nansum col')
      | CNull => nansum col'
      | CStr _ => None
      end
  end.

(** [audit_summary(df)].  What [int(Series.sum())] makes of a column that
    holds text is left to [text_sum]. *)
Definition audit_summary (text_sum : list cell -> result Z) (ext : extern)
  (cfg : LabelConfig) (df : frame) : result summary :=
  match dict_get (label_col cfg) (columns df) with
  | None => Raise (ValueError "Missing label column")
  | Some col =>
      let n := Z.of_nat (nrows df) in
      n_pos <- (if (n =? 0)%Z then Ok 0%Z
                else match nansum col with
                     | Some x => Ok (int_of_float x)
                     | None => text_sum col
                     end) ;;
      let pos_rate := if (n =? 0)%Z then None
                      else Some (inject_Z n_pos / inject_Z n) in
      Ok {| n := n;
            n_pos := n_pos;
            pos_rate := pos_rate;
            a_threshold_ugL := threshold_ugL cfg;
            a_strictly_greater := strictly_greater cfg;
            a_label_version := label_version cfg;
            a_label_config_fingerprint := fingerprint ext cfg |}
  end.

(** The number of cells of a target column that get the label 1. *)
Definition exceedances (ext : extern) (cfg : LabelConfig) (col : list cell) : nat :=
  List.length (filter (fun c => (label_of cfg (to_numeric ext c) =? 1)%Z) col).

(** [dataclasses.replace(cfg, strictly_greater=b)]. *)
Definition with_strictly_greater (cfg : LabelConfig) (b : bool) : LabelConfig := {|
  chl_value_col := chl_value_col cfg;
  threshold_ugL := threshold_ugL cfg;
  label_col := label_col cfg;
  strictly_greater := b;
  label_version := label_version cfg
|}.

(** The three labels that [build_from_feature_matrix] writes. *)
Definition written_labels (cfg : LabelConfig) : list string :=
  [label_col cfg; "label_version"; "label_config_fingerprint"].

End LabelAudit.

(** ** features/feature_builder.py: [_lag_features] *)

Module LagFeatures.

Import FeatureBuilder.

(** [s.shift(k)] for any integer [k]: the values move down by [k] places
    for [k >= 0] and up by [-k] places for [k < 0]; what moves in is NaN. *)
Definition shift_by {A : Type} (k : Z) (s : list (option A)) : list (option A) :=
  if (0 <=? k)%Z then shift (Z.to_nat k) s
  else firstn (List.length s)
         (skipn (Z.to_nat (- k)) s ++ repeat None (Z.to_nat (- k))).

(** The loop of [_lag_features] over [lags]; the label is
    [f"{prefix}_{k}"]. *)
Fixpoint lag_loop (prefix : string) (s : list (option Q)) (lags : list Z)
  (out : list (string * list (option Q))) : list (string * list (option Q)) :=
  match lags with
  | [] => out
  | k :: lags' =>
      lag_loop prefix s lags' (dict_set (roll_name prefix k) (shift_by k s) out)
  end.

Definition _lag_features (ext : extern) (df : frame) (col : string)
  (lags : list Z) (prefix : string)
  : result (list (string * list (option Q))) :=
  match dict_get col (columns df) with
  | None => Raise (KeyError col)
  | Some cells =>
      let s := map (to_numeric ext) cells in
      Ok (lag_loop prefix s lags [])
  end.

(** The value of [s] at the integer position [j], NaN outside the series. *)
Definition value_at (s : list (option Q)) (j : Z) : option Q :=
  if ((0 <=? j) && (j <? Z.of_nat (List.length s)))%Z
  then nth (Z.to_nat j) s None else None.

End LagFeatures.

(** ** clean/builder.py: numeric coercion and validity rules *)

Module CleanLayer.

Import FeatureMatrixBuilder.

(** The fields of [CleanConfig] that the two steps below read. *)
Record CleanConfig : Type := {
  coerce_numeric_errors : string;
  drop_non_numeric : bool;
  drop_negative : bool;
  min_max_by_determinand : option (list (Z * (Q * Q)))
}.

(** One row of the table in the clean layer, seen through the configured
    columns; [V] is the type of the value column, an [object] cell before
    [coerce_numeric] and a float after it. *)
Record row (V : Type) : Type := {
  c_datetime : Z;
  c_site : string;
  c_det : DeterminandId;
  c_unit : option string;
  c_value : V
}.

Arguments c_datetime {V} r.
Arguments c_site {V} r.
Arguments c_det {V} r.
Arguments c_unit {V} r.
Arguments c_value {V} r.

(** [out[value_col] = v] on one row. *)
Definition with_value {V W : Type} (r : row V) (v : W) : row W :=
  {| c_datetime := c_datetime r; c_site := c_site r; c_det := c_det r;
     c_unit := c_unit r; c_value := v |}.

(** [Series.astype(float)] on an [object] column: the first cell that is
    no number raises.  What [float()] makes of a text is left to
    [float_of_text]. *)
Fixpoint astype_float (float_of_text : string -> result (option Q))
  (df : list (row cell)) : result (list (row (option Q))) :=
  match df with
  | [] => Ok []
  | r :: df' =>
      v <- match c_value r with
           | CFloat x => Ok (Some x)
           | CInt k => Ok (Some (inject_Z k))
           | CNull => Ok None
           | CStr s => float_of_text s
           end ;;
      out <- astype_float float_of_text df' ;;
      Ok (with_value r v :: out)
  end.

Definition coerce_numeric (float_of_text : string -> result (option Q))
  (ext : extern) (c : CleanConfig) (df : list (row cell))
  : result (list (row (option Q)) * Z) :=
  if negb (str_in (coerce_numeric_errors c) ["raise"; "coerce"]) then
    Raise (ValueError "coerce_numeric_errors must be 'raise' or 'coerce'")
  else if String.eqb (coerce_numeric_errors c) "raise" then
    (* strict: any non-numeric should raise *)
    out <- astype_float float_of_text df ;;
    Ok (out, 0%Z)
  else
    (* permissive: coerce to NaN, then drop if configured *)
    let out := map (fun r => with_value r (to_numeric ext (c_value r))) df in
    let non_numeric :=
      Z.of_nat (List.length (filter (fun r => isna (c_value r)) out)) in
    let out := if drop_non_numeric c
               then filter (fun r => negb (isna (c_value r))) out else out in
    Ok (out, non_numeric).

(** Float comparisons with a bound; a comparison with NaN is [False]. *)
Definition lt (x : option Q) (y : Q) : bool :=
  match x with Some v => negb (Qle_bool y v) | None => false end.

(** [out[determinand_col] == det_id] for an [int] key. *)
Definition det_is (d : DeterminandId) (det_id : Z) : bool :=
  match d with
  | DInt k => Z.eqb k det_id
  | DStr _ => false
  end.

(** A row that the rule of [det_id] drops. *)
Definition out_of_range (det_id : Z) (mn mx : Q) (r : row (option Q)) : bool :=
  det_is (c_det r) det_id && (lt (c_value r) mn || gt (c_value r) mx).

(** The loop of [apply_validity_rules] over [min_max_by_determinand]. *)
Fixpoint range_loop (rules : list (Z * (Q * Q))) (out : list (row (option Q)))
  (dropped : Z) : list (row (option Q)) * Z :=
  match rules with
  | [] => (out, dropped)
  | (det_id, (mn, mx)) :: rules' =>
      let bad := out_of_range det_id mn mx in
      range_loop rules'
        (filter (fun r => negb (bad r)) out)
        (dropped + Z.of_nat (List.length (filter bad out)))
  end.

Definition apply_validity_rules (c : CleanConfig) (df : list (row (option Q)))
  : list (row (option Q)) * Z :=
  let out := df in
  let dropped := 0%Z in
  let '(out, dropped) :=
    if drop_negative c then
      let mask r := lt (c_value r) 0 in
      (filter (fun r => negb (mask r)) out,
       (dropped + Z.of_nat (List.length (filter mask out)))%Z)
    else (out, dropped) in
  match min_max_by_determinand c with
  | Some (rule :: rules) => range_loop (rule :: rules) out dropped
  | _ => (out, dropped)
  end.

(** A row that passes every rule of the configuration. *)
Definition valid (c : CleanConfig) (r : row (option Q)) : bool :=
  (if drop_negative c then negb (lt (c_value r) 0) else true)
  && forallb (fun rule => negb (out_of_range (fst rule) (fst (snd rule))
                                  (snd (snd rule)) r))
       (match min_max_by_determinand c with Some rules => rules | None => [] end).

(** The configuration of the repository's tests, in coercing mode. *)
Definition test_config : CleanConfig := {|
  coerce_numeric_errors := "coerce";
  drop_non_numeric := true;
  drop_negative := true;
  min_max_by_determinand := None
|}.

(** [tests/test_clean_layer.py]: the four rows that the determinand filter
    leaves of [df_raw], on the 1st (twice), the 2nd and the 3rd of June
    2025. *)
Definition df_filtered : list (row cell) := [
  {| c_datetime := 1748772000000000000; c_site := "A"; c_det := DInt 100;
     c_unit := Some "mg/L"; c_value := CStr "1.0" |};
  {| c_datetime := 1748772000000000000; c_site := "A"; c_det := DInt 100;
     c_unit := Some "mg/L"; c_value := CStr "2.0" |};
  {| c_datetime := 1748858400000000000; c_site := "A"; c_det := DInt 200;
     c_unit := Some "mg/L"; c_value := CStr "x" |};
  {| c_datetime := 1748944800000000000; c_site := "B"; c_det := DInt 300;
     c_unit := Some "mg/L"; c_value := CStr "-0.5" |}
]%Z.

(** What the outside world makes of the four texts of the test. *)
Definition test_ext : extern := {|
  to_numeric_str := fun s =>
    if String.eqb s "1.0" then Some 1
    else if String.eqb s "2.0" then Some 2
    else if String.eqb s "-0.5" then Some (- (1 # 2))
    else None;
  float_repr := fun _ => "<float>";
  json_quote := fun s => s;
  sha256_hexdigest := fun s => s;
  sin_2pi := fun _ _ => 0;
  cos_2pi := fun _ _ => 0
|}.

(** [k] zeros before [s]. *)
Fixpoint pad_zeros (k : nat) (s : string) : string :=
  match k with
  | O => s
  | S k' => String "0"%char (pad_zeros k' s)
  end.

(** Whether [filter_determinands] wants the row. *)
Definition wanted (determinand_ids : list DeterminandId) (o : obs) : bool :=
  str_in (CleanDatasetBuilder.normalize_id (o_det o))
         (map CleanDatasetBuilder.normalize_id determinand_ids).

End CleanLayer.

(** ** baselines/baseline_models.py *)

Module Baselines.

(** One row of the frame that a baseline is given, seen through the columns
    [site_col], [time_col], [y_col] and [month_col]; the labels and the
    months are integers. *)
Record brow : Type := {
  b_site : string;
  b_time : Z;
  b_y : Z;
  b_month : Z
}.

Record bframe : Type := {
  b_columns : list string;
  b_rows : list brow
}.

(** A value of the [meta] dict of a result. *)
Inductive meta_value : Type :=
| MInt (k : Z)
| MFloat (x : Q)
| MDict (d : list (Z * Q)).

Record BaselineResult : Type := {
  name : string;
  y_true : list Z;
  y_score : list Q;
  y_pred : list Z;
  meta : list (string * meta_value)
}.

Definition brow_le (a b : brow) : bool :=
  site_time_le (b_site a) (b_time a) (b_site b) (b_time b).

(** How often [x] occurs. *)
Definition count_of (x : Z) (ys : list Z) : nat :=
  List.length (filter (Z.eqb x) ys).

(** [Series.mode().iloc[0]]: the most frequent value, the smallest one when
    several are; [candidates] are the values still to look at. *)
Fixpoint mode_among (ys : list Z) (candidates : list Z) (best : Z) : Z :=
  match candidates with
  | [] => best
  | x :: candidates' =>
      let better :=
        (count_of best ys <? count_of x ys)%nat
        || ((count_of best ys =? count_of x ys)%nat && (x <? best)%Z) in
      mode_among ys candidates' (if better then x else best)
  end.

Definition mode (ys : list Z) : Z :=
  match ys with
  | [] => 0%Z
  | y0 :: _ => mode_among ys ys y0
  end.

(** [d.groupby(site_col)[y_col].shift(1)]; [last] holds the label of the
    last row seen for each site. *)
Fixpoint group_shift (last : list (string * Z)) (rows : list brow)
  : list (option Z) :=
  match rows with
  | [] => []
  | r :: rows' =>
      dict_get (b_site r) last
        :: group_shift (dict_set (b_site r) (b_y r) last) rows'
  end.

(** [prev.fillna(fallback)]. *)
Definition fillna (fallback : Z) (prev : list (option Z)) : list Z :=
  map (fun p => match p with Some v => v | None => fallback end) prev.

Module PersistenceBaseline.

(** [predict(df, y_col=, site_col=, time_col=)]; a label that is no column
    of [df] is a [KeyError]. *)
Definition predict (df : bframe) (y_col site_col time_col : string)
  : result BaselineResult :=
  if negb (str_in site_col (b_columns df)) then Raise (KeyError site_col)
  else if negb (str_in time_col (b_columns df)) then Raise (KeyError time_col)
  else if negb (str_in y_col (b_columns df)) then Raise (KeyError y_col)
  else
    let d := sort_values brow_le (b_rows df) in
    let y_true := map b_y d in
    let prev := group_shift [] d in
    (* If no previous label, default to majority class *)
    let fallback := match d with
                    | [] => 0%Z
                    | _ => mode (map b_y d)
                    end in
    let y_pred := fillna fallback prev in
    let y_score := map inject_Z y_pred in
    Ok {| name := "persistence";
          y_true := y_true;
          y_score := y_score;
          y_pred := y_pred;
          meta := [("fallback_class", MInt fallback)] |}.

End PersistenceBaseline.

Module SeasonalMeanBaseline.

(** The baseline object: [month_col], [p_by_month], [global_p]. *)
Record state : Type := {
  month_col : string;
  p_by_month : list (Z * Q);
  global_p : Q
}.

(** [SeasonalMeanBaseline(month_col)]. *)
Definition __init__ (month_col : string) : state :=
  {| month_col := month_col; p_by_month := []; global_p := 0 |}.

(** [Series.mean()] of integer labels. *)
Definition mean (ys : list Z) : Q :=
  Qsum (map inject_Z ys) / inject_Z (Z.of_nat (List.length ys)).

(** The labels of the rows of month [m]. *)
Definition labels_of_month (m : Z) (rows : list brow) : list Z :=
  map b_y (filter (fun r => Z.eqb (b_month r) m) rows).

(** The group keys of [groupby(month_col)]: the months that occur, each
    once, in increasing order. *)
Definition months_of (rows : list brow) : list Z :=
  sort_values Z.leb (nodup Z.eq_dec (map b_month rows)).

(** [dict.get(k, default)] on integer keys. *)
Fixpoint get (k : Z) (d : list (Z * Q)) (default : Q) : Q :=
  match d with
  | [] => default
  | (k', v) :: d' => if Z.eqb k k' then v else get k d' default
  end.

Definition fit (self : state) (df_train : bframe) (y_col : string)
  : result state :=
  let d := b_rows df_train in
  if negb (str_in (month_col self) (b_columns df_train)) then
    Raise (ValueError "Missing month column for SeasonalMeanBaseline")
  else if negb (str_in y_col (b_columns df_train)) then Raise (KeyError y_col)
  else
    let global_p := match d with
                    | [] => 0
                    | _ => mean (map b_y d)
                    end in
    let grp := map (fun m => (m, mean (labels_of_month m d))) (months_of d) in
    Ok {| month_col := month_col self; p_by_month := grp; global_p := global_p |}.

Definition predict (self : state) (df : bframe) (y_col : string)
  : result BaselineResult :=
  let d := b_rows df in
  if negb (str_in (month_col self) (b_columns df)) then
    Raise (ValueError "Missing month column for SeasonalMeanBaseline")
  else if negb (str_in y_col (b_columns df)) then Raise (KeyError y_col)
  else
    let y_true := map b_y d in
    let months := map b_month d in
    let y_score := map (fun m => get m (p_by_month self) (global_p self)) months in
    let y_pred := map (fun s => int_of_bool (Qgeb s (1 # 2))) y_score in
    Ok {| name := "seasonal_mean";
          y_true := y_true;
          y_score := y_score;
          y_pred := y_pred;
          meta := [("global_p", MFloat (global_p self));
                   ("p_by_month", MDict (p_by_month self))] |}.

End SeasonalMeanBaseline.

(** The label of the row above row [i] of [rows] when both are at the same
    site. *)
Definition previous_label (rows : list brow) (i : nat) : option Z :=
  match i with
  | O => None
  | S k =>
      match nth_error rows k, nth_error rows i with
      | Some p, Some r =>
          if String.eqb (b_site p) (b_site r) then Some (b_y p) else None
      | _, _ => None
      end
  end.

(** The label of the last row of [rows] at [site], [acc] if there is none. *)
Definition last_label (site : string) (rows : list brow) (acc : option Z)
  : option Z :=
  fold_left (fun a p => if String.eqb (b_site p) site then Some (b_y p) else a)
            rows acc.

(** Every label is 0 or 1. *)
Definition binary (rows : list brow) : Prop :=
  forall r, In r rows -> b_y r = 0%Z \/ b_y r = 1%Z.

(** [tests/test_baselines.py]: one site, three days, labels 0, 1, 1. *)
Definition persistence_test : bframe := {|
  b_columns := ["samplingPoint.notation"; "phenomenonTime"; "y"];
  b_rows := [{| b_site := "A"; b_time := 1; b_y := 0; b_month := 1 |};
             {| b_site := "A"; b_time := 2; b_y := 1; b_month := 1 |};
             {| b_site := "A"; b_time := 3; b_y := 1; b_month := 1 |}]
|}.

(** [tests/test_baselines.py]: the frames of the seasonal test. *)
Definition seasonal_train : bframe := {|
  b_columns := ["month"; "y"];
  b_rows := [{| b_site := ""; b_time := 0; b_y := 0; b_month := 1 |};
             {| b_site := ""; b_time := 0; b_y := 1; b_month := 1 |};
             {| b_site := ""; b_time := 0; b_y := 0; b_month := 2 |};
             {| b_site := ""; b_time := 0; b_y := 0; b_month := 2 |}]
|}.

Definition seasonal_test : bframe := {|
  b_columns := ["month"; "y"];
  b_rows := [{| b_site := ""; b_time := 0; b_y := 0; b_month := 1 |};
             {| b_site := ""; b_time := 0; b_y := 0; b_month := 2 |};
             {| b_site := ""; b_time := 0; b_y := 1; b_month := 3 |}]
|}.

End Baselines.

(** ** Notions for leakage *)

Module LeakageSpec.

Import FeatureMatrixBuilder Fixtures Lakes.

(** A row of the table that carries a timestamp not after [T]. *)
Definition observed_by (T : Z) (o : obs) : bool :=
  match o_datetime o with
  | Some t => (t <=? T)%Z
  | None => false
  end.

(** The two-site table with a later phosphorus reading and a later
    chlorophyll sample at site B added: what the table holds ten days on. *)
Definition later_lakes_frame : clean_frame := {|
  df_columns := clean_columns;
  df_rows := df_rows two_lakes_frame
             ++ [mk_obs "B" 28 (DStr "348") 60; mk_obs "B" 30 (DStr "7887") 70]
|}.

Definition later_lakes_builder : builder :=
  mk_builder later_lakes_frame (test_config 30 true true).

Definition later_lakes_matrix : fframe :=
  Eval vm_compute in built_matrix (build test_ext later_lakes_builder).

Definition later_lakes_built : builder :=
  Eval vm_compute in
    built_builder later_lakes_builder (build test_ext later_lakes_builder).

Definition later_lakes_row : frow :=
  Eval vm_compute in
    nth 1 (f_rows later_lakes_matrix) (first_row later_lakes_matrix).

End LeakageSpec.

(** ** The matrix as the label builder reads it *)

Module Relabel.

Import FeatureMatrixBuilder.

(** The chlorophyll and label columns of a feature matrix as a frame, which
    is how [scripts/run_phase3_baselines.py] hands the matrix to the label
    builder. *)
Definition matrix_frame (M : fframe) : frame := {|
  nrows := List.length (f_rows M);
  columns := [("chl_ugL", map (fun r => CFloat (chl_ugL r)) (f_rows M));
              ("y", map (fun r => CInt (y r)) (f_rows M))]
|}.

(** [LabelConfig(chl_value_col="chl_ugL", threshold_ugL=t, label_col="y")]. *)
Definition label_config (t : Q) : LabelBuilder.LabelConfig := {|
  LabelBuilder.chl_value_col := "chl_ugL";
  LabelBuilder.threshold_ugL := t;
  LabelBuilder.label_col := "y";
  LabelBuilder.strictly_greater := true;
  LabelBuilder.label_version := "LBL_V1"
|}.

End Relabel.

(* ================================================================== *)
(** * Part II.  Properties                                             *)
(* ================================================================== *)

Unset Implicit Arguments.

(** ** Dictionaries, strings and results *)

Section Basics.

Lemma dict_get_set_eq {V : Type} (k : string) (v : V) (d : list (string * V)) :
  dict_get k (dict_set k v d) = Some v.
Proof.
  induction d as [|[k' v'] d IH]; simpl.
  - now rewrite String.eqb_refl.
  - destruct (String.eqb k k') eqn:E; simpl.
    + now rewrite String.eqb_refl.
    + now rewrite E.
Qed.

Lemma dict_get_set_neq {V : Type} (k k' : string) (v : V) (d : list (string * V)) :
  k <> k' -> dict_get k (dict_set k' v d) = dict_get k d.
Proof.
  intros Hne. apply String.eqb_neq in Hne.
  induction d as [|[k2 v2] d IH]; simpl.
  - now rewrite Hne.
  - destruct (String.eqb k' k2) eqn:E; simpl.
    + apply String.eqb_eq in E. subst k2. now rewrite Hne.
    + destruct (String.eqb k k2); [reflexivity | exact IH].
Qed.

Lemma str_in_In (x : string) (xs : list string) :
  str_in x xs = true <-> In x xs.
Proof.
  unfold str_in. rewrite existsb_exists. split.
  - intros [y [Hy E]]. apply String.eqb_eq in E. now subst.
  - intros H. exists x. split; [exact H | apply String.eqb_refl].
Qed.

Lemma str_in_not_In (x : string) (xs : list string) :
  str_in x xs = false <-> ~ In x xs.
Proof.
  rewrite <- str_in_In. destruct (str_in x xs); split; congruence.
Qed.

Lemma append_inj_l (p a b : string) : (p ++ a)%string = (p ++ b)%string -> a = b.
Proof.
  induction p as [|c p IH]; simpl; intros H; [exact H|].
  injection H as H. now apply IH.
Qed.

Lemma append_length (a b : string) :
  String.length (a ++ b) = (String.length a + String.length b)%nat.
Proof.
  induction a as [|c a IH]; simpl; [reflexivity | now rewrite IH].
Qed.

Lemma append_nonempty_neq (p a : string) : a <> EmptyString -> p <> (p ++ a)%string.
Proof.
  intros Ha H. apply (f_equal String.length) in H.
  rewrite append_length in H. destruct a; [congruence | simpl in H; lia].
Qed.

Lemma bind_Ok {A B : Type} (c : result A) (k : A -> result B) (b : B) :
  Py.bind c k = Ok b -> exists a, c = Ok a /\ k a = Ok b.
Proof.
  destruct c as [a|e]; simpl; intros H; [|discriminate].
  exists a. split; [reflexivity | exact H].
Qed.

End Basics.

(** ** White space and integer literals *)

Section Texts.

Import FeatureMatrixBuilder CleanDatasetBuilder CleanLayer.

(** [int()] skips the white space around a literal, takes a sign, leading
    zeros and single underscores between digits. *)
Example int_of_str_reads_literals :
  int_of_str " 61 " = Ok 61%Z /\
  int_of_str "+061" = Ok 61%Z /\
  int_of_str "-1_000" = Ok (-1000)%Z /\
  int_of_str (String "009" (String "160" "61")) = Ok 61%Z /\
  int_of_str (String "054" (String "049" (String "133" ""))) = Ok 61%Z.
Proof. repeat split; vm_compute; reflexivity. Qed.

(** [int()] refuses the empty text, a text that is no literal, white space
    or two signs inside a literal, an underscore that is not between two
    digits, and a literal of more than 4300 digits, leading zeros counted. *)
Example int_of_str_refuses :
  raises (int_of_str "") /\
  raises (int_of_str "pH") /\
  raises (int_of_str "6 1") /\
  raises (int_of_str "- 61") /\
  raises (int_of_str "+-61") /\
  raises (int_of_str "61_") /\
  raises (int_of_str "6__1") /\
  raises (int_of_str "61.0") /\
  raises (int_of_str (pad_zeros 4300 "1")) /\
  int_of_str (pad_zeros 4299 "1") = Ok 1%Z.
Proof.
  repeat split; try (eexists; vm_compute; reflexivity).
Qed.

(** The separator U+001C is white space for [str.strip()] and is none for
    [int()]: the filter of the clean layer reads the text as [61], and
    [int()] refuses it. *)
Example separator_is_stripped_and_refused :
  strip (String "028" "61") = "61" /\
  normalize_id (DStr (String "028" "61")) = "61" /\
  raises (int_of_str (String "028" "61")).
Proof.
  split; [reflexivity|]. split; [reflexivity|].
  eexists. vm_compute. reflexivity.
Qed.

(** The no-break space U+00A0 is stripped at both ends and is kept inside:
    behind a zero it stays, and the text is another identifier. *)
Example no_break_space_is_stripped :
  strip (String "160" "61") = "61" /\
  normalize_id (DStr (String "160" "61")) = "61" /\
  normalize_id (DStr (pad_zeros 1 (String "160" "61"))) = String "160" "61".
Proof. repeat split; vm_compute; reflexivity. Qed.

End Texts.

(** ** The label builder *)

Section LabelBuilderProperties.

Import LabelBuilder.

Variable ext : extern.

Lemma Qgtb_lt (x y : Q) : Qgtb x y = true <-> y < x.
Proof.
  unfold Qgtb. rewrite negb_true_iff. split.
  - intros H. apply Qnot_le_lt. intros Hle.
    apply Qle_bool_iff in Hle. congruence.
  - intros H. destruct (Qle_bool x y) eqn:E; [|reflexivity].
    apply Qle_bool_iff in E. exfalso. exact (Qlt_not_le _ _ H E).
Qed.

Lemma Qgeb_le (x y : Q) : Qgeb x y = true <-> y <= x.
Proof. unfold Qgeb. apply Qle_bool_iff. Qed.

Lemma label_of_bit (cfg : LabelConfig) (x : option Q) :
  label_of cfg x = 0%Z \/ label_of cfg x = 1%Z.
Proof.
  unfold label_of, int_of_bool.
  destruct (strictly_greater cfg);
    [destruct (gt x (threshold_ugL cfg)) | destruct (ge x (threshold_ugL cfg))];
    auto.
Qed.

Lemma label_of_nan (cfg : LabelConfig) : label_of cfg None = 0%Z.
Proof. unfold label_of. now destruct (strictly_greater cfg). Qed.

Lemma label_of_numeric (cfg : LabelConfig) (v : Q) :
  label_of cfg (Some v) = 1%Z <->
  if strictly_greater cfg then threshold_ugL cfg < v else threshold_ugL cfg <= v.
Proof.
  unfold label_of, int_of_bool, gt, ge.
  destruct (strictly_greater cfg).
  - rewrite <- Qgtb_lt. destruct (Qgtb v (threshold_ugL cfg)); split; congruence.
  - rewrite <- Qgeb_le. destruct (Qgeb v (threshold_ugL cfg)); split; congruence.
Qed.

(** The builder returns whenever the chlorophyll column is there, and the
    label column of its output is the pointwise label of that column. *)
Lemma build_from_feature_matrix_labels (cfg : LabelConfig) (df : frame)
  (col : list cell) :
  dict_get (chl_value_col cfg) (columns df) = Some col ->
  label_col cfg <> "label_version" ->
  label_col cfg <> "label_config_fingerprint" ->
  exists out,
    build_from_feature_matrix ext cfg df = Ok out /\
    dict_get (label_col cfg) (columns out) =
      Some (map (fun c => CInt (label_of cfg (to_numeric ext c))) col).
Proof.
  intros Hcol Hv Hf. unfold build_from_feature_matrix. rewrite Hcol.
  eexists. split; [reflexivity|].
  unfold set_column; simpl.
  rewrite dict_get_set_neq by exact Hf.
  rewrite dict_get_set_neq by exact Hv.
  rewrite dict_get_set_eq. now rewrite map_map.
Qed.

End LabelBuilderProperties.

Section LabelBuilderClaims.

Import LabelBuilder.

(** C7.  For a numeric target value the label builder gives label 1 exactly
    when the value is strictly greater than the threshold (with
    [strictly_greater]) or at least the threshold (without it), and 0
    otherwise; the anchor label of the feature matrix is always the strict
    rule; and threshold 20.0 in strict mode labels [19.9, 20.0, 20.1] as
    [0, 0, 1]. *)
Theorem label_builder_threshold_rule (ext : extern) :
  (forall (cfg : LabelConfig) (df : frame) (col : list cell) (i : nat)
          (c : cell) (v : Q),
      dict_get (chl_value_col cfg) (columns df) = Some col ->
      label_col cfg <> "label_version" ->
      label_col cfg <> "label_config_fingerprint" ->
      nth_error col i = Some c ->
      to_numeric ext c = Some v ->
      exists out labels l,
        build_from_feature_matrix ext cfg df = Ok out /\
        dict_get (label_col cfg) (columns out) = Some labels /\
        nth_error labels i = Some (CInt l) /\
        (l = 0 \/ l = 1)%Z /\
        (l = 1%Z <->
         if strictly_greater cfg
         then threshold_ugL cfg < v else threshold_ugL cfg <= v)) /\
  (forall (self : FeatureMatrixBuilder.builder) (anchor : FeatureMatrixBuilder.fframe)
          (r : FeatureMatrixBuilder.frow),
      FeatureMatrixBuilder._build_target_anchor ext self = Ok anchor ->
      In r (FeatureMatrixBuilder.f_rows anchor) ->
      (FeatureMatrixBuilder.y r = 0 \/ FeatureMatrixBuilder.y r = 1)%Z /\
      (FeatureMatrixBuilder.y r = 1%Z <->
       FeatureMatrixBuilder.threshold_ugL (FeatureMatrixBuilder.config self)
         < FeatureMatrixBuilder.chl_ugL r)) /\
  (exists out,
      build_from_feature_matrix ext default_config Fixtures.boundary_frame = Ok out /\
      dict_get "y" (columns out) = Some [CInt 0; CInt 0; CInt 1]).
Proof.
  split; [|split].
  - intros cfg df col i c v Hcol Hv Hf Hi Hnum.
    destruct (build_from_feature_matrix_labels ext cfg df col Hcol Hv Hf)
      as [out [Hout Hlab]].
    exists out, (map (fun c => CInt (label_of cfg (to_numeric ext c))) col),
      (label_of cfg (Some v)).
    repeat split; try assumption.
    + rewrite nth_error_map, Hi. simpl. now rewrite Hnum.
    + apply label_of_bit.
    + apply label_of_numeric.
    + apply label_of_numeric.
  - intros self anchor r Hb Hr.
    unfold FeatureMatrixBuilder._build_target_anchor in Hb.
    apply bind_Ok in Hb. destruct Hb as [df_t [_ Hb]].
    injection Hb as <-. simpl in Hr.
    apply in_map_iff in Hr. destruct Hr as [s [<- _]]. simpl.
    rewrite <- Qgtb_lt. unfold int_of_bool.
    destruct (Qgtb (FeatureMatrixBuilder.s_value s)
                (FeatureMatrixBuilder.threshold_ugL (FeatureMatrixBuilder.config self)));
      split; auto; split; congruence.
  - eexists. split; reflexivity.
Qed.

(** The boundary value itself, 20.0 at threshold 20.0, in strict mode. *)
Lemma label_builder_threshold_rule_witness :
  dict_get "chl_ugL" (columns Fixtures.boundary_frame)
    = Some [CFloat (199 # 10); CFloat 20; CFloat (201 # 10)] /\
  nth_error [CFloat (199 # 10); CFloat 20; CFloat (201 # 10)] 1 = Some (CFloat 20) /\
  exists out labels l,
    build_from_feature_matrix Fixtures.test_ext default_config
      Fixtures.boundary_frame = Ok out /\
    dict_get "y" (columns out) = Some labels /\
    nth_error labels 1 = Some (CInt l) /\
    (l = 0 \/ l = 1)%Z /\
    (l = 1%Z <-> 20 < 20).
Proof.
  split; [reflexivity|]. split; [reflexivity|].
  apply (proj1 (label_builder_threshold_rule Fixtures.test_ext)
           default_config Fixtures.boundary_frame
           [CFloat (199 # 10); CFloat 20; CFloat (201 # 10)] 1%nat
           (CFloat 20) 20).
  - reflexivity.
  - discriminate.
  - discriminate.
  - reflexivity.
  - reflexivity.
Defined.

(** C10.  On a frame that has the chlorophyll column the label builder
    returns; its label column has one 0/1 entry per row, and the entry of a
    value that is null or does not coerce to a number is 0. *)
Theorem label_builder_total_on_dirty_values (ext : extern) (cfg : LabelConfig)
  (df : frame) (col : list cell) :
  dict_get (chl_value_col cfg) (columns df) = Some col ->
  label_col cfg <> "label_version" ->
  label_col cfg <> "label_config_fingerprint" ->
  exists out labels,
    build_from_feature_matrix ext cfg df = Ok out /\
    dict_get (label_col cfg) (columns out) = Some labels /\
    List.length labels = List.length col /\
    Forall (fun l => l = CInt 0 \/ l = CInt 1) labels /\
    (forall i c, nth_error col i = Some c -> to_numeric ext c = None ->
                 nth_error labels i = Some (CInt 0)).
Proof.
  intros Hcol Hv Hf.
  destruct (build_from_feature_matrix_labels ext cfg df col Hcol Hv Hf)
    as [out [Hout Hlab]].
  exists out, (map (fun c => CInt (label_of cfg (to_numeric ext c))) col).
  repeat split; try assumption.
  - apply length_map.
  - apply Forall_forall. intros l Hl.
    apply in_map_iff in Hl. destruct Hl as [c [<- _]].
    destruct (label_of_bit cfg (to_numeric ext c)) as [E|E]; rewrite E; auto.
  - intros i c Hi Hnan. rewrite nth_error_map, Hi. simpl.
    now rewrite Hnan, label_of_nan.
Qed.

Lemma label_builder_total_on_dirty_values_witness :
  dict_get "chl_ugL" (columns Fixtures.dirty_frame)
    = Some [CNull; CStr "n/a"; CFloat 25] /\
  exists out labels,
    build_from_feature_matrix Fixtures.test_ext default_config
      Fixtures.dirty_frame = Ok out /\
    dict_get "y" (columns out) = Some labels /\
    List.length labels = 3%nat /\
    Forall (fun l => l = CInt 0 \/ l = CInt 1) labels /\
    (forall i c, nth_error [CNull; CStr "n/a"; CFloat 25] i = Some c ->
                 to_numeric Fixtures.test_ext c = None ->
                 nth_error labels i = Some (CInt 0)).
Proof.
  split; [reflexivity|].
  apply (label_builder_total_on_dirty_values Fixtures.test_ext default_config
           Fixtures.dirty_frame [CNull; CStr "n/a"; CFloat 25]).
  - reflexivity.
  - discriminate.
  - discriminate.
Defined.

End LabelBuilderClaims.

(** ** Construction of the feature-matrix builder *)

Section ConstructionClaims.

Import FeatureMatrixBuilder Spec.

Lemma filter_nil_iff {A : Type} (f : A -> bool) (l : list A) :
  filter f l = [] <-> forall x, In x l -> f x = false.
Proof.
  induction l as [|a l IH]; simpl.
  - split; [intros _ x [] | reflexivity].
  - destruct (f a) eqn:E.
    + split; [discriminate|]. intros H. specialize (H a (or_introl eq_refl)).
      congruence.
    + rewrite IH. split.
      * intros H x [<-|Hx]; auto.
      * intros H x Hx. apply H. now right.
Qed.

Lemma missing_columns_iff (df : clean_frame) (cfg : FeatureMatrixConfig) :
  filter (fun c => negb (str_in c (df_columns df))) (required_columns cfg) = []
  <-> ~ exists c, In c (required_columns cfg) /\ ~ In c (df_columns df).
Proof.
  rewrite filter_nil_iff. split.
  - intros H [c [Hc Hn]]. specialize (H c Hc).
    apply negb_false_iff, str_in_In in H. contradiction.
  - intros H c Hc. apply negb_false_iff.
    destruct (str_in c (df_columns df)) eqn:E; [reflexivity|].
    exfalso. apply H. exists c. split; [exact Hc|]. now apply str_in_not_In.
Qed.

Lemma validate_inputs_spec (df : clean_frame) (cfg : FeatureMatrixConfig)
  (arts : list (string * artifact)) :
  let self := {| _df := df; config := cfg; artifacts := arts |} in
  (bad_configuration df cfg /\ raises (_validate_inputs self)) \/
  (~ bad_configuration df cfg /\ _validate_inputs self = Ok tt).
Proof.
  cbv zeta. unfold _validate_inputs, bad_configuration. cbn [config _df].
  change [datetime_col cfg; site_col cfg; determinand_col cfg; value_col cfg;
          unit_col cfg] with (required_columns cfg).
  destruct (filter (fun c => negb (str_in c (df_columns df))) (required_columns cfg))
    as [|m ms] eqn:Hmiss; cbv beta iota.
  - apply missing_columns_iff in Hmiss.
    destruct (str_in (determinand_cast cfg) ["str"; "int"; "none"]) eqn:Hcast;
      cbn [negb].
    + apply str_in_In in Hcast.
      destruct (Z.ltb_spec (window_end_year cfg) (window_start_year cfg)) as [Hw|Hw].
      * left. split; [tauto | eexists; reflexivity].
      * destruct (Z.leb_spec (lookback_days cfg) 0) as [Hl|Hl].
        -- left. split; [tauto | eexists; reflexivity].
        -- right. split; [|reflexivity].
           intros [H|[H|[H|H]]]; try contradiction; lia.
    + apply str_in_not_In in Hcast.
      left. split; [tauto | eexists; reflexivity].
  - left. split; [|eexists; reflexivity].
    left.
    assert (Hm : In m (filter (fun c => negb (str_in c (df_columns df)))
                         (required_columns cfg)))
      by (rewrite Hmiss; now left).
    apply filter_In in Hm. destruct Hm as [Hm Hn]. exists m.
    split; [exact Hm|]. apply negb_true_iff in Hn. now apply str_in_not_In.
Qed.

(** C9.  Constructing the builder raises exactly when a required column is
    missing, the comparison mode is not an allowed one, the window ends
    before it starts, or the lookback is not positive.  Otherwise it returns
    the builder on the given frame and configuration with empty artifacts
    (no build step has run, nothing was defaulted); and a bad configuration
    makes [build_feature_matrix] raise too, before any build step. *)
Theorem construction_raises_iff_bad_configuration
  (df : clean_frame) (cfg : FeatureMatrixConfig) :
  (raises (__init__ df cfg) <-> bad_configuration df cfg) /\
  (~ bad_configuration df cfg ->
   __init__ df cfg = Ok {| _df := df; config := cfg; artifacts := [] |}) /\
  (forall ext, bad_configuration df cfg ->
               raises (build_feature_matrix ext df cfg)).
Proof.
  unfold build_feature_matrix, __init__.
  destruct (validate_inputs_spec df cfg []) as [[Hbad [e He]]|[Hok Hv]];
    simpl in *.
  - split; [|split].
    + rewrite He. simpl. split; [intros _; exact Hbad | intros _; now exists e].
    + intros Hn. contradiction.
    + intros ext _. rewrite He. simpl. now exists e.
  - split; [|split].
    + rewrite Hv. simpl. split; [intros [e He]; discriminate | contradiction].
    + intros _. now rewrite Hv.
    + intros ext Hbad. contradiction.
Qed.

End ConstructionClaims.

(** ** What [build] leaves in the builder *)

Section BuilderState.

Import FeatureMatrixBuilder Spec.

Variable ext : extern.

(** The construction witness of C9: the test configuration is accepted, and
    the same configuration with a zero lookback is refused. *)
Lemma construction_raises_iff_bad_configuration_witness :
  raises (__init__ Fixtures.stale_frame (Fixtures.test_config 0 true true)) /\
  __init__ Fixtures.anchors_frame (Fixtures.test_config 30 true true)
    = Ok (Fixtures.mk_builder Fixtures.anchors_frame
            (Fixtures.test_config 30 true true)).
Proof.
  split.
  - apply (proj1 (construction_raises_iff_bad_configuration
                    Fixtures.stale_frame (Fixtures.test_config 0 true true))).
    right. right. right. simpl. lia.
  - apply (proj1 (proj2 (construction_raises_iff_bad_configuration
                           Fixtures.anchors_frame
                           (Fixtures.test_config 30 true true)))).
    intros [[c [Hc Hn]]|[H|[H|H]]].
    + apply Hn. simpl in Hc. simpl. intuition (subst; auto).
    + apply H. simpl. auto.
    + simpl in H. lia.
    + simpl in H. lia.
Defined.

Lemma fingerprint_artifact (arts : list (string * artifact))
  (fp rate pos rows : artifact) :
  dict_get "feature_config_fingerprint"
    (dict_set "pos_rate" rate
       (dict_set "n_pos" pos
          (dict_set "n_rows" rows
             (dict_set "feature_config_fingerprint" fp arts)))) = Some fp.
Proof.
  rewrite !dict_get_set_neq by discriminate. apply dict_get_set_eq.
Qed.

Lemma build_keeps_inputs (b b' : builder) (M : fframe) :
  build ext b = Ok (M, b') ->
  _df b' = _df b /\ config b' = config b /\
  dict_get "feature_config_fingerprint" (artifacts b')
    = Some (AStr (_make_config_fingerprint ext b)).
Proof.
  unfold build. intros H.
  apply bind_Ok in H. destruct H as [anchor [_ H]].
  apply bind_Ok in H. destruct H as [df_feat [_ H]].
  injection H as _ <-. simpl. repeat split.
  apply fingerprint_artifact.
Qed.

End BuilderState.

(** ** Shifted rolling means *)

Section RollingClaims.

Import FeatureBuilder RollingSpec.

Lemma skipn_cons_nth {A : Type} (d : A) (l : list A) (k : nat) :
  (k < List.length l)%nat -> skipn k l = nth k l d :: skipn (S k) l.
Proof.
  revert k. induction l as [|a l IH]; intros k Hk; simpl in Hk; [lia|].
  destruct k as [|k]; [reflexivity|].
  simpl. apply IH. lia.
Qed.

Lemma firstn_skipn_seq {A : Type} (d : A) (l : list A) (n k : nat) :
  (k + n <= List.length l)%nat ->
  firstn n (skipn k l) = map (fun j => nth j l d) (seq k n).
Proof.
  revert k. induction n as [|n IH]; intros k Hk; [reflexivity|].
  rewrite (skipn_cons_nth d) by lia. rewrite firstn_cons. cbn [seq map].
  f_equal. apply IH. lia.
Qed.

Lemma shift_length {A : Type} (k : nat) (s : list (option A)) :
  List.length (shift k s) = List.length s.
Proof.
  unfold shift. rewrite length_firstn, length_app. lia.
Qed.

Lemma nth_shift1_0 {A : Type} (s : list (option A)) :
  nth 0 (shift 1 s) None = None.
Proof. unfold shift. now destruct s. Qed.

Lemma nth_shift1_S {A : Type} (s : list (option A)) (j : nat) :
  (S j < List.length s)%nat -> nth (S j) (shift 1 s) None = nth j s None.
Proof.
  intros Hj. unfold shift. rewrite nth_firstn.
  destruct (Nat.ltb_spec (S j) (List.length s)); [reflexivity | lia].
Qed.

(** The window of the shifted series at [t] holds the prior values of the
    series, after a leading NaN when the window is cut at the start. *)
Lemma dropna_window_shift (w t : nat) (s : list (option Q)) :
  (1 <= w)%nat -> (t < List.length s)%nat ->
  dropna (window w t (shift 1 s)) = dropna (prior_values w t s).
Proof.
  intros Hw Ht. unfold window, prior_values.
  rewrite (firstn_skipn_seq None) by (rewrite shift_length; lia).
  destruct (Nat.le_gt_cases w t) as [Hle|Hgt].
  - replace (t + 1 - w)%nat with (S (t - w)) by lia.
    replace (t + 1 - S (t - w))%nat with (t - (t - w))%nat by lia.
    rewrite <- seq_shift, map_map. f_equal.
    apply map_ext_in. intros j Hj. apply in_seq in Hj.
    apply nth_shift1_S. lia.
  - replace (t + 1 - w)%nat with 0%nat by lia.
    replace (t - w)%nat with 0%nat by lia.
    replace (t + 1 - 0)%nat with (S t) by lia. rewrite Nat.sub_0_r.
    simpl seq. simpl map. rewrite nth_shift1_0. simpl dropna.
    rewrite <- seq_shift, map_map. f_equal.
    apply map_ext_in. intros j Hj. apply in_seq in Hj.
    apply nth_shift1_S. lia.
Qed.

Lemma nanmean_1 (xs : list (option Q)) : nanmean 1 xs = mean_of (dropna xs).
Proof. unfold nanmean, mean_of. now destruct (dropna xs). Qed.

Lemma prior_values_length (w t : nat) (s : list (option Q)) :
  List.length (prior_values w t s) = Nat.min w t.
Proof. unfold prior_values. rewrite length_map, length_seq. lia. Qed.

(** The prior values read the series before position [t] only. *)
Lemma prior_values_firstn (w t : nat) (s : list (option Q)) :
  prior_values w t (firstn t s) = prior_values w t s.
Proof.
  unfold prior_values. apply map_ext_in. intros j Hj. apply in_seq in Hj.
  rewrite nth_firstn. destruct (Nat.ltb_spec j t); [reflexivity | lia].
Qed.

(** [s.shift(1).rolling(window=w, min_periods=1).mean()], position by
    position. *)
Lemma rolling_mean_shift1 (w : Z) (s : list (option Q)) :
  (1 <= w)%Z ->
  exists feat,
    rolling_mean w 1 (shift 1 s) = Ok feat /\
    List.length feat = List.length s /\
    forall t, (t < List.length s)%nat ->
      nth_error feat t = Some (mean_of (dropna (prior_values (Z.to_nat w) t s))).
Proof.
  intros Hw. unfold rolling_mean.
  destruct (Z.ltb_spec w 0) as [H|_]; [lia|].
  destruct (Z.ltb_spec w (Z.of_nat 1)) as [H|_]; [simpl in H; lia|].
  eexists. split; [reflexivity|]. split.
  - now rewrite length_map, length_seq, shift_length.
  - intros t Ht. rewrite nth_error_map, shift_length.
    rewrite (nth_error_nth' _ 0%nat) by (rewrite length_seq; lia).
    rewrite seq_nth by lia. simpl.
    rewrite nanmean_1, dropna_window_shift by lia. reflexivity.
Qed.

End RollingClaims.

Section RollingFeatureClaims.

Import FeatureBuilder RollingSpec.

Lemma str_of_int_inj (n m : Z) : str_of_int n = str_of_int m -> n = m.
Proof.
  unfold str_of_int. intros H.
  assert (Hnn : forall z, Z.to_int z <> Decimal.Pos Decimal.Nil /\
                          Z.to_int z <> Decimal.Neg Decimal.Nil).
  { intros [|p|p]; simpl; split; try discriminate;
      intros E; injection E as E;
      exact (Unsigned.to_uint_nonnil p E). }
  apply (f_equal NilZero.int_of_string) in H.
  rewrite !NilZero.isi in H by apply Hnn.
  injection H as H. now apply DecimalZ.to_int_inj.
Qed.

Lemma roll_name_inj (prefix : string) (w w' : Z) :
  roll_name prefix w = roll_name prefix w' -> w = w'.
Proof.
  unfold roll_name. intros H.
  apply append_inj_l in H. apply (append_inj_l "_") in H.
  now apply str_of_int_inj.
Qed.

(** The loop returns when every window is at least 1; each window's column
    is then in the dict under its name. *)
Lemma rolling_loop_columns (prefix : string) (s : list (option Q))
  (windows : list Z) :
  Forall (fun w => 1 <= w)%Z windows ->
  forall out0, exists out,
    rolling_loop prefix (shift 1 s) windows out0 = Ok out /\
    (forall w, In w windows ->
       exists feat,
         dict_get (roll_name prefix w) out = Some feat /\
         rolling_mean w 1 (shift 1 s) = Ok feat) /\
    (forall k, (forall w, In w windows -> k <> roll_name prefix w) ->
       dict_get k out = dict_get k out0).
Proof.
  induction 1 as [|w0 ws Hw0 Hws IH]; intros out0; simpl.
  - exists out0. split; [reflexivity|]. split; [intros w []|reflexivity].
  - destruct (rolling_mean_shift1 w0 s Hw0) as [feat0 [Hfeat0 _]].
    rewrite Hfeat0. simpl.
    destruct (IH (dict_set (roll_name prefix w0) feat0 out0))
      as [out [Hout [Hin Hother]]].
    exists out. split; [exact Hout|]. split.
    + intros w [<-|Hw]; [|now apply Hin].
      destruct (in_dec Z.eq_dec w0 ws) as [Hi|Hni]; [now apply Hin|].
      exists feat0. split; [|exact Hfeat0].
      rewrite Hother, dict_get_set_eq; [reflexivity|].
      intros w Hw E. apply roll_name_inj in E. now subst.
    + intros k Hk. rewrite Hother.
      * apply dict_get_set_neq. apply Hk. now left.
      * intros w Hw. apply Hk. now right.
Qed.

Lemma _rolling_mean_features_column (ext : extern) (df : frame) (col : string)
  (cells : list cell) (windows : list Z) (prefix : string) (w : Z) :
  dict_get col (columns df) = Some cells ->
  Forall (fun w' => 1 <= w')%Z windows ->
  In w windows ->
  exists out feat,
    _rolling_mean_features ext df col windows prefix = Ok out /\
    dict_get (roll_name prefix w) out = Some feat /\
    List.length feat = List.length cells /\
    forall t, (t < List.length cells)%nat ->
      nth_error feat t
      = Some (mean_of (dropna (prior_values (Z.to_nat w) t
                                 (map (to_numeric ext) cells)))).
Proof.
  intros Hcol Hall Hw. unfold _rolling_mean_features. rewrite Hcol.
  destruct (rolling_loop_columns prefix (map (to_numeric ext) cells) windows
              Hall [])
    as [out [Hout [Hin _]]].
  destruct (Hin w Hw) as [feat [Hget Hroll]].
  exists out, feat. split; [exact Hout|]. split; [exact Hget|].
  assert (H1 : (1 <= w)%Z) by (rewrite Forall_forall in Hall; now apply Hall).
  destruct (rolling_mean_shift1 w (map (to_numeric ext) cells) H1)
    as [feat' [Hroll' [Hlen Hnth]]].
  rewrite Hroll in Hroll'. injection Hroll' as <-.
  rewrite length_map in Hlen, Hnth. split; [exact Hlen | exact Hnth].
Qed.

(** C3.  For a window [w >= 1], the rolling-mean feature at position [t] is
    the mean of the non-null values among the positions [t-w .. t-1] of the
    series; there are [min w t] such positions, all before [t], so the value
    at [t] and after is not read; a partial window at the start gives the
    mean of the prior values that exist, and the feature is null only when
    there is no non-null prior value. *)
Theorem rolling_mean_uses_prior_values_only (ext : extern) (df : frame)
  (col : string) (cells : list cell) (windows : list Z) (prefix : string)
  (w : Z) (t : nat) :
  dict_get col (columns df) = Some cells ->
  Forall (fun w' => 1 <= w')%Z windows ->
  In w windows ->
  (t < List.length cells)%nat ->
  let s := map (to_numeric ext) cells in
  let prior := prior_values (Z.to_nat w) t (firstn t s) in
  exists out feat,
    _rolling_mean_features ext df col windows prefix = Ok out /\
    dict_get (roll_name prefix w) out = Some feat /\
    prior = map (fun i => nth i s None)
              (seq (t - Z.to_nat w) (Nat.min (Z.to_nat w) t)) /\
    nth_error feat t = Some (mean_of (dropna prior)) /\
    (nth_error feat t = Some None <-> dropna prior = []).
Proof.
  intros Hcol Hall Hw Ht s prior.
  destruct (_rolling_mean_features_column ext df col cells windows prefix w
              Hcol Hall Hw)
    as [out [feat [Hout [Hget [_ Hnth]]]]].
  exists out, feat. split; [exact Hout|]. split; [exact Hget|].
  subst prior. rewrite prior_values_firstn. split; [|split].
  - unfold prior_values. f_equal. f_equal. lia.
  - now apply Hnth.
  - rewrite (Hnth t Ht). fold s. unfold mean_of.
    destruct (dropna (prior_values (Z.to_nat w) t s)); split;
      congruence.
Qed.

Lemma Qsum_lt_bound (vs : list Q) (x : Q) :
  vs <> [] -> (forall v, In v vs -> v < x) ->
  Qsum vs < inject_Z (Z.of_nat (List.length vs)) * x.
Proof.
  induction vs as [|a vs IH]; intros Hne Hall; [congruence|].
  assert (Ha : a < x) by (apply Hall; now left).
  assert (Hn : inject_Z (Z.of_nat (List.length (a :: vs)))
               == 1 + inject_Z (Z.of_nat (List.length vs))).
  { simpl List.length. rewrite Nat2Z.inj_succ, <- Z.add_1_l, inject_Z_plus.
    reflexivity. }
  rewrite Hn. simpl Qsum.
  destruct vs as [|b vs].
  - simpl. change (inject_Z 0) with 0. lra.
  - assert (Hs : Qsum (b :: vs) < inject_Z (Z.of_nat (List.length (b :: vs))) * x).
    { apply IH; [discriminate|]. intros v Hv. apply Hall. now right. }
    lra.
Qed.

Lemma mean_of_lt (vs : list Q) (x m : Q) :
  (forall v, In v vs -> v < x) -> mean_of vs = Some m -> m < x.
Proof.
  intros Hall Hm. unfold mean_of in Hm.
  destruct vs as [|a vs]; [discriminate|]. injection Hm as <-.
  apply Qlt_shift_div_r.
  - change 0 with (inject_Z 0). rewrite <- Zlt_Qlt. simpl List.length. lia.
  - rewrite Qmult_comm.
    apply (Qsum_lt_bound (a :: vs) x); [discriminate | exact Hall].
Qed.

Lemma dropna_map_Some (vs : list Q) : dropna (map Some vs) = vs.
Proof. induction vs as [|v vs IH]; simpl; [reflexivity | now rewrite IH]. Qed.

(** C4.  On a strictly increasing series every non-null shifted rolling-mean
    feature is strictly below the raw value at the same position, at every
    position and so at every position beyond the warm-up window. *)
Theorem rolling_mean_below_current_value (ext : extern) (df : frame)
  (col : string) (cells : list cell) (vs : list Q) (windows : list Z)
  (prefix : string) (w : Z) :
  dict_get col (columns df) = Some cells ->
  map (to_numeric ext) cells = map Some vs ->
  strictly_increasing vs ->
  Forall (fun w' => 1 <= w')%Z windows ->
  In w windows ->
  exists out feat,
    _rolling_mean_features ext df col windows prefix = Ok out /\
    dict_get (roll_name prefix w) out = Some feat /\
    forall t m, nth_error feat t = Some (Some m) -> m < nth t vs 0.
Proof.
  intros Hcol Hnum Hinc Hall Hw.
  destruct (_rolling_mean_features_column ext df col cells windows prefix w
              Hcol Hall Hw)
    as [out [feat [Hout [Hget [Hlen Hnth]]]]].
  exists out, feat. split; [exact Hout|]. split; [exact Hget|].
  intros t m Ht.
  assert (Hlt : (t < List.length cells)%nat).
  { rewrite <- Hlen. apply nth_error_Some. congruence. }
  assert (Hvs : List.length vs = List.length cells).
  { apply (f_equal (@List.length _)) in Hnum. now rewrite !length_map in Hnum. }
  rewrite (Hnth t Hlt), Hnum in Ht. injection Ht as Ht.
  unfold prior_values in Ht.
  rewrite (map_ext_in _ (fun i => Some (nth i vs 0))) in Ht.
  - rewrite <- map_map, dropna_map_Some in Ht.
    eapply mean_of_lt; [|exact Ht]. intros v Hv.
    apply in_map_iff in Hv. destruct Hv as [i [<- Hi]].
    apply in_seq in Hi. apply Hinc; lia.
  - intros i Hi. apply in_seq in Hi.
    rewrite (nth_indep _ None (Some 0)) by (rewrite length_map; lia).
    apply (map_nth Some).
Qed.

End RollingFeatureClaims.

(** ** Sorting, masks and the as-of scan *)

Section PandasFacts.

Lemma insert_sorted_perm {A : Type} (le : A -> A -> bool) (x : A) (l : list A) :
  Permutation (x :: l) (insert_sorted le x l).
Proof.
  induction l as [|y l IH]; simpl; [reflexivity|].
  destruct (le x y); [reflexivity|].
  rewrite perm_swap. now apply perm_skip.
Qed.

Lemma sort_values_perm {A : Type} (le : A -> A -> bool) (l : list A) :
  Permutation l (sort_values le l).
Proof.
  induction l as [|x l IH]; simpl; [reflexivity|].
  rewrite <- insert_sorted_perm. now apply perm_skip.
Qed.

Lemma sort_values_length {A : Type} (le : A -> A -> bool) (l : list A) :
  List.length (sort_values le l) = List.length l.
Proof. symmetry. apply Permutation_length, sort_values_perm. Qed.

Lemma sort_values_In {A : Type} (le : A -> A -> bool) (l : list A) (x : A) :
  In x (sort_values le l) <-> In x l.
Proof.
  split; apply Permutation_in;
    [symmetry|]; apply sort_values_perm.
Qed.

Lemma select_map {A : Type} (f : A -> bool) (l : list A) :
  FeatureMatrixBuilder.select (map f l) l = filter f l.
Proof.
  induction l as [|a l IH]; simpl; [reflexivity|].
  destruct (f a); now rewrite IH.
Qed.

Lemma select_map_map {A B : Type} (g : A -> B) (f : B -> bool) (l : list A) :
  FeatureMatrixBuilder.select (map f (map g l)) l = filter (fun a => f (g a)) l.
Proof. rewrite map_map. apply select_map. Qed.

Lemma filter_filter {A : Type} (f g : A -> bool) (l : list A) :
  filter f (filter g l) = filter (fun a => g a && f a) l.
Proof.
  induction l as [|a l IH]; simpl; [reflexivity|].
  destruct (g a); simpl; [destruct (f a)|]; now rewrite IH.
Qed.

Lemma monotonic_cons (k : Z) (ks : list Z) :
  is_monotonic_increasing (k :: ks) = true ->
  is_monotonic_increasing ks = true /\ forall k', In k' ks -> (k <= k')%Z.
Proof.
  revert k. induction ks as [|k1 ks IH]; intros k H.
  - split; [reflexivity | intros k' []].
  - cbn [is_monotonic_increasing] in H. apply andb_prop in H.
    destruct H as [Hle Hks]. apply Z.leb_le in Hle.
    split; [exact Hks|].
    destruct (IH _ Hks) as [_ Hall].
    intros k' [<-|Hk']; [exact Hle|].
    specialize (Hall k' Hk'). lia.
Qed.

Section AsofScan.

Variables (R : Type) (r_on : R -> Z) (r_by : R -> string).

(** On sorted right keys the scan ends either on what it started with, when
    no right row is a candidate, or on a candidate with the greatest key. *)
Lemma asof_scan_spec (b : string) (t : Z) (right : list R) :
  is_monotonic_increasing (map r_on right) = true ->
  forall last,
    (asof_scan r_on r_by b t right last = last /\
     forall r, In r right -> ~ candidate r_on r_by b t r) \/
    (exists r,
        asof_scan r_on r_by b t right last = Some r /\
        In r right /\ candidate r_on r_by b t r /\
        forall r', In r' right -> candidate r_on r_by b t r' ->
                   (r_on r' <= r_on r)%Z).
Proof.
  induction right as [|r0 right IH]; intros Hsorted last.
  - left. split; [reflexivity | intros r []].
  - cbn [map] in Hsorted. apply monotonic_cons in Hsorted.
    destruct Hsorted as [Htail Hmin].
    assert (Hmin' : forall r, In r right -> (r_on r0 <= r_on r)%Z)
      by (intros r Hr; apply Hmin; now apply in_map).
    cbn [asof_scan].
    destruct (Z.leb_spec (r_on r0) t) as [Hle|Hgt].
    + destruct (IH Htail (if String.eqb (r_by r0) b then Some r0 else last))
        as [[Hres Hnone]|[r [Hres [Hin [Hcand Hmax]]]]].
      * destruct (String.eqb_spec (r_by r0) b) as [Hb|Hb].
        -- right. exists r0. split; [exact Hres|]. split; [now left|].
           split; [split; assumption|].
           intros r' [<-|Hr'] Hc; [lia|]. exfalso. exact (Hnone r' Hr' Hc).
        -- left. split; [exact Hres|].
           intros r [<-|Hr] Hc; [apply Hb, Hc | exact (Hnone r Hr Hc)].
      * right. exists r. split; [exact Hres|]. split; [now right|].
        split; [exact Hcand|].
        intros r' [<-|Hr'] Hc; [now apply Hmin' | now apply Hmax].
    + left. split; [reflexivity|].
      intros r [<-|Hr] [_ Hc]; [lia|]. specialize (Hmin' r Hr). lia.
Qed.

End AsofScan.

Lemma merge_asof_Ok (L R : Type) (l_on : L -> Z) (l_by : L -> string)
  (r_on : R -> Z) (r_by : R -> string) (left : list L) (right : list R)
  (merged : list (L * option R)) :
  merge_asof l_on l_by r_on r_by left right = Ok merged ->
  is_monotonic_increasing (map r_on right) = true /\
  merged = map (fun l => (l, asof_scan r_on r_by (l_by l) (l_on l) right None)) left.
Proof.
  unfold merge_asof.
  destruct (is_monotonic_increasing (map l_on left)); simpl; [|discriminate].
  destruct (is_monotonic_increasing (map r_on right)); simpl; [|discriminate].
  intros H. injection H as <-. split; reflexivity.
Qed.

(** pandas accepts the merge exactly when both key columns are sorted. *)
Lemma merge_asof_returns_iff (L R : Type) (l_on : L -> Z) (l_by : L -> string)
  (r_on : R -> Z) (r_by : R -> string) (left : list L) (right : list R) :
  returns (merge_asof l_on l_by r_on r_by left right) <->
  is_monotonic_increasing (map l_on left) = true /\
  is_monotonic_increasing (map r_on right) = true.
Proof.
  unfold merge_asof, returns.
  destruct (is_monotonic_increasing (map l_on left)); simpl.
  - destruct (is_monotonic_increasing (map r_on right)); simpl.
    + split; [auto | intros _; eexists; reflexivity].
    + split; [intros [a H]; discriminate | intros [_ H]; discriminate].
  - split; [intros [a H]; discriminate | intros [H _]; discriminate].
Qed.

End PandasFacts.

(** ** The row grain of the feature matrix *)

Section RowCount.

Import FeatureMatrixBuilder MatrixSpec.

Variable ext : extern.

Lemma normalize_det_matches (cfg : FeatureMatrixConfig)
  (series : list DeterminandId) (target : DeterminandId)
  (det_norm : list det_key) (target_norm : det_key) :
  _normalize_det ext cfg series target = Ok (det_norm, target_norm) ->
  map (fun k => key_eqb k target_norm) det_norm
  = map (fun d => det_matches ext cfg d target) series.
Proof.
  unfold _normalize_det, det_matches.
  destruct (String.eqb (determinand_cast cfg) "str").
  - intros H. injection H as <- <-. rewrite map_map. reflexivity.
  - destruct (String.eqb (determinand_cast cfg) "int").
    + destruct (int_of_det target) as [t|e]; simpl; [|discriminate].
      intros H. injection H as <- <-. rewrite map_map.
      apply map_ext. intros d. simpl. now destruct (numeric_of_det ext d).
    + intros H. injection H as <- <-. rewrite map_map.
      apply map_ext. intros [a|a]; destruct target as [b|b]; reflexivity.
Qed.

(** The series of a determinand, when the identifier normalises, is the
    sorted list of the numeric rows of that determinand in the window. *)
Lemma determinand_series_Ok (cfg : FeatureMatrixConfig) (df : clean_frame)
  (id : DeterminandId) (S : list srow) :
  determinand_series ext cfg df id = Ok S ->
  S = sort_values srow_le
        (numeric_rows ext
           (filter (fun r => det_matches ext cfg (o_det (w_obs r)) id)
                   (_filter_window cfg df))).
Proof.
  unfold determinand_series. intros H.
  apply bind_Ok in H. destruct H as [[det_norm target_norm] [Hnorm H]].
  injection H as <-.
  rewrite (normalize_det_matches _ _ _ _ _ Hnorm), select_map_map. reflexivity.
Qed.

Lemma numeric_rows_length (P : wrow -> bool) (rows : list obs) :
  List.length (numeric_rows ext (filter P (parse_datetimes rows)))
  = List.length
      (filter (fun o =>
                 match o_datetime o with
                 | Some t =>
                     P {| w_time := t; w_year := dt_year t; w_obs := o |}
                     && negb (isna (to_numeric ext (o_value o)))
                 | None => false
                 end) rows).
Proof.
  induction rows as [|o rows IH]; simpl; [reflexivity|].
  destruct (o_datetime o) as [t|]; simpl; [|exact IH].
  destruct (P {| w_time := t; w_year := dt_year t; w_obs := o |}); simpl;
    [|exact IH].
  destruct (to_numeric ext (o_value o)); simpl; now rewrite IH.
Qed.

Lemma determinand_series_length (cfg : FeatureMatrixConfig) (df : clean_frame)
  (id : DeterminandId) (S : list srow) :
  determinand_series ext cfg df id = Ok S ->
  List.length S = List.length (filter (in_series ext cfg id) (df_rows df)).
Proof.
  intros H. apply determinand_series_Ok in H. subst S.
  rewrite sort_values_length. unfold _filter_window.
  rewrite filter_filter, numeric_rows_length. reflexivity.
Qed.

Lemma parse_datetimes_In_iff (rows : list obs) (r : wrow) :
  In r (parse_datetimes rows) <->
  exists o t, In o rows /\ o_datetime o = Some t /\
              r = {| w_time := t; w_year := dt_year t; w_obs := o |}.
Proof.
  induction rows as [|o rows IH]; simpl.
  - split; [intros [] | intros [o [t [[] _]]]].
  - destruct (o_datetime o) as [t|] eqn:E; simpl; rewrite IH; split.
    + intros [<-|[o' [t' [Ho' H]]]]; [exists o, t; auto | exists o', t'; auto].
    + intros [o' [t' [[<-|Ho'] [Ht Hr]]]].
      * left. rewrite E in Ht. injection Ht as <-. now subst.
      * right. exists o', t'. auto.
    + intros [o' [t' [Ho' H]]]. exists o', t'. auto.
    + intros [o' [t' [[<-|Ho'] [Ht Hr]]]]; [congruence|].
      exists o', t'. auto.
Qed.

Lemma numeric_rows_In_iff (rows : list wrow) (p : srow) :
  In p (numeric_rows ext rows) <->
  exists r v, In r rows /\ to_numeric ext (o_value (w_obs r)) = Some v /\
              p = {| s_site := o_site (w_obs r); s_time := w_time r;
                     s_value := v |}.
Proof.
  induction rows as [|r rows IH]; simpl.
  - split; [intros [] | intros [r [v [[] _]]]].
  - destruct (to_numeric ext (o_value (w_obs r))) as [v|] eqn:E; simpl;
      rewrite IH; split.
    + intros [<-|[r' [v' [Hr' H]]]]; [exists r, v; auto | exists r', v'; auto].
    + intros [r' [v' [[<-|Hr'] [Hv Hp]]]].
      * left. rewrite E in Hv. injection Hv as <-. now subst.
      * right. exists r', v'. auto.
    + intros [r' [v' [Hr' H]]]. exists r', v'. auto.
    + intros [r' [v' [[<-|Hr'] [Hv Hp]]]]; [congruence|].
      exists r', v'. auto.
Qed.

(** The observations of a series are the rows of the table of that
    determinand with a parseable timestamp in the window and a numeric
    value. *)
Lemma determinand_series_In (cfg : FeatureMatrixConfig) (df : clean_frame)
  (id : DeterminandId) (S : list srow) :
  determinand_series ext cfg df id = Ok S ->
  forall p, In p S <->
            exists o, In o (df_rows df) /\ in_series ext cfg id o = true /\
                      series_row ext o = Some p.
Proof.
  intros H p. apply determinand_series_Ok in H. subst S.
  rewrite sort_values_In, numeric_rows_In_iff. unfold _filter_window. split.
  - intros [r [v [Hr [Hv ->]]]].
    apply filter_In in Hr. destruct Hr as [Hr Hdet].
    apply filter_In in Hr. destruct Hr as [Hr Hwin].
    apply parse_datetimes_In_iff in Hr. destruct Hr as [o [t [Ho [Ht ->]]]].
    simpl in *. exists o. split; [exact Ho|].
    unfold in_series, series_row. rewrite Ht, Hv, Hwin, Hdet. auto.
  - intros [o [Ho [Hin Hrow]]]. unfold in_series, series_row in *.
    destruct (o_datetime o) as [t|] eqn:Ht; [|discriminate].
    destruct (to_numeric ext (o_value o)) as [v|] eqn:Hv; [|discriminate].
    injection Hrow as <-.
    apply andb_prop in Hin. destruct Hin as [Hin _].
    apply andb_prop in Hin. destruct Hin as [Hwin Hdet].
    exists {| w_time := t; w_year := dt_year t; w_obs := o |}, v.
    split; [|split; [exact Hv | reflexivity]].
    apply filter_In. split; [|exact Hdet].
    apply filter_In. split; [|exact Hwin].
    apply parse_datetimes_In_iff. exists o, t. auto.
Qed.

Lemma _merge_asof_backward_rows (self : builder) (anchor merged : fframe)
  (pred : list srow) (name : string) :
  _merge_asof_backward self anchor pred name = Ok merged ->
  is_monotonic_increasing (map s_time (sort_values srow_le pred)) = true /\
  f_rows merged
  = map (fun l => lookback_row (config self) name l
                    (asof_scan s_time s_site (f_site l) (f_time l)
                       (sort_values srow_le pred) None))
        (sort_values frow_le (f_rows anchor)).
Proof.
  unfold _merge_asof_backward. intros H.
  apply bind_Ok in H. destruct H as [m [Hm H]].
  apply merge_asof_Ok in Hm. destruct Hm as [Hsorted ->].
  destruct (str_in name (f_columns anchor)
            || str_in (time_name name) (f_columns anchor)); [discriminate|].
  injection H as <-. simpl. split; [exact Hsorted|].
  now rewrite map_map.
Qed.

Lemma merge_predictors_length (self : builder) (pids : list DeterminandId)
  (df_feat merged : fframe) :
  merge_predictors ext self pids df_feat = Ok merged ->
  List.length (f_rows merged) = List.length (f_rows df_feat).
Proof.
  revert df_feat. induction pids as [|pid pids IH]; intros df_feat H; simpl in H.
  - now injection H as <-.
  - apply bind_Ok in H. destruct H as [pred [_ H]].
    apply bind_Ok in H. destruct H as [df_feat' [Hm H]].
    rewrite (IH _ H). apply _merge_asof_backward_rows in Hm.
    destruct Hm as [_ ->]. now rewrite length_map, sort_values_length.
Qed.

Lemma group_diff_length (last : list (string * Z)) (rows : list frow) :
  List.length (group_diff last rows) = List.length rows.
Proof.
  revert last. induction rows as [|r rows IH]; intros last; simpl;
    [reflexivity | now rewrite IH].
Qed.

Lemma _add_time_features_length (self : builder) (df : fframe) :
  List.length (f_rows (_add_time_features ext self df)) = List.length (f_rows df).
Proof.
  unfold _add_time_features.
  destruct (add_seasonality (config self)),
           (add_days_since_last_chl (config self)); simpl;
    rewrite ?group_diff_length, ?sort_values_length, ?length_map; reflexivity.
Qed.

(** The steps of [build], one after the other. *)
Lemma build_Ok (self self' : builder) (M : fframe) :
  build ext self = Ok (M, self') ->
  exists anchor df_feat,
    _build_target_anchor ext self = Ok anchor /\
    merge_predictors ext self (predictor_ids (config self)) anchor = Ok df_feat /\
    f_rows M
    = map (fun r =>
             set_cell "snapshot_id" (FStr (snapshot_id (config self)))
               (set_cell "feature_config_fingerprint"
                  (FStr (Some (_make_config_fingerprint ext self)))
                  (set_cell "feature_version"
                     (FStr (Some (feature_version (config self)))) r)))
          (sort_values frow_le (f_rows (_add_time_features ext self df_feat))) /\
    dict_get "n_rows" (artifacts self')
    = Some (AInt (Z.of_nat (List.length (f_rows M)))).
Proof.
  unfold build. intros H.
  apply bind_Ok in H. destruct H as [anchor [Ha H]].
  apply bind_Ok in H. destruct H as [df_feat [Hm H]].
  exists anchor, df_feat. split; [exact Ha|]. split; [exact Hm|].
  injection H as <- <-. simpl. split.
  - now rewrite !map_map.
  - rewrite !dict_get_set_neq by discriminate. now rewrite dict_get_set_eq.
Qed.

(** Whenever [build] returns, the feature matrix has one row per target
    anchor, and [artifacts["n_rows"]] records that number. *)
Lemma build_row_count (self self' : builder) (M : fframe) :
  build ext self = Ok (M, self') ->
  List.length (f_rows M) = anchor_count ext (config self) (_df self) /\
  dict_get "n_rows" (artifacts self')
  = Some (AInt (Z.of_nat (anchor_count ext (config self) (_df self)))).
Proof.
  intros H. apply build_Ok in H.
  destruct H as [anchor [df_feat [Ha [Hm [Hrows Hn]]]]].
  assert (Hlen : List.length (f_rows M) = anchor_count ext (config self) (_df self)).
  { rewrite Hrows, length_map, sort_values_length, _add_time_features_length.
    rewrite (merge_predictors_length _ _ _ _ Hm).
    unfold _build_target_anchor in Ha.
    apply bind_Ok in Ha. destruct Ha as [df_t [Hs Ha]].
    injection Ha as <-. simpl. rewrite length_map.
    now apply determinand_series_length. }
  split; [exact Hlen | now rewrite <- Hlen].
Qed.

End RowCount.

(** ** The backward join and the lookback window *)

Section JoinCells.

Import FeatureMatrixBuilder JoinSpec.

Lemma get_cell_set_eq (k : string) (v : fcell) (r : frow) :
  get_cell k (set_cell k v r) = Some v.
Proof. unfold get_cell, set_cell. simpl. apply dict_get_set_eq. Qed.

Lemma get_cell_set_neq (k k' : string) (v : fcell) (r : frow) :
  k <> k' -> get_cell k (set_cell k' v r) = get_cell k r.
Proof. unfold get_cell, set_cell. simpl. apply dict_get_set_neq. Qed.

Lemma suffix_neq (p a b : string) : a <> b -> (p ++ a)%string <> (p ++ b)%string.
Proof. intros Hab H. apply Hab. exact (append_inj_l _ _ _ H). Qed.

(** The four labels of one predictor are different strings. *)
Lemma feature_labels_neq (name : string) :
  name <> time_name name /\ name <> age_name name /\ name <> missing_name name /\
  time_name name <> age_name name /\ time_name name <> missing_name name /\
  age_name name <> missing_name name.
Proof.
  unfold time_name, age_name, missing_name.
  repeat split;
    try (apply append_nonempty_neq; discriminate);
    apply suffix_neq; discriminate.
Qed.

Lemma agree_on_refl (ks : list string) (r : frow) : agree_on ks r r.
Proof. repeat split. Qed.

Lemma agree_on_trans (ks : list string) (r1 r2 r3 : frow) :
  agree_on ks r1 r2 -> agree_on ks r2 r3 -> agree_on ks r1 r3.
Proof.
  intros [Hs1 [Ht1 Hk1]] [Hs2 [Ht2 Hk2]]. repeat split; try congruence.
  intros k Hk. now rewrite Hk1, Hk2.
Qed.

Lemma set_cell_agree (ks : list string) (k : string) (v : fcell) (r : frow) :
  ~ In k ks -> agree_on ks (set_cell k v r) r.
Proof.
  intros Hk. repeat split. intros k' Hk'.
  apply get_cell_set_neq. intros <-. contradiction.
Qed.

(** [_merge_asof_backward] writes the four labels of its predictor and
    nothing else. *)
Lemma lookback_row_agree (ks : list string) (cfg : FeatureMatrixConfig)
  (name : string) (l : frow) (m : option srow) :
  (forall k, In k (feature_labels name) -> ~ In k ks) ->
  agree_on ks (lookback_row cfg name l m) l.
Proof.
  intros Hfresh. unfold lookback_row.
  assert (H0 := Hfresh name (or_introl eq_refl)).
  assert (H1 := Hfresh (time_name name) (or_intror (or_introl eq_refl))).
  assert (H2 := Hfresh (age_name name)
                  (or_intror (or_intror (or_introl eq_refl)))).
  assert (H3 := Hfresh (missing_name name)
                  (or_intror (or_intror (or_intror (or_introl eq_refl))))).
  destruct (add_age_days cfg), (add_missing_flags cfg),
    (gt (option_map (fun t => days_of_ns (f_time l - t)) (option_map s_time m))
        (inject_Z (lookback_days cfg)));
    repeat (eapply agree_on_trans; [apply set_cell_agree; assumption|]);
    apply agree_on_refl.
Qed.

Lemma match_age_eq (t : Z) (m : option srow) :
  option_map (fun tp => days_of_ns (t - tp)) (option_map s_time m) = match_age t m.
Proof. now destruct m. Qed.

(** What [_merge_asof_backward] leaves in the four cells of its predictor. *)
Lemma lookback_row_joined (cfg : FeatureMatrixConfig) (name : string)
  (l : frow) (m : option srow) :
  joined cfg name m (lookback_row cfg name l m).
Proof.
  destruct (feature_labels_neq name) as [N01 [N02 [N03 [N12 [N13 N23]]]]].
  assert (N10 : time_name name <> name) by congruence.
  assert (N20 : age_name name <> name) by congruence.
  assert (N30 : missing_name name <> name) by congruence.
  assert (N21 : age_name name <> time_name name) by congruence.
  assert (N31 : missing_name name <> time_name name) by congruence.
  assert (N32 : missing_name name <> age_name name) by congruence.
  unfold joined, match_stale, lookback_row. cbv zeta.
  rewrite match_age_eq.
  destruct (add_age_days cfg), (add_missing_flags cfg),
    (gt (match_age (f_time l) m) (inject_Z (lookback_days cfg))) eqn:Hst;
    cbn [f_time set_cell]; rewrite ?Hst;
    repeat split; intros;
    try discriminate;
    repeat first [ rewrite get_cell_set_eq
                 | rewrite get_cell_set_neq by assumption ];
    try reflexivity;
    try (destruct m; reflexivity).
Qed.

Lemma joined_agree (cfg : FeatureMatrixConfig) (name : string)
  (m : option srow) (r r' : frow) :
  agree_on (feature_labels name) r' r ->
  joined cfg name m r -> joined cfg name m r'.
Proof.
  intros [_ [Ht Hk]] [J0 [J1 [J2 J3]]]. unfold joined. rewrite Ht.
  rewrite !Hk by (simpl; auto). repeat split; assumption.
Qed.

Lemma row_joined_agree (ext : extern) (self : builder) (pid : DeterminandId)
  (r r' : frow) :
  agree_on (predictor_labels pid) r' r ->
  row_joined ext self pid r -> row_joined ext self pid r'.
Proof.
  intros Ha Hr S HS. destruct (Hr S HS) as [Hsorted Hj].
  split; [exact Hsorted|].
  destruct Ha as [Hs [Ht Hk]]. rewrite Hs, Ht.
  apply (joined_agree _ _ _ r); [|exact Hj].
  repeat split; assumption.
Qed.

End JoinCells.

Section JoinInvariant.

Import FeatureMatrixBuilder JoinSpec.

Variable ext : extern.
Variable self : builder.

Lemma NoDup_app_disjoint {A : Type} (l1 l2 : list A) :
  NoDup (l1 ++ l2) -> forall a, In a l1 -> ~ In a l2.
Proof.
  induction l1 as [|x l1 IH]; intros Hnd a Ha; [destruct Ha|].
  simpl in Hnd. inversion Hnd as [|? ? Hx Hnd']; subst.
  destruct Ha as [<-|Ha].
  - intros H2. apply Hx. apply in_or_app. now right.
  - now apply IH.
Qed.

(** Labels of different predictors of a duplicate-free configuration. *)
Lemma labels_disjoint (done pids : list DeterminandId) (pid q : DeterminandId) :
  NoDup (flat_map predictor_labels (done ++ pid :: pids)) ->
  In q done ->
  forall k, In k (predictor_labels pid) -> ~ In k (predictor_labels q).
Proof.
  intros Hnd Hq k Hk Hkq.
  rewrite flat_map_app in Hnd.
  apply (NoDup_app_disjoint _ _ Hnd k).
  - apply in_flat_map. now exists q.
  - apply in_flat_map. exists pid. split; [now left | exact Hk].
Qed.

(** After the loop over the predictors every row carries the join of every
    predictor. *)
Lemma merge_predictors_joined (pids : list DeterminandId) :
  forall (done : list DeterminandId) (A M : fframe),
    merge_predictors ext self pids A = Ok M ->
    NoDup (flat_map predictor_labels (done ++ pids)) ->
    (forall r pid, In r (f_rows A) -> In pid done -> row_joined ext self pid r) ->
    forall r pid, In r (f_rows M) -> In pid (done ++ pids) ->
                  row_joined ext self pid r.
Proof.
  induction pids as [|pid pids IH]; intros done A M HM Hnd HA r q Hr Hq.
  - simpl in HM. injection HM as <-. rewrite app_nil_r in Hq. now apply HA.
  - simpl in HM.
    apply bind_Ok in HM. destruct HM as [pred [Hpred HM]].
    apply bind_Ok in HM. destruct HM as [A' [HA' HM]].
    apply _merge_asof_backward_rows in HA'. destruct HA' as [Hsorted Hrows].
    apply (IH (done ++ [pid]) A' M HM).
    + now rewrite <- app_assoc.
    + clear r q Hr Hq. intros r q Hr Hq.
      rewrite Hrows in Hr. apply in_map_iff in Hr.
      destruct Hr as [l [<- Hl]]. apply sort_values_In in Hl.
      apply in_app_or in Hq. destruct Hq as [Hq|[<-|[]]].
      * apply (row_joined_agree ext self q l); [|now apply HA].
        apply lookback_row_agree. intros k Hk.
        exact (labels_disjoint _ _ _ _ Hnd Hq k Hk).
      * intros S HS. rewrite Hpred in HS. injection HS as <-.
        split; [exact Hsorted|].
        destruct (lookback_row_agree [] (config self) (feature_name pid) l
                    (asof_scan s_time s_site (f_site l) (f_time l)
                       (sort_values srow_le pred) None))
          as [Hs [Ht _]]; [intros k _ []|].
        rewrite Hs, Ht. apply lookback_row_joined.
    + exact Hr.
    + now rewrite <- app_assoc.
Qed.

Lemma predictor_labels_not_late (pid : DeterminandId) (k : string) :
  In k (predictor_labels pid) -> ~ In k late_labels.
Proof.
  unfold predictor_labels, feature_labels, feature_name, time_name, age_name,
    missing_name, late_labels.
  simpl. intros [<-|[<-|[<-|[<-|[]]]]] H;
    repeat (destruct H as [H|H]; [discriminate H|]); exact H.
Qed.

Lemma group_diff_In (last : list (string * Z)) (rows : list frow) (r : frow) :
  In r (group_diff last rows) ->
  exists r0 v, In r0 rows /\ r = set_cell "days_since_last_chl" v r0.
Proof.
  revert last. induction rows as [|r1 rows IH]; intros last Hr; simpl in Hr;
    [destruct Hr|].
  destruct Hr as [<-|Hr].
  - eexists r1, _. split; [now left | reflexivity].
  - destruct (IH _ Hr) as [r0 [v [H0 ->]]].
    exists r0, v. split; [now right | reflexivity].
Qed.

(** The columns added after the predictors leave the predictor cells, the
    site and the time of every row as they are. *)
Lemma _add_time_features_agree (ks : list string) (df : fframe) (r : frow) :
  (forall k, In k ks -> ~ In k late_labels) ->
  In r (f_rows (_add_time_features ext self df)) ->
  exists r0, In r0 (f_rows df) /\ agree_on ks r r0.
Proof.
  intros Hks. unfold late_labels in Hks.
  assert (Hset : forall k v r', In k late_labels -> agree_on ks (set_cell k v r') r').
  { intros k v r' Hk. apply set_cell_agree. intros Hin. exact (Hks k Hin Hk). }
  assert (Hseason : forall r', agree_on ks (seasonality_row ext r') r').
  { intros r'. unfold seasonality_row.
    repeat (eapply agree_on_trans; [apply Hset; unfold late_labels; simpl; tauto|]).
    apply agree_on_refl. }
  unfold _add_time_features.
  destruct (add_seasonality (config self)),
           (add_days_since_last_chl (config self)); simpl; intros Hr.
  - apply group_diff_In in Hr. destruct Hr as [r1 [v [Hr1 ->]]].
    apply sort_values_In, in_map_iff in Hr1. destruct Hr1 as [r0 [<- Hr0]].
    exists r0. split; [exact Hr0|].
    eapply agree_on_trans; [apply Hset; unfold late_labels; simpl; tauto|].
    apply Hseason.
  - apply in_map_iff in Hr. destruct Hr as [r0 [<- Hr0]].
    exists r0. split; [exact Hr0 | apply Hseason].
  - apply group_diff_In in Hr. destruct Hr as [r0 [v [Hr0 ->]]].
    apply sort_values_In in Hr0.
    exists r0. split; [exact Hr0|].
    apply Hset. unfold late_labels; simpl; tauto.
  - exists r. split; [exact Hr | apply agree_on_refl].
Qed.

(** Every row of the feature matrix carries the join of every configured
    predictor. *)
Lemma build_rows_joined (self' : builder) (M : fframe) :
  build ext self = Ok (M, self') ->
  labels_distinct (config self) ->
  forall r pid, In r (f_rows M) -> In pid (predictor_ids (config self)) ->
                row_joined ext self pid r.
Proof.
  intros HM Hnd r pid Hr Hpid.
  apply build_Ok in HM. destruct HM as [anchor [df_feat [_ [Hm [Hrows _]]]]].
  rewrite Hrows in Hr. apply in_map_iff in Hr. destruct Hr as [r1 [<- Hr1]].
  apply sort_values_In in Hr1.
  destruct (_add_time_features_agree (predictor_labels pid) df_feat r1
              (predictor_labels_not_late pid) Hr1) as [r0 [Hr0 Hagree]].
  assert (Hlate : forall k, In k late_labels -> ~ In k (predictor_labels pid)).
  { intros k Hk Hin. exact (predictor_labels_not_late pid k Hin Hk). }
  apply (row_joined_agree ext self pid r0).
  - repeat (eapply agree_on_trans;
            [apply set_cell_agree; apply Hlate; unfold late_labels; simpl; tauto|]).
    exact Hagree.
  - apply (merge_predictors_joined (predictor_ids (config self)) [] anchor
             df_feat Hm);
      [exact Hnd | intros ? ? _ [] | exact Hr0 | exact Hpid].
Qed.

End JoinInvariant.

Section JoinClaims.

Import FeatureMatrixBuilder JoinSpec ClaimsAsStated.

Lemma days_le_iff (d L : Z) :
  days_of_ns d <= inject_Z L <-> (d <= L * NS_PER_DAY)%Z.
Proof.
  unfold Qle, days_of_ns, inject_Z, NS_PER_DAY. cbn [Qnum Qden].
  change (86400 * 1000000000)%Z with 86400000000000%Z. lia.
Qed.

Lemma match_stale_None (cfg : FeatureMatrixConfig) (t : Z) :
  match_stale cfg t None = false.
Proof. reflexivity. Qed.

Lemma match_stale_true (cfg : FeatureMatrixConfig) (t : Z) (o : srow) :
  match_stale cfg t (Some o) = true <-> ~ within_lookback cfg t (s_time o).
Proof.
  unfold match_stale, within_lookback, match_age, gt, Qgtb. simpl.
  rewrite negb_true_iff, <- days_le_iff, <- Qle_bool_iff.
  destruct (Qle_bool (days_of_ns (t - s_time o)) (inject_Z (lookback_days cfg)));
    split; congruence.
Qed.

Lemma match_stale_false (cfg : FeatureMatrixConfig) (t : Z) (o : srow) :
  match_stale cfg t (Some o) = false <-> within_lookback cfg t (s_time o).
Proof.
  unfold match_stale, within_lookback, match_age, gt, Qgtb. simpl.
  rewrite negb_false_iff, <- days_le_iff. apply Qle_bool_iff.
Qed.

(** The match of a row is a latest eligible observation of the series, or
    there is no eligible observation at all. *)
Lemma row_joined_cases (ext : extern) (self : builder) (pid : DeterminandId)
  (S : list srow) (r : frow) :
  row_joined ext self pid r ->
  _extract_predictor_series ext self pid = Ok S ->
  ((forall o, ~ eligible S (f_site r) (f_time r) o) /\
   joined (config self) (feature_name pid) None r) \/
  (exists o, latest_eligible S (f_site r) (f_time r) o /\
             joined (config self) (feature_name pid) (Some o) r).
Proof.
  intros Hr HS. destruct (Hr S HS) as [Hsorted Hj].
  destruct (asof_scan_spec srow s_time s_site (f_site r) (f_time r)
              (sort_values srow_le S) Hsorted None)
    as [[Hres Hnone]|[o [Hres [Hin [Hcand Hmax]]]]]; rewrite Hres in Hj.
  - left. split; [|exact Hj].
    intros o [Ho [Hs Ht]]. apply (Hnone o).
    + now apply sort_values_In.
    + split; assumption.
  - right. exists o. split; [|exact Hj]. split.
    + destruct Hcand as [Hs Ht]. split; [|split; assumption].
      now apply sort_values_In in Hin.
    + intros o' [Ho' [Hs' Ht']]. apply Hmax.
      * now apply sort_values_In.
      * split; assumption.
Qed.

Lemma latest_eligible_same_time (S : list srow) (site : string) (t : Z)
  (o o' : srow) :
  latest_eligible S site t o -> latest_eligible S site t o' ->
  s_time o = s_time o'.
Proof.
  intros [He Hmax] [He' Hmax']. specialize (Hmax o' He').
  specialize (Hmax' o He). lia.
Qed.

(** C1, amended.  In every row of the feature matrix and for every configured
    predictor (the predictor column labels being distinct): when the
    predictor series has no observation at the row's site at or before the
    row's time, the value and the matched time are null; otherwise there is
    a latest such observation, and the value and matched time are its value
    and time when it is at most [lookback_days] old, and null when it is
    older.  The observations of the series [S] are the rows of the table
    that [determinand_series_In] describes. *)
Theorem asof_join_latest_within_lookback (ext : extern) (self self' : builder)
  (M : fframe) (pid : DeterminandId) (S : list srow) (r : frow) :
  build ext self = Ok (M, self') ->
  labels_distinct (config self) ->
  In pid (predictor_ids (config self)) ->
  _extract_predictor_series ext self pid = Ok S ->
  In r (f_rows M) ->
  let name := feature_name pid in
  ((forall o, ~ eligible S (f_site r) (f_time r) o) ->
   get_cell name r = Some (FFloat None) /\
   get_cell (time_name name) r = Some (FTime None)) /\
  ((exists o, eligible S (f_site r) (f_time r) o) ->
   exists o,
     latest_eligible S (f_site r) (f_time r) o /\
     (within_lookback (config self) (f_time r) (s_time o) ->
      get_cell name r = Some (FFloat (Some (s_value o))) /\
      get_cell (time_name name) r = Some (FTime (Some (s_time o)))) /\
     (~ within_lookback (config self) (f_time r) (s_time o) ->
      get_cell name r = Some (FFloat None) /\
      get_cell (time_name name) r = Some (FTime None))).
Proof.
  intros HM Hnd Hpid HS Hr name.
  assert (Hj := build_rows_joined ext self self' M HM Hnd r pid Hr Hpid).
  destruct (row_joined_cases ext self pid S r Hj HS)
    as [[Hnone [J0 [J1 _]]]|[o [Hlatest [J0 [J1 _]]]]].
  - split.
    + intros _. split; assumption.
    + intros [o Ho]. exfalso. exact (Hnone o Ho).
  - split.
    + intros Hnone. exfalso. destruct Hlatest as [He _]. exact (Hnone o He).
    + intros _. exists o. split; [exact Hlatest|]. split.
      * intros Hw. apply match_stale_false in Hw. rewrite Hw in J0, J1.
        split; assumption.
      * intros Hw. apply match_stale_true in Hw. rewrite Hw in J0, J1.
        split; assumption.
Qed.

(** C2, amended.  In every row of the feature matrix and for every configured
    predictor (the predictor column labels being distinct): (a) when the
    matched observation is more than [lookback_days] older than the anchor,
    the value and the matched time are null, the age is null when the age
    column is enabled, and the missing flag is 1 when the flags are enabled;
    (b) when the flags are enabled the flag is 0 or 1, and 1 exactly when
    the value is null; (c) a non-null value is the value of a latest
    eligible observation at most [lookback_days] old, and the age column,
    when enabled, holds that age. *)
Theorem lookback_staleness_invariant (ext : extern) (self self' : builder)
  (M : fframe) (pid : DeterminandId) (S : list srow) (r : frow) :
  build ext self = Ok (M, self') ->
  labels_distinct (config self) ->
  In pid (predictor_ids (config self)) ->
  _extract_predictor_series ext self pid = Ok S ->
  In r (f_rows M) ->
  let name := feature_name pid in
  let cfg := config self in
  exists v tm,
    get_cell name r = Some (FFloat v) /\
    get_cell (time_name name) r = Some (FTime tm) /\
    (forall o, latest_eligible S (f_site r) (f_time r) o ->
               ~ within_lookback cfg (f_time r) (s_time o) ->
               v = None /\ tm = None /\
               (add_age_days cfg = true ->
                get_cell (age_name name) r = Some (FFloat None)) /\
               (add_missing_flags cfg = true ->
                get_cell (missing_name name) r = Some (FInt 1))) /\
    (add_missing_flags cfg = true ->
     exists f, get_cell (missing_name name) r = Some (FInt f) /\
               (f = 0 \/ f = 1)%Z /\ (f = 1%Z <-> v = None)) /\
    (forall x, v = Some x ->
               exists o, latest_eligible S (f_site r) (f_time r) o /\
                         x = s_value o /\ tm = Some (s_time o) /\
                         within_lookback cfg (f_time r) (s_time o) /\
                         (add_age_days cfg = true ->
                          get_cell (age_name name) r
                            = Some (FFloat (Some (days_of_ns (f_time r - s_time o)))) /\
                          days_of_ns (f_time r - s_time o)
                            <= inject_Z (lookback_days cfg))).
Proof.
  intros HM Hnd Hpid HS Hr name cfg.
  assert (Hj := build_rows_joined ext self self' M HM Hnd r pid Hr Hpid).
  destruct (row_joined_cases ext self pid S r Hj HS)
    as [[Hnone [J0 [J1 [J2 J3]]]]|[o [Hlatest [J0 [J1 [J2 J3]]]]]].
  - rewrite match_stale_None in J0, J1, J2, J3. simpl in J0, J1, J2, J3.
    exists None, None. split; [exact J0|]. split; [exact J1|]. split; [|split].
    + intros o [He _]. exfalso. exact (Hnone o He).
    + intros Hflag. exists 1%Z. split; [now apply J3|]. split; [now right|].
      split; reflexivity.
    + intros x Hx. discriminate.
  - fold cfg in J0, J1, J2, J3.
    destruct (match_stale cfg (f_time r) (Some o)) eqn:Hst.
    + apply match_stale_true in Hst.
      exists None, None. split; [exact J0|]. split; [exact J1|].
      split; [|split].
      * intros _ _ _. repeat split; assumption.
      * intros Hflag. exists 1%Z. split; [now apply J3|]. split; [now right|].
        split; reflexivity.
      * intros x Hx. discriminate.
    + apply match_stale_false in Hst. simpl in J0, J1, J2, J3.
      exists (Some (s_value o)), (Some (s_time o)).
      split; [exact J0|]. split; [exact J1|]. split; [|split].
      * intros o' Hlatest' Hstale. exfalso. apply Hstale.
        now rewrite <- (latest_eligible_same_time S _ _ o o' Hlatest Hlatest').
      * intros Hflag. exists 0%Z. split; [now apply J3|]. split; [now left|].
        split; discriminate.
      * intros x Hx. injection Hx as <-. exists o.
        split; [exact Hlatest|]. split; [reflexivity|]. split; [reflexivity|].
        split; [exact Hst|]. intros Hage. split; [now apply J2|].
        apply days_le_iff. exact Hst.
Qed.

End JoinClaims.

Section JoinExamples.

Import FeatureMatrixBuilder JoinSpec ClaimsAsStated Fixtures.

Lemma stale_series_latest :
  latest_eligible stale_series "A" (jan_2005 10)
    {| s_site := "A"; s_time := jan_2005 1; s_value := 1 |}.
Proof.
  split.
  - split; [now left|]. split; [reflexivity|]. apply Z.leb_le. reflexivity.
  - intros o' [[<-|[]] _]. apply Z.le_refl.
Qed.

Lemma stale_series_not_within_lookback :
  ~ within_lookback (test_config 5 true true) (jan_2005 10) (jan_2005 1).
Proof. unfold within_lookback. vm_compute. intros H. now apply H. Qed.

Lemma test_labels_distinct (lookback : Z) (flags ages : bool) :
  labels_distinct (test_config lookback flags ages).
Proof.
  unfold labels_distinct. simpl.
  repeat constructor; simpl; intuition discriminate.
Qed.

(** C1 as stated fails on the repository's own stale-predictor test: the
    predictor observation of the 1st of January is the latest one at or
    before the anchor of the 10th, and with a lookback of five days the
    joined value is null, not 1.0. *)
Lemma asof_join_claim_fails_on_stale_match :
  ~ asof_join_claim test_ext stale_builder.
Proof.
  intros H.
  assert (E : build test_ext stale_builder = Ok (stale_matrix, stale_built))
    by (vm_compute; reflexivity).
  assert (HS : _extract_predictor_series test_ext stale_builder (DStr "348")
               = Ok stale_series) by (vm_compute; reflexivity).
  destruct (H stale_built stale_matrix (DStr "348") stale_series stale_row E
              (or_introl eq_refl) HS (or_introl eq_refl)) as [_ H2].
  destruct H2 as [o [_ Ho]].
  - exists {| s_site := "A"; s_time := jan_2005 1; s_value := 1 |}.
    apply stale_series_latest.
  - vm_compute in Ho. discriminate Ho.
Qed.

(** C2 as stated fails when the missingness flags are switched off: the
    match is stale and the row has no missing flag at all. *)
Lemma staleness_claim_fails_without_flags :
  ~ staleness_claim test_ext unflagged_builder.
Proof.
  intros H.
  destruct (build test_ext unflagged_builder) as [[M b']|e] eqn:E;
    [|vm_compute in E; discriminate E].
  assert (HS : _extract_predictor_series test_ext unflagged_builder (DStr "348")
               = Ok stale_series) by (vm_compute; reflexivity).
  assert (Hr : In (first_row M) (f_rows M) /\
               f_site (first_row M) = "A" /\
               f_time (first_row M) = jan_2005 10 /\
               get_cell "det_348__is_missing" (first_row M) = None).
  { vm_compute in E. injection E as <- _. vm_compute. auto. }
  destruct Hr as [Hr [Hs [Ht Hc]]].
  destruct (H b' M (DStr "348") stale_series (first_row M) E
              (or_introl eq_refl) HS Hr) as [Ha _].
  rewrite Hs, Ht in Ha.
  destruct (Ha _ stale_series_latest stale_series_not_within_lookback)
    as [_ [_ [_ Hm]]].
  change (missing_name (feature_name (DStr "348"))) with "det_348__is_missing" in Hm.
  rewrite Hc in Hm. discriminate Hm.
Qed.

(** The amended C1 on the stale-predictor test. *)
Lemma asof_join_latest_within_lookback_witness :
  build test_ext stale_builder = Ok (stale_matrix, stale_built) /\
  labels_distinct (config stale_builder) /\
  In (DStr "348") (predictor_ids (config stale_builder)) /\
  _extract_predictor_series test_ext stale_builder (DStr "348") = Ok stale_series /\
  In stale_row (f_rows stale_matrix) /\
  ((forall o, ~ eligible stale_series (f_site stale_row) (f_time stale_row) o) ->
   get_cell "det_348" stale_row = Some (FFloat None) /\
   get_cell "det_348__time" stale_row = Some (FTime None)) /\
  ((exists o, eligible stale_series (f_site stale_row) (f_time stale_row) o) ->
   exists o,
     latest_eligible stale_series (f_site stale_row) (f_time stale_row) o /\
     (within_lookback (config stale_builder) (f_time stale_row) (s_time o) ->
      get_cell "det_348" stale_row = Some (FFloat (Some (s_value o))) /\
      get_cell "det_348__time" stale_row = Some (FTime (Some (s_time o)))) /\
     (~ within_lookback (config stale_builder) (f_time stale_row) (s_time o) ->
      get_cell "det_348" stale_row = Some (FFloat None) /\
      get_cell "det_348__time" stale_row = Some (FTime None))).
Proof.
  assert (E : build test_ext stale_builder = Ok (stale_matrix, stale_built))
    by (vm_compute; reflexivity).
  assert (HS : _extract_predictor_series test_ext stale_builder (DStr "348")
               = Ok stale_series) by (vm_compute; reflexivity).
  split; [exact E|].
  split; [apply test_labels_distinct|].
  split; [now left|].
  split; [exact HS|].
  split; [now left|].
  exact (asof_join_latest_within_lookback test_ext stale_builder stale_built
           stale_matrix (DStr "348") stale_series stale_row E
           (test_labels_distinct 5 true true) (or_introl eq_refl) HS
           (or_introl eq_refl)).
Defined.

(** The amended C2 on the stale-predictor test. *)
Lemma lookback_staleness_invariant_witness :
  build test_ext stale_builder = Ok (stale_matrix, stale_built) /\
  labels_distinct (config stale_builder) /\
  In (DStr "348") (predictor_ids (config stale_builder)) /\
  _extract_predictor_series test_ext stale_builder (DStr "348") = Ok stale_series /\
  In stale_row (f_rows stale_matrix) /\
  exists v tm,
    get_cell "det_348" stale_row = Some (FFloat v) /\
    get_cell "det_348__time" stale_row = Some (FTime tm) /\
    (forall o, latest_eligible stale_series (f_site stale_row) (f_time stale_row) o ->
               ~ within_lookback (config stale_builder) (f_time stale_row) (s_time o) ->
               v = None /\ tm = None /\
               (add_age_days (config stale_builder) = true ->
                get_cell "det_348__age_days" stale_row = Some (FFloat None)) /\
               (add_missing_flags (config stale_builder) = true ->
                get_cell "det_348__is_missing" stale_row = Some (FInt 1))) /\
    (add_missing_flags (config stale_builder) = true ->
     exists f, get_cell "det_348__is_missing" stale_row = Some (FInt f) /\
               (f = 0 \/ f = 1)%Z /\ (f = 1%Z <-> v = None)) /\
    (forall x, v = Some x ->
               exists o, latest_eligible stale_series (f_site stale_row)
                           (f_time stale_row) o /\
                         x = s_value o /\ tm = Some (s_time o) /\
                         within_lookback (config stale_builder) (f_time stale_row)
                           (s_time o) /\
                         (add_age_days (config stale_builder) = true ->
                          get_cell "det_348__age_days" stale_row
                            = Some (FFloat (Some (days_of_ns
                                                    (f_time stale_row - s_time o)))) /\
                          days_of_ns (f_time stale_row - s_time o)
                            <= inject_Z (lookback_days (config stale_builder)))).
Proof.
  assert (E : build test_ext stale_builder = Ok (stale_matrix, stale_built))
    by (vm_compute; reflexivity).
  assert (HS : _extract_predictor_series test_ext stale_builder (DStr "348")
               = Ok stale_series) by (vm_compute; reflexivity).
  split; [exact E|].
  split; [apply test_labels_distinct|].
  split; [now left|].
  split; [exact HS|].
  split; [now left|].
  exact (lookback_staleness_invariant test_ext stale_builder stale_built
           stale_matrix (DStr "348") stale_series stale_row E
           (test_labels_distinct 5 true true) (or_introl eq_refl) HS
           (or_introl eq_refl)).
Defined.

End JoinExamples.

(** ** Identifier normalisation *)

Section IdentifierClaims.

Import FeatureMatrixBuilder ClaimsAsStated Fixtures.

(** C8 as stated fails in string mode: on a table that spells the
    identifier [61], the identifier [061] selects nothing. *)
Lemma identifier_equivalence_claim_fails_in_str_mode :
  ~ identifier_equivalence_claim test_ext.
Proof.
  intros H.
  destruct (H (mk_builder ph_frame (cast_config "str"))) as [H1 _].
  - simpl. auto.
  - unfold same_series in H1. vm_compute in H1. discriminate H1.
Qed.

Lemma determinand_series_int_mode (ext : extern) (cfg : FeatureMatrixConfig)
  (df : clean_frame) (a b : DeterminandId) (n : Z) :
  determinand_cast cfg = "int" ->
  int_of_det a = Ok n -> int_of_det b = Ok n ->
  determinand_series ext cfg df a = determinand_series ext cfg df b.
Proof.
  intros Hcast Ha Hb. unfold determinand_series, _normalize_det.
  rewrite Hcast. simpl. now rewrite Ha, Hb.
Qed.

Lemma determinand_series_str_mode (ext : extern) (cfg : FeatureMatrixConfig)
  (df : clean_frame) (a b : DeterminandId) :
  determinand_cast cfg = "str" ->
  str_of_det a = str_of_det b ->
  determinand_series ext cfg df a = determinand_series ext cfg df b.
Proof.
  intros Hcast Hab. unfold determinand_series, _normalize_det.
  rewrite Hcast. simpl. now rewrite Hab.
Qed.

Lemma filter_determinands_normalized (ids ids' : list DeterminandId)
  (df : list obs) :
  map CleanDatasetBuilder.normalize_id ids
  = map CleanDatasetBuilder.normalize_id ids' ->
  CleanDatasetBuilder.filter_determinands ids df
  = CleanDatasetBuilder.filter_determinands ids' df.
Proof.
  intros H. unfold CleanDatasetBuilder.filter_determinands. now rewrite H.
Qed.

Lemma det_matches_as_is (ext : extern) (cfg : FeatureMatrixConfig)
  (d target : DeterminandId) :
  determinand_cast cfg = "none" ->
  MatrixSpec.det_matches ext cfg d target = true -> d = target.
Proof.
  intros Hcast. unfold MatrixSpec.det_matches. rewrite Hcast. simpl.
  destruct d as [a|a], target as [b|b]; try discriminate.
  - intros H. apply Z.eqb_eq in H. now subst.
  - intros H. apply String.eqb_eq in H. now subst.
Qed.

(** C8, amended.  In integer mode the identifiers ["061"], ["61"] and [61]
    select the same series of every table; in string mode ["61"] and [61]
    do; in as-is mode an identifier selects only rows that carry that very
    identifier; and the determinand filter of the clean layer, which strips
    leading zeros, keeps the same rows for all three. *)
Theorem identifier_equivalence_by_mode (ext : extern) :
  (forall self,
      determinand_cast (config self) = "int" ->
      same_series ext self (DStr "061") (DStr "61") /\
      same_series ext self (DStr "61") (DInt 61)) /\
  (forall self,
      determinand_cast (config self) = "str" ->
      same_series ext self (DStr "61") (DInt 61)) /\
  (forall self id S p,
      determinand_cast (config self) = "none" ->
      _extract_predictor_series ext self id = Ok S ->
      In p S ->
      exists o, In o (df_rows (_df self)) /\ o_det o = id /\
                MatrixSpec.series_row ext o = Some p) /\
  (forall df,
      CleanDatasetBuilder.filter_determinands [DStr "061"] df
      = CleanDatasetBuilder.filter_determinands [DStr "61"] df /\
      CleanDatasetBuilder.filter_determinands [DStr "61"] df
      = CleanDatasetBuilder.filter_determinands [DInt 61] df).
Proof.
  split; [|split; [|split]].
  - intros self Hcast. unfold same_series, _extract_predictor_series.
    split; apply (determinand_series_int_mode ext _ _ _ _ 61 Hcast);
      reflexivity.
  - intros self Hcast. unfold same_series, _extract_predictor_series.
    apply (determinand_series_str_mode ext _ _ _ _ Hcast). reflexivity.
  - intros self id S p Hcast HS Hp. unfold _extract_predictor_series in HS.
    apply (determinand_series_In ext _ _ _ _ HS) in Hp.
    destruct Hp as [o [Ho [Hin Hrow]]]. exists o.
    split; [exact Ho|]. split; [|exact Hrow].
    unfold MatrixSpec.in_series in Hin.
    destruct (o_datetime o); [|discriminate].
    apply andb_prop in Hin. destruct Hin as [Hin _].
    apply andb_prop in Hin. destruct Hin as [_ Hdet].
    exact (det_matches_as_is ext _ _ _ Hcast Hdet).
  - intros df. split; apply filter_determinands_normalized; reflexivity.
Qed.

(** On the table that spells the identifier in the three ways, integer
    mode selects all three rows whichever spelling is asked for. *)
Lemma identifier_equivalence_by_mode_witness :
  determinand_cast (config (mk_builder ph_frame (cast_config "int"))) = "int" /\
  same_series test_ext (mk_builder ph_frame (cast_config "int"))
    (DStr "061") (DStr "61") /\
  same_series test_ext (mk_builder ph_frame (cast_config "int"))
    (DStr "61") (DInt 61) /\
  List.length (CleanDatasetBuilder.filter_determinands [DStr "061"]
                 (df_rows ph_frame)) = 3%nat.
Proof.
  split; [reflexivity|].
  destruct (proj1 (identifier_equivalence_by_mode test_ext)
              (mk_builder ph_frame (cast_config "int")) eq_refl) as [H1 H2].
  split; [exact H1|]. split; [exact H2|]. reflexivity.
Defined.

End IdentifierClaims.

(** ** The claims on the inputs of the test suite *)

Section Witnesses.

Import FeatureMatrixBuilder FeatureBuilder MatrixSpec RollingSpec Spec Fixtures.

Lemma toy_values_increasing : strictly_increasing toy_values.
Proof.
  intros i j Hij Hj. simpl in Hj.
  do 6 (destruct j as [|j];
        [do 6 (destruct i as [|i]; [try lia; reflexivity|]); lia|]).
  lia.
Qed.

(** C3 on the toy frame: window 3 at position 1, a partial window. *)
Lemma rolling_mean_uses_prior_values_only_witness :
  dict_get "chl" (columns toy_df) = Some (map CFloat toy_values) /\
  Forall (fun w' => 1 <= w')%Z [3; 2]%Z /\
  In 3%Z [3; 2]%Z /\
  (1 < List.length (map CFloat toy_values))%nat /\
  let s := map (to_numeric test_ext) (map CFloat toy_values) in
  let prior := prior_values (Z.to_nat 3) 1 (firstn 1 s) in
  exists out feat,
    _rolling_mean_features test_ext toy_df "chl" [3; 2]%Z "chl_roll_mean" = Ok out /\
    dict_get (roll_name "chl_roll_mean" 3) out = Some feat /\
    prior = map (fun i => nth i s None)
              (seq (1 - Z.to_nat 3) (Nat.min (Z.to_nat 3) 1)) /\
    nth_error feat 1 = Some (mean_of (dropna prior)) /\
    (nth_error feat 1 = Some None <-> dropna prior = []).
Proof.
  assert (H1 : dict_get "chl" (columns toy_df) = Some (map CFloat toy_values))
    by reflexivity.
  assert (H2 : Forall (fun w' => 1 <= w')%Z [3; 2]%Z)
    by (repeat constructor; lia).
  assert (H3 : In 3%Z [3; 2]%Z) by (now left).
  assert (H4 : (1 < List.length (map CFloat toy_values))%nat) by (simpl; lia).
  split; [exact H1|]. split; [exact H2|]. split; [exact H3|]. split; [exact H4|].
  exact (rolling_mean_uses_prior_values_only test_ext toy_df "chl"
           (map CFloat toy_values) [3; 2]%Z "chl_roll_mean" 3%Z 1%nat
           H1 H2 H3 H4).
Defined.

(** C4 on the toy frame of the leakage test. *)
Lemma rolling_mean_below_current_value_witness :
  dict_get "chl" (columns toy_df) = Some (map CFloat toy_values) /\
  map (to_numeric test_ext) (map CFloat toy_values) = map Some toy_values /\
  strictly_increasing toy_values /\
  Forall (fun w' => 1 <= w')%Z [3; 2]%Z /\
  In 2%Z [3; 2]%Z /\
  exists out feat,
    _rolling_mean_features test_ext toy_df "chl" [3; 2]%Z "chl_roll_mean" = Ok out /\
    dict_get (roll_name "chl_roll_mean" 2) out = Some feat /\
    forall t m, nth_error feat t = Some (Some m) -> m < nth t toy_values 0.
Proof.
  assert (H1 : dict_get "chl" (columns toy_df) = Some (map CFloat toy_values))
    by reflexivity.
  assert (H2 : map (to_numeric test_ext) (map CFloat toy_values)
               = map Some toy_values) by reflexivity.
  assert (H3 : Forall (fun w' => 1 <= w')%Z [3; 2]%Z)
    by (repeat constructor; lia).
  assert (H4 : In 2%Z [3; 2]%Z) by (right; now left).
  split; [exact H1|]. split; [exact H2|].
  split; [exact toy_values_increasing|]. split; [exact H3|]. split; [exact H4|].
  exact (rolling_mean_below_current_value test_ext toy_df "chl"
           (map CFloat toy_values) toy_values [3; 2]%Z "chl_roll_mean" 2%Z
           H1 H2 toy_values_increasing H3 H4).
Defined.

End Witnesses.

(** ** When [build] returns *)

Section BuildReturns.

Import FeatureMatrixBuilder JoinSpec.

Lemma string_compare_refl (s : string) : String.compare s s = Eq.
Proof.
  assert (H := String.compare_antisym s s).
  destruct (String.compare s s); simpl in H; congruence.
Qed.

Lemma monotonic_cons_intro (k : Z) (ks : list Z) :
  is_monotonic_increasing ks = true ->
  (forall k', In k' ks -> (k <= k')%Z) ->
  is_monotonic_increasing (k :: ks) = true.
Proof.
  intros Hks Hmin. destruct ks as [|k1 ks]; [reflexivity|].
  cbn [is_monotonic_increasing]. apply andb_true_intro. split; [|exact Hks].
  apply Z.leb_le. apply Hmin. now left.
Qed.

Section OneSite.

Variable A : Type.
Variable site : A -> string.
Variable time : A -> Z.
Variable s : string.

Variable le : A -> A -> bool.
Hypothesis le_def :
  forall a b, le a b = site_time_le (site a) (time a) (site b) (time b).

Lemma insert_sorted_one_site (x : A) (l : list A) :
  site x = s -> (forall a, In a l -> site a = s) ->
  is_monotonic_increasing (map time l) = true ->
  is_monotonic_increasing (map time (insert_sorted le x l)) = true.
Proof.
  intros Hx. induction l as [|a l IH]; intros Hl Hmono; [reflexivity|].
  cbn [insert_sorted]. rewrite le_def. unfold site_time_le.
  rewrite Hx, (Hl a (or_introl eq_refl)), string_compare_refl.
  cbn [map] in Hmono. destruct (monotonic_cons _ _ Hmono) as [Htail Hmin].
  destruct (Z.leb_spec (time x) (time a)) as [Hle|Hgt].
  - cbn [map]. apply monotonic_cons_intro; [exact Hmono|].
    intros k' [<-|Hk']; [exact Hle|]. specialize (Hmin k' Hk'). lia.
  - cbn [map]. apply monotonic_cons_intro.
    + apply IH; [|exact Htail]. intros b Hb. apply Hl. now right.
    + intros k' Hk'. apply in_map_iff in Hk'. destruct Hk' as [b [<- Hb]].
      apply (Permutation_in _ (Permutation_sym (insert_sorted_perm le x l))) in Hb.
      destruct Hb as [<-|Hb]; [lia|]. apply Hmin. now apply in_map.
Qed.

(** On rows of one site the sort by (site, time) leaves the times in
    increasing order, which is what [pd.merge_asof] asks for. *)
Lemma sort_values_one_site (l : list A) :
  (forall a, In a l -> site a = s) ->
  is_monotonic_increasing (map time (sort_values le l)) = true.
Proof.
  induction l as [|x l IH]; intros Hl; [reflexivity|].
  cbn [sort_values fold_right]. apply insert_sorted_one_site.
  - apply Hl. now left.
  - intros a Ha. apply sort_values_In in Ha. apply Hl. now right.
  - apply IH. intros a Ha. apply Hl. now right.
Qed.

End OneSite.

Variable ext : extern.
Variable self : builder.
Variable s : string.

Hypothesis one_site : forall o, In o (df_rows (_df self)) -> o_site o = s.

Lemma parse_datetimes_In (rows : list obs) (r : wrow) :
  In r (parse_datetimes rows) -> In (w_obs r) rows.
Proof.
  induction rows as [|o rows IH]; simpl; [auto|].
  destruct (o_datetime o); [intros [<-|H]|intros H]; auto.
Qed.

Lemma numeric_rows_site (rows : list wrow) (p : srow) :
  In p (numeric_rows ext rows) ->
  exists r, In r rows /\ s_site p = o_site (w_obs r).
Proof.
  induction rows as [|r rows IH]; simpl; [intros []|].
  destruct (to_numeric ext (o_value (w_obs r))).
  - intros [<-|H]; [exists r; auto|].
    destruct (IH H) as [r' [Hr' E]]. exists r'. auto.
  - intros H. destruct (IH H) as [r' [Hr' E]]. exists r'. auto.
Qed.

Lemma determinand_series_one_site (id : DeterminandId) (S : list srow) :
  determinand_series ext (config self) (_df self) id = Ok S ->
  forall p, In p S -> s_site p = s.
Proof.
  intros H p Hp. apply determinand_series_Ok in H. subst S.
  apply sort_values_In, numeric_rows_site in Hp.
  destruct Hp as [r [Hr ->]]. apply filter_In in Hr. destruct Hr as [Hr _].
  unfold _filter_window in Hr. apply filter_In in Hr. destruct Hr as [Hr _].
  apply one_site. now apply parse_datetimes_In.
Qed.

Lemma determinand_series_returns (id : DeterminandId) :
  (determinand_cast (config self) = "int" -> returns (int_of_det id)) ->
  returns (determinand_series ext (config self) (_df self) id).
Proof.
  intros Hint. unfold determinand_series, _normalize_det.
  destruct (String.eqb (determinand_cast (config self)) "str");
    [eexists; reflexivity|].
  destruct (String.eqb_spec (determinand_cast (config self)) "int") as [E|_];
    [|eexists; reflexivity].
  destruct (Hint E) as [n ->]. eexists; reflexivity.
Qed.

Lemma lookback_row_site (cfg : FeatureMatrixConfig) (name : string) (l : frow)
  (m : option srow) :
  f_site (lookback_row cfg name l m) = f_site l.
Proof.
  destruct (lookback_row_agree [] cfg name l m) as [H _]; [intros k _ []|exact H].
Qed.

Lemma _merge_asof_backward_returns (anchor : fframe) (pred : list srow)
  (name : string) :
  (forall r, In r (f_rows anchor) -> f_site r = s) ->
  (forall p, In p pred -> s_site p = s) ->
  ~ In name (f_columns anchor) ->
  ~ In (time_name name) (f_columns anchor) ->
  exists merged,
    _merge_asof_backward self anchor pred name = Ok merged /\
    (forall r, In r (f_rows merged) -> f_site r = s) /\
    (forall k, In k (f_columns merged) ->
               In k (f_columns anchor) \/ In k (feature_labels name)).
Proof.
  intros Ha Hp Hn Ht. unfold _merge_asof_backward, merge_asof.
  rewrite (sort_values_one_site frow f_site f_time s frow_le
             (fun _ _ => eq_refl) _ Ha).
  rewrite (sort_values_one_site srow s_site s_time s srow_le
             (fun _ _ => eq_refl) _ Hp).
  apply str_in_not_In in Hn. apply str_in_not_In in Ht.
  cbn [negb Py.bind]. rewrite Hn, Ht. cbn [orb].
  eexists. split; [reflexivity|]. cbn [f_rows f_columns]. split.
  - intros r Hr. apply in_map_iff in Hr. destruct Hr as [lm [<- Hlm]].
    rewrite lookback_row_site.
    apply in_map_iff in Hlm. destruct Hlm as [l [<- Hl]]. simpl.
    apply Ha. now apply sort_values_In in Hl.
  - intros k Hk. unfold add_column, feature_labels in *.
    repeat match type of Hk with
           | context [if ?b then _ else _] => destruct b
           end;
      repeat (apply in_app_or in Hk; destruct Hk as [Hk|Hk]);
      simpl in *; intuition.
Qed.

(** The loop over the predictors returns on a one-site table when the
    identifiers convert and the labels are fresh. *)
Lemma merge_predictors_returns (pids : list DeterminandId) :
  forall (done : list DeterminandId) (A : fframe),
    (forall pid, In pid pids ->
       determinand_cast (config self) = "int" -> returns (int_of_det pid)) ->
    NoDup (flat_map predictor_labels (done ++ pids)) ->
    (forall pid k, In pid pids -> In k (predictor_labels pid) ->
                   k <> site_col (config self) /\ k <> datetime_col (config self)) ->
    (forall r, In r (f_rows A) -> f_site r = s) ->
    (forall k, In k (f_columns A) ->
       In k [site_col (config self); datetime_col (config self); "chl_ugL"; "y"]
       \/ In k (flat_map predictor_labels done)) ->
    returns (merge_predictors ext self pids A).
Proof.
  induction pids as [|pid pids IH]; intros done A Hint Hnd Hbase Hsite Hcols.
  - eexists; reflexivity.
  - cbn [merge_predictors]. unfold _extract_predictor_series.
    destruct (determinand_series_returns pid) as [pred Hpred].
    { apply Hint. now left. }
    rewrite Hpred. cbn [Py.bind].
    assert (Hfresh : forall k, In k (predictor_labels pid) ->
                               ~ In k (f_columns A)).
    { intros k Hk Hin. destruct (Hcols k Hin) as [Hb|Hd].
      - destruct (Hbase pid k (or_introl eq_refl) Hk) as [H1 H2].
        destruct Hb as [<-|[<-|[<-|[<-|[]]]]]; try congruence;
          unfold predictor_labels, feature_labels, feature_name, time_name,
            age_name, missing_name in Hk; simpl in Hk;
          repeat (destruct Hk as [Hk|Hk]; [discriminate Hk|]); exact Hk.
      - apply in_flat_map in Hd. destruct Hd as [q [Hq Hkq]].
        exact (labels_disjoint done pids pid q Hnd Hq k Hk Hkq). }
    destruct (_merge_asof_backward_returns A pred (feature_name pid))
      as [A' [HA' [Hsite' Hcols']]].
    + exact Hsite.
    + now apply determinand_series_one_site with (id := pid).
    + apply Hfresh. now left.
    + apply Hfresh. right. now left.
    + rewrite HA'. cbn [Py.bind]. apply (IH (done ++ [pid])).
      * intros q Hq. apply Hint. now right.
      * now rewrite <- app_assoc.
      * intros q k Hq. apply Hbase. now right.
      * exact Hsite'.
      * intros k Hk. destruct (Hcols' k Hk) as [Hk'|Hk'].
        -- destruct (Hcols k Hk') as [Hb|Hd]; [now left|]. right.
           rewrite flat_map_app. apply in_or_app. now left.
        -- right. rewrite flat_map_app. apply in_or_app. right.
           apply in_flat_map. exists pid. split; [now left | exact Hk'].
Qed.

(** [build] returns on every table of a single site, provided the
    identifiers convert under integer mode and the predictor labels are
    distinct and are not labels of the site and datetime columns. *)
Theorem build_returns_on_one_site :
  (forall id, In id (target_determinand_id (config self)
                     :: predictor_ids (config self)) ->
     determinand_cast (config self) = "int" -> returns (int_of_det id)) ->
  labels_distinct (config self) ->
  (forall pid k, In pid (predictor_ids (config self)) ->
                 In k (predictor_labels pid) ->
                 k <> site_col (config self) /\ k <> datetime_col (config self)) ->
  returns (build ext self).
Proof.
  intros Hint Hnd Hbase. unfold build, _build_target_anchor.
  destruct (determinand_series_returns (target_determinand_id (config self)))
    as [df_t Hdf_t].
  { apply Hint. now left. }
  rewrite Hdf_t. cbn [Py.bind].
  destruct (merge_predictors_returns (predictor_ids (config self)) []
              {| f_columns := [site_col (config self); datetime_col (config self);
                               "chl_ugL"; "y"];
                 f_rows := map (fun r =>
                   {| f_site := s_site r; f_time := s_time r;
                      chl_ugL := s_value r;
                      y := int_of_bool (Qgtb (s_value r)
                                          (threshold_ugL (config self)));
                      f_extra := [] |}) df_t |})
    as [df_feat Hfeat].
  - intros pid Hpid. apply Hint. now right.
  - exact Hnd.
  - exact Hbase.
  - cbn [f_rows]. intros r Hr. apply in_map_iff in Hr.
    destruct Hr as [p [<- Hp]]. simpl.
    now apply determinand_series_one_site with (id := target_determinand_id (config self)) (S := df_t).
  - cbn [f_columns]. intros k Hk. now left.
  - rewrite Hfeat. cbn [Py.bind]. eexists; reflexivity.
Qed.

End BuildReturns.

(** The stale-predictor test is a one-site table: its build returns. *)
Example build_returns_on_stale_test :
  returns (FeatureMatrixBuilder.build Fixtures.test_ext Fixtures.stale_builder).
Proof.
  apply (build_returns_on_one_site Fixtures.test_ext Fixtures.stale_builder "A").
  - intros o [<-|[<-|[]]]; reflexivity.
  - intros id _ H. discriminate H.
  - apply test_labels_distinct.
  - intros pid k [<-|[]] Hk. simpl in Hk.
    destruct Hk as [<-|[<-|[<-|[<-|[]]]]]; split; discriminate.
Qed.

(** ** The row grain of the feature matrix, again *)

Section RowGrain.

Import FeatureMatrixBuilder MatrixSpec JoinSpec Fixtures.

(** C5.  The row count is not kept on a table of two sites whose anchor
    times interleave.  The constructor accepts the table [two_site_frame]
    with the configuration of the tests, and the table has three target
    anchors in the window.  [_merge_asof_backward] sorts the anchors by site
    and time, which leaves the times as 1 January, 20 January, 10 January,
    and [pd.merge_asof] asks for left keys that are sorted by time: [build]
    raises and no matrix is built.  Without predictors there is no merge,
    and the same table gives its three rows. *)
Theorem row_count_fails_on_interleaved_sites :
  __init__ two_site_frame (test_config 30 true true)
  = Ok (mk_builder two_site_frame (test_config 30 true true)) /\
  anchor_count test_ext (test_config 30 true true) two_site_frame = 3%nat /\
  (exists anchor,
     _build_target_anchor test_ext
       (mk_builder two_site_frame (test_config 30 true true)) = Ok anchor /\
     map (fun r => (f_site r, f_time r)) (sort_values frow_le (f_rows anchor))
     = [("A", jan_2005 1); ("A", jan_2005 20); ("B", jan_2005 10)]) /\
  build test_ext (mk_builder two_site_frame (test_config 30 true true))
  = Raise (ValueError "left keys must be sorted") /\
  exists M self',
    build test_ext (mk_builder two_site_frame no_predictor_config)
    = Ok (M, self') /\
    List.length (f_rows M) = 3%nat.
Proof.
  split; [reflexivity|]. split; [vm_compute; reflexivity|].
  split; [eexists; split; vm_compute; reflexivity|].
  split; [vm_compute; reflexivity|].
  vm_compute. eexists _, _. split; reflexivity.
Qed.

End RowGrain.

(** ** The order of [sort_values] *)

Section SortOrder.

Lemma ascii_compare_lt_trans (a b c : ascii) :
  Ascii.compare a b = Lt -> Ascii.compare b c = Lt -> Ascii.compare a c = Lt.
Proof.
  unfold Ascii.compare. rewrite !N.compare_lt_iff. apply N.lt_trans.
Qed.

Lemma string_compare_lt_trans (s1 : string) :
  forall s2 s3, String.compare s1 s2 = Lt -> String.compare s2 s3 = Lt ->
                String.compare s1 s3 = Lt.
Proof.
  induction s1 as [|c1 s1 IH]; intros [|c2 s2] [|c3 s3]; cbn; try congruence.
  destruct (Ascii.compare c1 c2) eqn:E12; try discriminate.
  - apply Ascii.compare_eq_iff in E12. subst c2.
    destruct (Ascii.compare c1 c3); try congruence. apply IH.
  - destruct (Ascii.compare c2 c3) eqn:E23; try discriminate; intros _ H.
    + apply Ascii.compare_eq_iff in E23. subst c3. now rewrite E12.
    + now rewrite (ascii_compare_lt_trans _ _ _ E12 E23).
Qed.

Lemma site_time_le_before (s1 : string) (t1 : Z) (s2 : string) (t2 : Z) :
  site_time_le s1 t1 s2 t2 = true <-> OrderSpec.site_time_before s1 t1 s2 t2.
Proof.
  unfold site_time_le, OrderSpec.site_time_before.
  destruct (String.compare s1 s2) eqn:E.
  - apply String.compare_eq_iff in E. subst s2. rewrite Z.leb_le.
    split; [intros H; right; split; [reflexivity|exact H]|].
    intros [H|[_ H]]; [discriminate H|exact H].
  - split; [intros _; left; reflexivity|reflexivity].
  - split; [discriminate|].
    intros [H|[H _]]; [discriminate H|].
    subst s2. rewrite string_compare_refl in E. discriminate E.
Qed.

Lemma site_time_le_total (s1 : string) (t1 : Z) (s2 : string) (t2 : Z) :
  site_time_le s1 t1 s2 t2 = false -> site_time_le s2 t2 s1 t1 = true.
Proof.
  unfold site_time_le. rewrite (String.compare_antisym s2 s1).
  destruct (String.compare s1 s2) eqn:E; cbn; try congruence.
  rewrite Z.leb_gt. intros H. apply Z.leb_le. lia.
Qed.

Lemma site_time_le_trans (s1 : string) (t1 : Z) (s2 : string) (t2 : Z)
  (s3 : string) (t3 : Z) :
  site_time_le s1 t1 s2 t2 = true -> site_time_le s2 t2 s3 t3 = true ->
  site_time_le s1 t1 s3 t3 = true.
Proof.
  rewrite !site_time_le_before. unfold OrderSpec.site_time_before.
  intros [H12|[-> H12]] [H23|[-> H23]].
  - left. exact (string_compare_lt_trans _ _ _ H12 H23).
  - left. exact H12.
  - left. exact H23.
  - right. split; [reflexivity|lia].
Qed.

(** [sort_values] by (site, time) on any kind of row. *)
Section Keyed.

Variable A : Type.
Variable site : A -> string.
Variable time : A -> Z.
Variable le : A -> A -> bool.
Hypothesis le_def :
  forall a b, le a b = site_time_le (site a) (time a) (site b) (time b).

Lemma insert_sorted_In (x : A) (l : list A) (a : A) :
  In a (insert_sorted le x l) -> a = x \/ In a l.
Proof.
  intros H.
  apply (Permutation_in a (Permutation_sym (insert_sorted_perm le x l))) in H.
  destruct H as [H|H]; [left; symmetry; exact H|right; exact H].
Qed.

Lemma insert_sorted_sorted (x : A) (l : list A) :
  StronglySorted (fun a b => le a b = true) l -> StronglySorted (fun a b => le a b = true) (insert_sorted le x l).
Proof.
  induction 1 as [|y l Hs IH Hy]; cbn.
  - constructor; constructor.
  - destruct (le x y) eqn:E.
    + constructor; [constructor; assumption|].
      constructor; [exact E|].
      rewrite Forall_forall in *. intros z Hz. cbv beta in *.
      rewrite le_def in *. specialize (Hy z Hz). rewrite le_def in Hy.
      exact (site_time_le_trans _ _ _ _ _ _ E Hy).
    + constructor; [exact IH|].
      rewrite Forall_forall in *. intros z Hz.
      apply insert_sorted_In in Hz. destruct Hz as [->|Hz]; [|exact (Hy z Hz)].
      rewrite le_def in *. apply site_time_le_total. exact E.
Qed.

Lemma sort_values_sorted (l : list A) : StronglySorted (fun a b => le a b = true) (sort_values le l).
Proof.
  induction l as [|x l IH]; cbn; [constructor|].
  apply insert_sorted_sorted. exact IH.
Qed.

(** Sorting a sorted frame changes nothing. *)
Lemma sort_values_sorted_id (l : list A) :
  StronglySorted (fun a b => le a b = true) l -> sort_values le l = l.
Proof.
  induction 1 as [|x l Hs IH Hx]; cbn; [reflexivity|].
  fold (sort_values le l). rewrite IH.
  destruct l as [|y l]; cbn; [reflexivity|].
  inversion Hx as [|? ? Hxy _]; subst. now rewrite Hxy.
Qed.

Lemma sorted_nth (l : list A) :
  StronglySorted (fun a b => le a b = true) l ->
  forall i j a b, (i < j)%nat -> nth_error l i = Some a -> nth_error l j = Some b ->
                  le a b = true.
Proof.
  induction 1 as [|x l Hs IH Hx]; intros i j a b Hij Ha Hb.
  - destruct i; discriminate Ha.
  - destruct j as [|j]; [lia|]. cbn in Hb.
    destruct i as [|i]; cbn in Ha.
    + injection Ha as <-. apply nth_error_In in Hb.
      rewrite Forall_forall in Hx. exact (Hx b Hb).
    + apply (IH i j a b); [lia|exact Ha|exact Hb].
Qed.

End Keyed.

(** A step that keeps the site and the time of every row keeps the order. *)
Lemma sorted_same_keys (A B : Type) (siteA : A -> string) (timeA : A -> Z)
  (siteB : B -> string) (timeB : B -> Z)
  (leA : A -> A -> bool) (leB : B -> B -> bool) (l : list A) (l' : list B) :
  (forall a b, leA a b = site_time_le (siteA a) (timeA a) (siteA b) (timeA b)) ->
  (forall a b, leB a b = site_time_le (siteB a) (timeB a) (siteB b) (timeB b)) ->
  map (fun a => (siteA a, timeA a)) l = map (fun b => (siteB b, timeB b)) l' ->
  StronglySorted (fun a b => leA a b = true) l -> StronglySorted (fun a b => leB a b = true) l'.
Proof.
  intros HA HB E H. revert l' E.
  induction H as [|x l Hs IH Hx]; intros [|y l'] E; try discriminate E.
  - constructor.
  - cbn in E. injection E as Es Et E. constructor; [apply IH; exact E|].
    rewrite Forall_forall in *. intros z Hz.
    assert (Hk : In (siteB z, timeB z) (map (fun b => (siteB b, timeB b)) l'))
      by (apply in_map_iff; exists z; split; [reflexivity|exact Hz]).
    rewrite <- E in Hk. apply in_map_iff in Hk. destruct Hk as [w [Hw Hin]].
    injection Hw as Hws Hwt. cbv beta in *.
    rewrite HB, <- Es, <- Et, <- Hws, <- Hwt, <- HA. exact (Hx w Hin).
Qed.

End SortOrder.

(** ** The anchors through [build] *)

Section BuildAnchors.

Import FeatureMatrixBuilder MatrixSpec OrderSpec.

Variable ext : extern.

Lemma lookback_row_anchor (cfg : FeatureMatrixConfig) (name : string) (l : frow)
  (m : option srow) :
  anchor_of (lookback_row cfg name l m) = anchor_of l.
Proof.
  unfold lookback_row.
  destruct (add_age_days cfg), (add_missing_flags cfg);
    destruct (gt _ _); reflexivity.
Qed.

Lemma group_diff_anchor (rows : list frow) :
  forall last, map anchor_of (group_diff last rows) = map anchor_of rows.
Proof.
  induction rows as [|r rows IH]; intros last; cbn; [reflexivity|].
  now rewrite IH.
Qed.

Lemma anchor_of_keys (l l' : list frow) :
  map anchor_of l = map anchor_of l' ->
  map (fun r => (f_site r, f_time r)) l = map (fun r => (f_site r, f_time r)) l'.
Proof.
  intros E.
  assert (H : forall l0, map (fun r => (f_site r, f_time r)) l0
                         = map (fun a => (fst (fst (fst a)), snd (fst (fst a))))
                               (map anchor_of l0))
    by (intros l0; rewrite map_map; reflexivity).
  now rewrite (H l), (H l'), E.
Qed.

Lemma frow_sorted_anchor (l l' : list frow) :
  map anchor_of l = map anchor_of l' -> frow_sorted l -> frow_sorted l'.
Proof.
  intros E. apply anchor_of_keys in E.
  apply (sorted_same_keys frow frow f_site f_time f_site f_time frow_le frow_le
           l l'); [reflexivity|reflexivity|exact E].
Qed.

Lemma _merge_asof_backward_anchor (self : builder) (anchor merged : fframe)
  (pred : list srow) (name : string) :
  _merge_asof_backward self anchor pred name = Ok merged ->
  frow_sorted (f_rows anchor) ->
  map anchor_of (f_rows merged) = map anchor_of (f_rows anchor) /\
  is_monotonic_increasing (map f_time (f_rows anchor)) = true.
Proof.
  intros H Hs.
  destruct (_merge_asof_backward_rows self anchor merged pred name H) as [_ Hr].
  split.
  - rewrite Hr, map_map.
    rewrite (sort_values_sorted_id frow frow_le
               (f_rows anchor) Hs).
    apply map_ext. intros l. apply lookback_row_anchor.
  - unfold _merge_asof_backward in H.
    destruct (merge_asof _ _ _ _ _ _) as [mg|e] eqn:E; [|discriminate H].
    assert (R : returns (merge_asof f_time f_site s_time s_site
                           (sort_values frow_le (f_rows anchor))
                           (sort_values srow_le pred)))
      by (exists mg; exact E).
    apply merge_asof_returns_iff in R. destruct R as [R _].
    rewrite (sort_values_sorted_id frow frow_le
               (f_rows anchor) Hs) in R.
    exact R.
Qed.

Lemma merge_predictors_anchor (self : builder) (pids : list DeterminandId) :
  forall (A M : fframe),
    merge_predictors ext self pids A = Ok M ->
    frow_sorted (f_rows A) ->
    map anchor_of (f_rows M) = map anchor_of (f_rows A) /\
    (pids <> [] -> is_monotonic_increasing (map f_time (f_rows A)) = true).
Proof.
  induction pids as [|pid pids IH]; intros A M H Hs.
  - cbn in H. injection H as <-. split; [reflexivity|]. intros C. now elim C.
  - cbn [merge_predictors] in H.
    apply bind_Ok in H. destruct H as [pred [_ H]].
    apply bind_Ok in H. destruct H as [A' [H1 H]].
    destruct (_merge_asof_backward_anchor self A A' pred (feature_name pid) H1 Hs)
      as [E Hm].
    destruct (IH A' M H (frow_sorted_anchor _ _ (eq_sym E) Hs)) as [E' _].
    split; [now rewrite E', E|]. intros _. exact Hm.
Qed.

Lemma seasonality_row_anchor (r : frow) :
  anchor_of (seasonality_row ext r) = anchor_of r.
Proof. reflexivity. Qed.

Lemma seasonal_rows_anchor (self : builder) (df : fframe) :
  map anchor_of (seasonal_rows ext self df) = map anchor_of (f_rows df).
Proof.
  unfold seasonal_rows. destruct (add_seasonality (config self)); [|reflexivity].
  rewrite map_map. apply map_ext. intros r. apply seasonality_row_anchor.
Qed.

Lemma _add_time_features_sorted (self : builder) (df : fframe) :
  frow_sorted (f_rows df) ->
  f_rows (_add_time_features ext self df)
  = if add_days_since_last_chl (config self)
    then group_diff [] (seasonal_rows ext self df)
    else seasonal_rows ext self df.
Proof.
  intros Hs. unfold _add_time_features, seasonal_rows.
  assert (Hs' : frow_sorted (map (seasonality_row ext) (f_rows df))).
  { apply (frow_sorted_anchor (f_rows df)); [|exact Hs].
    rewrite map_map. apply map_ext. intros r. reflexivity. }
  destruct (add_seasonality (config self)), (add_days_since_last_chl (config self));
    cbn [f_rows]; try reflexivity.
  - now rewrite (sort_values_sorted_id frow frow_le
                   _ Hs').
  - now rewrite (sort_values_sorted_id frow frow_le
                   _ Hs).
Qed.

Lemma srow_sorted_series (cfg : FeatureMatrixConfig) (S : list srow) :
  StronglySorted (fun a b => srow_le a b = true) S ->
  frow_sorted
    (map (fun r => {| f_site := s_site r; f_time := s_time r;
                      chl_ugL := s_value r;
                      y := int_of_bool (Qgtb (s_value r) (threshold_ugL cfg));
                      f_extra := [] |}) S).
Proof.
  apply (sorted_same_keys srow frow s_site s_time f_site f_time srow_le frow_le);
    [reflexivity|reflexivity|].
  rewrite map_map. reflexivity.
Qed.

(** The rows of a built matrix, step by step: the sorted target series gives
    the anchors, the merges and the seasonality keep them in place, the gaps
    are taken in that order and the governance cells come last. *)
Lemma build_rows (self self' : builder) (M : fframe) :
  build ext self = Ok (M, self') ->
  exists S df_feat,
    determinand_series ext (config self) (_df self)
      (target_determinand_id (config self)) = Ok S /\
    merge_predictors ext self (predictor_ids (config self))
      {| f_columns := [site_col (config self); datetime_col (config self);
                       "chl_ugL"; "y"];
         f_rows := map (fun r => {| f_site := s_site r; f_time := s_time r;
                                    chl_ugL := s_value r;
                                    y := int_of_bool
                                           (Qgtb (s_value r)
                                              (threshold_ugL (config self)));
                                    f_extra := [] |}) S |} = Ok df_feat /\
    map anchor_of (seasonal_rows ext self df_feat)
    = map (anchor_of_series (config self)) S /\
    frow_sorted (seasonal_rows ext self df_feat) /\
    (predictor_ids (config self) <> [] ->
     is_monotonic_increasing (map s_time S) = true) /\
    f_rows M
    = map (fun r =>
             set_cell "snapshot_id" (FStr (snapshot_id (config self)))
               (set_cell "feature_config_fingerprint"
                  (FStr (Some (_make_config_fingerprint ext self)))
                  (set_cell "feature_version"
                     (FStr (Some (feature_version (config self)))) r)))
          (if add_days_since_last_chl (config self)
           then group_diff [] (seasonal_rows ext self df_feat)
           else seasonal_rows ext self df_feat).
Proof.
  intros H.
  destruct (build_Ok ext self self' M H) as [anchor [df_feat [Ha [Hm [Hr _]]]]].
  unfold _build_target_anchor in Ha.
  apply bind_Ok in Ha. destruct Ha as [S [HS Ha]]. injection Ha as <-.
  exists S, df_feat. split; [exact HS|]. split; [exact Hm|].
  assert (HsS : StronglySorted (fun a b => srow_le a b = true) S).
  { rewrite (determinand_series_Ok ext _ _ _ _ HS).
    apply (sort_values_sorted srow s_site s_time srow_le (fun _ _ => eq_refl)). }
  pose proof (srow_sorted_series (config self) S HsS) as Hs0.
  destruct (merge_predictors_anchor self _ _ _ Hm Hs0) as [E Hmono].
  cbn [f_rows] in E, Hmono.
  assert (E1 : map anchor_of (seasonal_rows ext self df_feat)
               = map (anchor_of_series (config self)) S).
  { rewrite seasonal_rows_anchor, E, map_map. reflexivity. }
  assert (Hs1 : frow_sorted (f_rows df_feat))
    by (apply (frow_sorted_anchor _ _ (eq_sym E)); exact Hs0).
  assert (Hs2 : frow_sorted (seasonal_rows ext self df_feat))
    by (apply (frow_sorted_anchor _ _ (eq_sym (seasonal_rows_anchor self df_feat)));
        exact Hs1).
  split; [exact E1|]. split; [exact Hs2|]. split.
  - intros Hne. specialize (Hmono Hne). rewrite map_map in Hmono. exact Hmono.
  - rewrite Hr. f_equal.
    rewrite (_add_time_features_sorted self df_feat Hs1).
    apply (sort_values_sorted_id frow frow_le).
    destruct (add_days_since_last_chl (config self)); [|exact Hs2].
    apply (frow_sorted_anchor (seasonal_rows ext self df_feat)); [|exact Hs2].
    symmetry. apply group_diff_anchor.
Qed.

Lemma build_anchors (self self' : builder) (M : fframe) :
  build ext self = Ok (M, self') ->
  exists S,
    determinand_series ext (config self) (_df self)
      (target_determinand_id (config self)) = Ok S /\
    map anchor_of (f_rows M) = map (anchor_of_series (config self)) S /\
    frow_sorted (f_rows M) /\
    (predictor_ids (config self) <> [] ->
     is_monotonic_increasing (map f_time (f_rows M)) = true).
Proof.
  intros H.
  destruct (build_rows self self' M H)
    as [S [df_feat [HS [_ [E [Hs [Hmono Hr]]]]]]].
  exists S. split; [exact HS|].
  assert (EM : map anchor_of (f_rows M) = map anchor_of (seasonal_rows ext self df_feat)).
  { rewrite Hr, map_map.
    destruct (add_days_since_last_chl (config self)).
    - rewrite <- (group_diff_anchor (seasonal_rows ext self df_feat) []).
      apply map_ext. intros r. reflexivity.
    - apply map_ext. intros r. reflexivity. }
  split; [now rewrite EM, E|]. split.
  - apply (frow_sorted_anchor _ _ (eq_sym EM)). exact Hs.
  - intros Hne. specialize (Hmono Hne).
    assert (Ht : map f_time (f_rows M) = map s_time S).
    { transitivity (map (fun a => snd (fst (fst a))) (map anchor_of (f_rows M))).
      - rewrite map_map. reflexivity.
      - rewrite EM, E, map_map. reflexivity. }
    now rewrite Ht.
Qed.

End BuildAnchors.

(** ** What every built matrix satisfies *)

Section BuiltMatrix.

Import FeatureMatrixBuilder MatrixSpec OrderSpec.

Variable ext : extern.

Lemma target_observations_series (cfg : FeatureMatrixConfig) (df : clean_frame)
  (S : list srow) :
  determinand_series ext cfg df (target_determinand_id cfg) = Ok S ->
  Permutation (map (anchor_of_series cfg) S) (target_observations ext cfg df).
Proof.
  intros H. rewrite (determinand_series_Ok ext _ _ _ _ H).
  eapply Permutation_trans.
  - apply Permutation_map. apply Permutation_sym. apply sort_values_perm.
  - match goal with |- Permutation ?a ?b => assert (E : a = b) end;
      [|rewrite E; apply Permutation_refl].
    unfold target_observations, _filter_window, is_target_anchor.
    rewrite filter_filter.
    induction (df_rows df) as [|o rows IH]; [reflexivity|].
    cbn [parse_datetimes filter]. unfold in_series at 1.
    destruct (o_datetime o) as [t|] eqn:Et; [|exact IH].
    cbn [filter w_year w_obs].
    destruct ((window_start_year cfg <=? dt_year t)%Z
              && (dt_year t <=? window_end_year cfg)%Z); cbn [andb]; [|exact IH].
    destruct (det_matches ext cfg (o_det o) (target_determinand_id cfg));
      cbn [andb]; [|exact IH].
    cbn [numeric_rows w_obs w_time].
    destruct (to_numeric ext (o_value o)) as [v|] eqn:Ev; cbn [isna negb].
    + cbn [flat_map map app]. unfold series_row at 1. rewrite Et, Ev.
      cbn [app]. f_equal. exact IH.
    + exact IH.
Qed.

Lemma monotonic_nth (ks : list Z) :
  is_monotonic_increasing ks = true ->
  forall i j a b, (i < j)%nat -> nth_error ks i = Some a -> nth_error ks j = Some b ->
                  (a <= b)%Z.
Proof.
  induction ks as [|k ks IH]; intros H i j a b Hij Ha Hb.
  - destruct i; discriminate Ha.
  - destruct (monotonic_cons k ks H) as [H' Hk].
    destruct j as [|j]; [lia|]. cbn in Hb.
    destruct i as [|i]; cbn in Ha.
    + injection Ha as <-. apply Hk. exact (nth_error_In _ _ Hb).
    + apply (IH H' i j); [lia|exact Ha|exact Hb].
Qed.

Lemma frow_sorted_order (rows : list frow) :
  frow_sorted rows -> in_site_time_order rows.
Proof.
  intros Hs i j ri rj Hij Hi Hj. apply site_time_le_before.
  exact (sorted_nth frow frow_le rows Hs i j ri rj Hij Hi Hj).
Qed.

Lemma monotonic_times (rows : list frow) :
  is_monotonic_increasing (map f_time rows) = true -> times_never_go_back rows.
Proof.
  intros H i j ri rj Hij Hi Hj.
  apply (monotonic_nth _ H i j); [exact Hij| |];
    rewrite nth_error_map; [rewrite Hi|rewrite Hj]; reflexivity.
Qed.

Lemma built_order (self self' : builder) (M : fframe) :
  build ext self = Ok (M, self') -> in_site_time_order (f_rows M).
Proof.
  intros H. destruct (build_anchors ext self self' M H) as [S [_ [_ [Hs _]]]].
  apply frow_sorted_order. exact Hs.
Qed.

(** X1.  The rows of a built matrix are in the order of the final
    [sort_values([site, time])]: of two rows, the upper one has the earlier
    site label, or the same site and a time that is not later. *)
Theorem built_matrix_in_site_time_order (self self' : builder) (M : fframe) :
  build ext self = Ok (M, self') -> in_site_time_order (f_rows M).
Proof.
  intros H i j ri rj Hij Hi Hj.
  destruct (build_anchors ext self self' M H) as [srs [_ [_ [Hs _]]]].
  apply site_time_le_before.
  exact (sorted_nth frow frow_le (f_rows M) Hs i j ri rj Hij Hi Hj).
Qed.

(** X2.  The rows of a built matrix are the target anchors of the input
    table, each exactly once: site, time, chlorophyll value and label of the
    rows are a rearrangement of those of the table rows of the target
    determinand with a parseable timestamp in the year window and a numeric
    value.  No anchor is dropped or repeated by the predictor joins. *)
Theorem built_matrix_rows_are_target_anchors (self self' : builder) (M : fframe) :
  build ext self = Ok (M, self') ->
  Permutation (map anchor_of (f_rows M))
              (target_observations ext (config self) (_df self)).
Proof.
  intros H. destruct (build_anchors ext self self' M H) as [S [HS [E _]]].
  rewrite E. apply target_observations_series. exact HS.
Qed.

(** X3.  With at least one predictor configured, a matrix is built only if
    the timestamps of its rows never go back from one row to the next, sites
    notwithstanding: [pd.merge_asof] asks for sorted time keys and gets the
    anchors sorted by site first.  So of two target anchors of the table at
    different sites, the one at the earlier site label is not the later
    one. *)
Theorem built_matrix_times_never_go_back (self self' : builder) (M : fframe) :
  build ext self = Ok (M, self') ->
  predictor_ids (config self) <> [] ->
  times_never_go_back (f_rows M) /\
  forall s1 t1 v1 y1 s2 t2 v2 y2,
    In (s1, t1, v1, y1) (target_observations ext (config self) (_df self)) ->
    In (s2, t2, v2, y2) (target_observations ext (config self) (_df self)) ->
    String.compare s1 s2 = Lt -> (t1 <= t2)%Z.
Proof.
  intros H Hne.
  destruct (build_anchors ext self self' M H) as [S [HS [E [Hs Hm]]]].
  pose proof (monotonic_times _ (Hm Hne)) as Ht.
  pose proof (frow_sorted_order _ Hs) as Ho.
  split; [exact Ht|].
  assert (P : Permutation (target_observations ext (config self) (_df self))
                          (map anchor_of (f_rows M))).
  { apply Permutation_sym. rewrite E. apply target_observations_series. exact HS. }
  intros s1 t1 v1 y1 s2 t2 v2 y2 H1 H2 Hc.
  apply (Permutation_in _ P) in H1. apply (Permutation_in _ P) in H2.
  apply in_map_iff in H1. destruct H1 as [r1 [E1 H1]].
  apply in_map_iff in H2. destruct H2 as [r2 [E2 H2]].
  injection E1 as Es1 Et1 _ _. injection E2 as Es2 Et2 _ _.
  apply In_nth_error in H1. destruct H1 as [i Hi].
  apply In_nth_error in H2. destruct H2 as [j Hj].
  subst s1 t1 s2 t2.
  destruct (Nat.lt_trichotomy i j) as [Hij|[Hij|Hij]].
  - exact (Ht i j r1 r2 Hij Hi Hj).
  - subst j. rewrite Hi in Hj. injection Hj as <-.
    rewrite string_compare_refl in Hc. discriminate Hc.
  - destruct (Ho j i r2 r1 Hij Hj Hi) as [Hlt|[Heq _]].
    + rewrite String.compare_antisym, Hlt in Hc. discriminate Hc.
    + rewrite Heq, string_compare_refl in Hc. discriminate Hc.
Qed.

End BuiltMatrix.

Section BuiltMatrixWitnesses.

Import FeatureMatrixBuilder MatrixSpec OrderSpec Fixtures Lakes.

Lemma built_matrix_in_site_time_order_witness :
  build test_ext two_lakes_builder = Ok (two_lakes_matrix, two_lakes_built) /\
  in_site_time_order (f_rows two_lakes_matrix).
Proof.
  split; [vm_compute; reflexivity|].
  apply (built_matrix_in_site_time_order test_ext two_lakes_builder
           two_lakes_built two_lakes_matrix).
  vm_compute. reflexivity.
Defined.

Lemma built_matrix_rows_are_target_anchors_witness :
  build test_ext two_lakes_builder = Ok (two_lakes_matrix, two_lakes_built) /\
  Permutation (map anchor_of (f_rows two_lakes_matrix))
              (target_observations test_ext (config two_lakes_builder)
                 (_df two_lakes_builder)).
Proof.
  split; [vm_compute; reflexivity|].
  apply (built_matrix_rows_are_target_anchors test_ext two_lakes_builder
           two_lakes_built two_lakes_matrix).
  vm_compute. reflexivity.
Defined.

Lemma built_matrix_times_never_go_back_witness :
  build test_ext two_lakes_builder = Ok (two_lakes_matrix, two_lakes_built) /\
  predictor_ids (config two_lakes_builder) <> [] /\
  times_never_go_back (f_rows two_lakes_matrix).
Proof.
  split; [vm_compute; reflexivity|]. split; [discriminate|].
  apply (built_matrix_times_never_go_back test_ext two_lakes_builder
           two_lakes_built two_lakes_matrix);
    [vm_compute; reflexivity|discriminate].
Defined.

End BuiltMatrixWitnesses.

(** ** The artifacts of a build *)

Section BuildArtifacts.

Import FeatureMatrixBuilder MatrixSpec OrderSpec.

Variable ext : extern.

Lemma build_artifacts (self self' : builder) (M : fframe) :
  build ext self = Ok (M, self') ->
  let n := List.length (f_rows M) in
  let n_pos := Zsum (map y (f_rows M)) in
  dict_get "n_pos" (artifacts self') = Some (AInt n_pos) /\
  dict_get "pos_rate" (artifacts self')
  = Some (AFloat (match n with
                  | O => None
                  | _ => Some (inject_Z n_pos / inject_Z (Z.of_nat n))
                  end)).
Proof.
  unfold build. intros H.
  apply bind_Ok in H. destruct H as [anchor [_ H]].
  apply bind_Ok in H. destruct H as [df_feat [_ H]].
  injection H as <- <-. cbn [artifacts]. split.
  - rewrite dict_get_set_neq by discriminate. apply dict_get_set_eq.
  - apply dict_get_set_eq.
Qed.

Lemma Zsum_labels (thr : Q) (rows : list frow) :
  (forall r, In r rows -> y r = int_of_bool (Qgtb (chl_ugL r) thr)) ->
  Zsum (map y rows)
  = Z.of_nat (List.length (filter (fun r => Qgtb (chl_ugL r) thr) rows)).
Proof.
  induction rows as [|r rows IH]; intros H; [reflexivity|].
  cbn [map Zsum fold_right filter].
  rewrite (H r (or_introl eq_refl)).
  fold (Zsum (map y rows)). rewrite IH by (intros r' Hr'; apply H; right; exact Hr').
  destruct (Qgtb (chl_ugL r) thr); cbn [int_of_bool List.length]; lia.
Qed.

Lemma built_matrix_labels (self self' : builder) (M : fframe) :
  build ext self = Ok (M, self') ->
  forall r, In r (f_rows M) ->
            y r = int_of_bool (Qgtb (chl_ugL r) (threshold_ugL (config self))).
Proof.
  intros H r Hr.
  destruct (build_anchors ext self self' M H) as [S [_ [E _]]].
  assert (Hin : In (anchor_of r) (map (anchor_of_series (config self)) S))
    by (rewrite <- E; apply in_map; exact Hr).
  apply in_map_iff in Hin. destruct Hin as [p [Hp _]].
  unfold anchor_of, anchor_of_series in Hp.
  injection Hp as _ _ Hv Hy. now rewrite <- Hy, <- Hv.
Qed.

(** X4.  After a build, [artifacts["n_pos"]] is the number of rows of the
    matrix whose chlorophyll value is strictly above the threshold, it lies
    between 0 and [n_rows], and [artifacts["pos_rate"]] is NaN for an empty
    matrix and [n_pos / n_rows], a number from 0 to 1, otherwise. *)
Theorem build_artifacts_count_exceedances (self self' : builder) (M : fframe) :
  build ext self = Ok (M, self') ->
  let n := Z.of_nat (List.length (f_rows M)) in
  let n_pos :=
    Z.of_nat (List.length
                (filter (fun r => Qgtb (chl_ugL r) (threshold_ugL (config self)))
                        (f_rows M))) in
  dict_get "n_rows" (artifacts self') = Some (AInt n) /\
  dict_get "n_pos" (artifacts self') = Some (AInt n_pos) /\
  (0 <= n_pos <= n)%Z /\
  (f_rows M = [] -> dict_get "pos_rate" (artifacts self') = Some (AFloat None)) /\
  (f_rows M <> [] ->
   dict_get "pos_rate" (artifacts self')
   = Some (AFloat (Some (inject_Z n_pos / inject_Z n))) /\
   0 <= inject_Z n_pos / inject_Z n /\ inject_Z n_pos / inject_Z n <= 1).
Proof.
  intros H n n_pos.
  destruct (build_artifacts self self' M H) as [Hp Hr].
  destruct (build_Ok ext self self' M H) as [anchor [df_feat [_ [_ [_ Hn]]]]].
  rewrite (Zsum_labels (threshold_ugL (config self)) (f_rows M)
             (built_matrix_labels self self' M H)) in Hp, Hr.
  fold n_pos in Hp, Hr.
  assert (Hb : (0 <= n_pos <= n)%Z).
  { unfold n_pos, n. split; [lia|]. apply inj_le. apply filter_length_le. }
  split; [exact Hn|]. split; [exact Hp|]. split; [exact Hb|]. split.
  - intros E. rewrite E in Hr. exact Hr.
  - intros Hne.
    assert (Hpos : (0 < n)%Z).
    { unfold n. destruct (f_rows M); [now elim Hne|cbn [List.length]; lia]. }
    assert (Hr' : dict_get "pos_rate" (artifacts self')
                  = Some (AFloat (Some (inject_Z n_pos / inject_Z n)))).
    { rewrite Hr. destruct (List.length (f_rows M)) eqn:El; [|reflexivity].
      unfold n in Hpos. try rewrite El in Hpos. cbn in Hpos. lia. }
    split; [exact Hr'|].
    assert (Hq : 0 < inject_Z n) by (change 0 with (inject_Z 0); rewrite <- Zlt_Qlt; exact Hpos).
    split.
    + apply Qle_shift_div_l; [exact Hq|]. rewrite Qmult_0_l.
      change 0 with (inject_Z 0). rewrite <- Zle_Qle. lia.
    + apply Qle_shift_div_r; [exact Hq|]. rewrite Qmult_1_l.
      rewrite <- Zle_Qle. lia.
Qed.

End BuildArtifacts.

Section BuildArtifactsWitness.

Import FeatureMatrixBuilder Fixtures Lakes.

Lemma build_artifacts_count_exceedances_witness :
  build test_ext two_lakes_builder = Ok (two_lakes_matrix, two_lakes_built) /\
  dict_get "n_pos" (artifacts two_lakes_built) = Some (AInt 2) /\
  dict_get "n_rows" (artifacts two_lakes_built) = Some (AInt 4).
Proof.
  assert (E : build test_ext two_lakes_builder
              = Ok (two_lakes_matrix, two_lakes_built))
    by (vm_compute; reflexivity).
  split; [exact E|].
  destruct (build_artifacts_count_exceedances test_ext two_lakes_builder
              two_lakes_built two_lakes_matrix E) as [Hn [Hp _]].
  split; [exact Hp|exact Hn].
Defined.

End BuildArtifactsWitness.

(** ** When [build] raises, and the columns it makes *)

Section BuildColumns.

Import FeatureMatrixBuilder MatrixSpec JoinSpec OrderSpec.

Variable ext : extern.

Lemma result_cases {A : Type} (c : result A) : returns c \/ raises c.
Proof. destruct c as [a|e]; [left; exists a|right; exists e]; reflexivity. Qed.

(** The columns that one merge leaves, from the columns it finds. *)
Lemma _merge_asof_backward_columns (self : builder) (anchor merged : fframe)
  (pred : list srow) (name : string) :
  _merge_asof_backward self anchor pred name = Ok merged ->
  ~ In name (f_columns anchor) /\
  f_columns merged
  = (let cols := f_columns anchor ++ [time_name name; name] in
     let cols := if add_age_days (config self)
                 then add_column (age_name name) cols else cols in
     if add_missing_flags (config self)
     then add_column (missing_name name) cols else cols).
Proof.
  unfold _merge_asof_backward. intros H.
  apply bind_Ok in H. destruct H as [mg [_ H]].
  destruct (str_in name (f_columns anchor)) eqn:E1; [discriminate H|].
  destruct (str_in (time_name name) (f_columns anchor)); [discriminate H|].
  cbn [orb] in H. injection H as <-. cbn [f_columns].
  split; [apply str_in_not_In; exact E1|reflexivity].
Qed.

Lemma add_column_incl (name : string) (cols : list string) (k : string) :
  In k cols -> In k (add_column name cols).
Proof.
  unfold add_column. destruct (str_in name cols); [auto|].
  intros H. apply in_or_app. left. exact H.
Qed.

Lemma add_column_In (name : string) (cols : list string) :
  In name (add_column name cols).
Proof.
  unfold add_column. destruct (str_in name cols) eqn:E.
  - apply str_in_In. exact E.
  - apply in_or_app. right. left. reflexivity.
Qed.

Lemma _merge_asof_backward_incl (self : builder) (anchor merged : fframe)
  (pred : list srow) (name : string) :
  _merge_asof_backward self anchor pred name = Ok merged ->
  In name (f_columns merged) /\ In (time_name name) (f_columns merged) /\
  (add_age_days (config self) = true -> In (age_name name) (f_columns merged)) /\
  (add_missing_flags (config self) = true ->
   In (missing_name name) (f_columns merged)) /\
  forall k, In k (f_columns anchor) -> In k (f_columns merged).
Proof.
  intros H. destruct (_merge_asof_backward_columns self _ _ _ _ H) as [_ E].
  rewrite E. clear E H.
  assert (H0 : forall k, In k (f_columns anchor ++ [time_name name; name]) ->
               In k (if add_missing_flags (config self)
                     then add_column (missing_name name)
                            (if add_age_days (config self)
                             then add_column (age_name name)
                                    (f_columns anchor ++ [time_name name; name])
                             else f_columns anchor ++ [time_name name; name])
                     else (if add_age_days (config self)
                           then add_column (age_name name)
                                  (f_columns anchor ++ [time_name name; name])
                           else f_columns anchor ++ [time_name name; name]))).
  { intros k Hk.
    destruct (add_missing_flags (config self)), (add_age_days (config self));
      repeat apply add_column_incl; exact Hk. }
  cbv zeta. split; [|split; [|split; [|split]]].
  - apply H0, in_or_app. right. right. left. reflexivity.
  - apply H0, in_or_app. right. left. reflexivity.
  - intros ->. destruct (add_missing_flags (config self));
      [apply add_column_incl|]; apply add_column_In.
  - intros ->. apply add_column_In.
  - intros k Hk. apply H0, in_or_app. left. exact Hk.
Qed.

(** The loop over the predictors returns only if no label comes twice, and
    then every predictor has its columns. *)
Lemma merge_predictors_columns (self : builder) (pids : list DeterminandId) :
  forall (A M : fframe),
    merge_predictors ext self pids A = Ok M ->
    NoDup (map feature_name pids) /\
    (forall pid, In pid pids -> ~ In (feature_name pid) (f_columns A)) /\
    (forall k, In k (f_columns A) -> In k (f_columns M)) /\
    (forall pid, In pid pids ->
       returns (_extract_predictor_series ext self pid) /\
       In (feature_name pid) (f_columns M) /\
       In (time_name (feature_name pid)) (f_columns M) /\
       (add_age_days (config self) = true ->
        In (age_name (feature_name pid)) (f_columns M)) /\
       (add_missing_flags (config self) = true ->
        In (missing_name (feature_name pid)) (f_columns M))).
Proof.
  induction pids as [|pid pids IH]; intros A M H.
  - cbn in H. injection H as <-.
    split; [constructor|]. split; [intros ? []|]. split; [auto|intros ? []].
  - cbn [merge_predictors] in H.
    apply bind_Ok in H. destruct H as [pred [Hp H]].
    apply bind_Ok in H. destruct H as [A' [H1 H]].
    destruct (_merge_asof_backward_columns self _ _ _ _ H1) as [Hnew _].
    destruct (_merge_asof_backward_incl self _ _ _ _ H1)
      as [Hn [Ht [Ha [Hm Hincl]]]].
    destruct (IH A' M H) as [Hnd [Hfresh [Hincl' Hall]]].
    split; [|split; [|split]].
    + cbn [map]. constructor; [|exact Hnd].
      intros Hin. apply in_map_iff in Hin. destruct Hin as [q [Eq Hq]].
      apply (Hfresh q Hq). rewrite Eq. exact Hn.
    + intros q [<-|Hq]; [exact Hnew|].
      intros Hin. exact (Hfresh q Hq (Hincl _ Hin)).
    + intros k Hk. apply Hincl', Hincl, Hk.
    + intros q [<-|Hq]; [|exact (Hall q Hq)].
      split; [exists pred; exact Hp|].
      split; [apply Hincl'; exact Hn|]. split; [apply Hincl'; exact Ht|].
      split; intros Hc; apply Hincl'; auto.
Qed.

Lemma merge_predictors_same_columns (b1 b2 : builder)
  (pids : list DeterminandId) :
  config b1 = config b2 ->
  forall (A1 A2 M1 M2 : fframe),
    merge_predictors ext b1 pids A1 = Ok M1 ->
    merge_predictors ext b2 pids A2 = Ok M2 ->
    f_columns A1 = f_columns A2 ->
    f_columns M1 = f_columns M2.
Proof.
  intros Ec. induction pids as [|pid pids IH]; intros A1 A2 M1 M2 H1 H2 E.
  - cbn in H1, H2. injection H1 as <-. injection H2 as <-. exact E.
  - cbn [merge_predictors] in H1, H2.
    apply bind_Ok in H1. destruct H1 as [p1 [_ H1]].
    apply bind_Ok in H1. destruct H1 as [A1' [H1a H1]].
    apply bind_Ok in H2. destruct H2 as [p2 [_ H2]].
    apply bind_Ok in H2. destruct H2 as [A2' [H2a H2]].
    apply (IH A1' A2' M1 M2 H1 H2).
    destruct (_merge_asof_backward_columns b1 _ _ _ _ H1a) as [_ E1].
    destruct (_merge_asof_backward_columns b2 _ _ _ _ H2a) as [_ E2].
    rewrite E1, E2, Ec, E. reflexivity.
Qed.

Lemma build_Ok_columns (self self' : builder) (M : fframe) :
  build ext self = Ok (M, self') ->
  exists anchor df_feat,
    _build_target_anchor ext self = Ok anchor /\
    f_columns anchor
    = [site_col (config self); datetime_col (config self); "chl_ugL"; "y"] /\
    merge_predictors ext self (predictor_ids (config self)) anchor = Ok df_feat /\
    f_columns M
    = add_column "snapshot_id"
        (add_column "feature_config_fingerprint"
           (add_column "feature_version"
              (f_columns (_add_time_features ext self df_feat)))).
Proof.
  unfold build. intros H.
  apply bind_Ok in H. destruct H as [anchor [Ha H]].
  apply bind_Ok in H. destruct H as [df_feat [Hm H]].
  injection H as <- _. exists anchor, df_feat.
  split; [exact Ha|]. split; [|split; [exact Hm|reflexivity]].
  unfold _build_target_anchor in Ha.
  apply bind_Ok in Ha. destruct Ha as [S [_ Ha]]. injection Ha as <-. reflexivity.
Qed.

Lemma _add_time_features_columns (b1 b2 : builder) (d1 d2 : fframe) :
  config b1 = config b2 -> f_columns d1 = f_columns d2 ->
  f_columns (_add_time_features ext b1 d1) = f_columns (_add_time_features ext b2 d2).
Proof.
  intros Ec E. unfold _add_time_features. rewrite Ec.
  destruct (add_seasonality (config b2)), (add_days_since_last_chl (config b2));
    cbn [f_columns]; rewrite E; reflexivity.
Qed.

Lemma _add_time_features_incl (self : builder) (df : fframe) (k : string) :
  In k (f_columns df) -> In k (f_columns (_add_time_features ext self df)).
Proof.
  intros H. unfold _add_time_features.
  destruct (add_seasonality (config self)), (add_days_since_last_chl (config self));
    cbn [f_columns fold_left]; repeat apply add_column_incl; exact H.
Qed.

Lemma build_returns_convertible (self self' : builder) (M : fframe) :
  build ext self = Ok (M, self') ->
  determinand_cast (config self) = "int" ->
  forall id, In id (target_determinand_id (config self)
                    :: predictor_ids (config self)) ->
             returns (int_of_det id).
Proof.
  intros H Hc id Hid.
  destruct (build_Ok_columns self self' M H) as [anchor [df_feat [Ha [_ [Hm _]]]]].
  assert (R : returns (determinand_series ext (config self) (_df self) id)).
  { destruct Hid as [<-|Hid].
    - unfold _build_target_anchor in Ha. apply bind_Ok in Ha.
      destruct Ha as [S [HS _]]. exists S. exact HS.
    - destruct (merge_predictors_columns self _ _ _ Hm) as [_ [_ [_ Hall]]].
      exact (proj1 (Hall id Hid)). }
  destruct R as [S HS]. unfold determinand_series in HS.
  apply bind_Ok in HS. destruct HS as [[dn tn] [Hn _]].
  unfold _normalize_det in Hn. rewrite Hc in Hn. cbn in Hn.
  apply bind_Ok in Hn. destruct Hn as [t [Ht _]]. exists t. exact Ht.
Qed.

(** X5.  [build] raises when two configured predictors give the same
    column label [det_<id>]: the same identifier twice, or an integer and
    the text that spells it.  The second merge finds the label taken. *)
Theorem build_raises_on_repeated_predictor_label (self : builder) :
  ~ NoDup (map feature_name (predictor_ids (config self))) ->
  raises (build ext self).
Proof.
  intros Hdup. destruct (result_cases (build ext self)) as [[[M self'] H]|R];
    [|exact R].
  exfalso. apply Hdup.
  destruct (build_Ok_columns self self' M H) as [anchor [df_feat [_ [_ [Hm _]]]]].
  exact (proj1 (merge_predictors_columns self _ _ _ Hm)).
Qed.

(** X6.  Under the integer comparison mode [build] raises when the target
    identifier or a predictor identifier is a text that [int()] refuses,
    although the constructor accepted the configuration. *)
Theorem build_raises_on_unconvertible_identifier (self : builder)
  (id : DeterminandId) :
  determinand_cast (config self) = "int" ->
  In id (target_determinand_id (config self) :: predictor_ids (config self)) ->
  raises (int_of_det id) ->
  raises (build ext self).
Proof.
  intros Hc Hid [e He].
  destruct (result_cases (build ext self)) as [[[M self'] H]|R]; [|exact R].
  destruct (build_returns_convertible self self' M H Hc id Hid) as [t Ht].
  rewrite He in Ht. discriminate Ht.
Qed.

(** X7.  The column labels of a built matrix depend on the configuration
    only: two tables built under the same configuration (a training and a
    test slice, say) give the same labels in the same order.  The four
    anchor labels, the value and time labels of every predictor, its age and
    missing-flag labels when those are switched on, and the three governance
    labels are among them. *)
Theorem built_matrix_columns_depend_on_config_only
  (b1 b2 b1' b2' : builder) (M1 M2 : fframe) :
  build ext b1 = Ok (M1, b1') ->
  build ext b2 = Ok (M2, b2') ->
  config b1 = config b2 ->
  f_columns M1 = f_columns M2 /\
  (forall k, In k [site_col (config b1); datetime_col (config b1); "chl_ugL"; "y";
                   "feature_version"; "feature_config_fingerprint"; "snapshot_id"] ->
             In k (f_columns M1)) /\
  (forall pid, In pid (predictor_ids (config b1)) ->
     In (feature_name pid) (f_columns M1) /\
     In (time_name (feature_name pid)) (f_columns M1) /\
     (add_age_days (config b1) = true ->
      In (age_name (feature_name pid)) (f_columns M1)) /\
     (add_missing_flags (config b1) = true ->
      In (missing_name (feature_name pid)) (f_columns M1))).
Proof.
  intros H1 H2 Ec.
  destruct (build_Ok_columns b1 b1' M1 H1) as [a1 [d1 [_ [Ea1 [Hm1 E1]]]]].
  destruct (build_Ok_columns b2 b2' M2 H2) as [a2 [d2 [_ [Ea2 [Hm2 E2]]]]].
  destruct (merge_predictors_columns b1 _ _ _ Hm1) as [_ [_ [Hincl Hall]]].
  assert (Hup : forall k, In k (f_columns d1) -> In k (f_columns M1)).
  { intros k Hk. rewrite E1. repeat apply add_column_incl.
    apply _add_time_features_incl. exact Hk. }
  split; [|split].
  - rewrite E1, E2. do 3 f_equal. apply _add_time_features_columns; [exact Ec|].
    rewrite <- Ec in Hm2.
    apply (merge_predictors_same_columns b1 b2 _ Ec a1 a2 d1 d2 Hm1 Hm2).
    rewrite Ea1, Ea2, Ec. reflexivity.
  - intros k Hk. cbn [In] in Hk.
    destruct Hk as [<-|[<-|[<-|[<-|Hk]]]];
      try (apply Hup, Hincl; rewrite Ea1; cbn [In]; tauto).
    rewrite E1. destruct Hk as [<-|[<-|[<-|[]]]].
    + do 2 apply add_column_incl. apply add_column_In.
    + apply add_column_incl. apply add_column_In.
    + apply add_column_In.
  - intros pid Hpid. destruct (Hall pid Hpid) as [_ [Hn [Ht [Ha Hf]]]].
    split; [apply Hup; exact Hn|]. split; [apply Hup; exact Ht|].
    split; intros Hc; apply Hup; auto.
Qed.

End BuildColumns.

Section BuildColumnsWitnesses.

Import FeatureMatrixBuilder Fixtures Lakes.

Lemma build_raises_on_repeated_predictor_label_witness :
  ~ NoDup (map feature_name (predictor_ids (config repeated_builder))) /\
  raises (build test_ext repeated_builder).
Proof.
  assert (H : ~ NoDup (map feature_name (predictor_ids (config repeated_builder)))).
  { vm_compute. intros H. inversion H as [|x l Hx _]. apply Hx. left. reflexivity. }
  split; [exact H|].
  exact (build_raises_on_repeated_predictor_label test_ext repeated_builder H).
Defined.

Lemma build_raises_on_unconvertible_identifier_witness :
  __init__ (_df unconvertible_builder) (config unconvertible_builder)
  = Ok unconvertible_builder /\
  raises (build test_ext unconvertible_builder).
Proof.
  split; [vm_compute; reflexivity|].
  apply (build_raises_on_unconvertible_identifier test_ext unconvertible_builder
           (DStr "pH")).
  - reflexivity.
  - right. left. reflexivity.
  - eexists. vm_compute. reflexivity.
Defined.

Lemma built_matrix_columns_depend_on_config_only_witness :
  build test_ext two_lakes_builder = Ok (two_lakes_matrix, two_lakes_built) /\
  build test_ext anchors_builder = Ok (anchors_matrix, anchors_built) /\
  config two_lakes_builder = config anchors_builder /\
  f_columns two_lakes_matrix = f_columns anchors_matrix.
Proof.
  split; [vm_compute; reflexivity|]. split; [vm_compute; reflexivity|].
  split; [reflexivity|].
  apply (built_matrix_columns_depend_on_config_only test_ext
           two_lakes_builder anchors_builder two_lakes_built anchors_built
           two_lakes_matrix anchors_matrix);
    [vm_compute; reflexivity|vm_compute; reflexivity|reflexivity].
Defined.

End BuildColumnsWitnesses.

(** ** The gap to the previous chlorophyll sample *)

Section DaysSinceLast.

Import FeatureMatrixBuilder OrderSpec TimeSpec.

Variable ext : extern.

Lemma last_seen_app (site : string) (l1 l2 : list frow) (acc : option Z) :
  last_seen site (l1 ++ l2) acc = last_seen site l2 (last_seen site l1 acc).
Proof. unfold last_seen. apply fold_left_app. Qed.

Lemma dict_get_set (k k' : string) (v : Z) (d : list (string * Z)) :
  dict_get k (dict_set k' v d)
  = if String.eqb k' k then Some v else dict_get k d.
Proof.
  destruct (String.eqb k' k) eqn:E.
  - apply String.eqb_eq in E. subst k'. apply dict_get_set_eq.
  - apply String.eqb_neq in E. apply dict_get_set_neq. congruence.
Qed.

(** Row [i] of [group_diff] gets the gap to the last row above it at its
    site, or to the time that [last] holds for the site. *)
Lemma group_diff_nth (rows : list frow) :
  forall (last : list (string * Z)) (i : nat) (r : frow),
    nth_error rows i = Some r ->
    nth_error (group_diff last rows) i
    = Some (set_cell "days_since_last_chl"
              (FFloat (option_map (fun p => days_of_ns (f_time r - p))
                         (last_seen (f_site r) (firstn i rows)
                            (dict_get (f_site r) last)))) r).
Proof.
  induction rows as [|r0 rows IH]; intros last i r Hi.
  - destruct i; discriminate Hi.
  - destruct i as [|i]; cbn in Hi.
    + injection Hi as <-. reflexivity.
    + cbn [group_diff nth_error firstn]. rewrite (IH _ i r Hi).
      unfold last_seen. cbn [fold_left]. rewrite dict_get_set. reflexivity.
Qed.

Lemma last_seen_none (site : string) (rows : list frow) :
  (forall p, In p rows -> f_site p <> site) -> last_seen site rows None = None.
Proof.
  unfold last_seen. induction rows as [|p rows IH]; intros H; [reflexivity|].
  cbn [fold_left].
  destruct (String.eqb (f_site p) site) eqn:E.
  - apply String.eqb_eq in E. elim (H p (or_introl eq_refl) E).
  - apply IH. intros q Hq. apply H. right. exact Hq.
Qed.

(** In a sorted frame the rows of a site are next to each other. *)
Lemma sorted_sites_contiguous (rows : list frow) (j k i : nat) (q p r : frow) :
  in_site_time_order rows ->
  (j < k)%nat -> (k < i)%nat ->
  nth_error rows j = Some q -> nth_error rows k = Some p ->
  nth_error rows i = Some r ->
  f_site q = f_site r -> f_site p = f_site r.
Proof.
  intros Ho Hjk Hki Hq Hp Hr E.
  destruct (Ho j k q p Hjk Hq Hp) as [H1|[H1 _]]; [|congruence].
  destruct (Ho k i p r Hki Hp Hr) as [H2|[H2 _]]; [|exact H2].
  rewrite E in H1. rewrite String.compare_antisym, H1 in H2. discriminate H2.
Qed.

Lemma firstn_S_nth {A : Type} (l : list A) (k : nat) (p : A) :
  nth_error l k = Some p -> firstn (S k) l = firstn k l ++ [p].
Proof.
  revert k. induction l as [|x l IH]; intros k H.
  - destruct k; discriminate H.
  - destruct k as [|k]; cbn in H.
    + injection H as <-. reflexivity.
    + rewrite !firstn_cons. rewrite (IH k H). reflexivity.
Qed.

Lemma group_diff_sorted (rows : list frow) (i : nat) (r : frow) :
  in_site_time_order rows ->
  nth_error rows i = Some r ->
  nth_error (group_diff [] rows) i
  = Some (set_cell "days_since_last_chl" (FFloat (previous_gap rows i)) r).
Proof.
  intros Ho Hi. rewrite (group_diff_nth rows [] i r Hi). do 3 f_equal.
  cbn [dict_get]. destruct i as [|k]; [reflexivity|].
  unfold previous_gap. rewrite Hi.
  destruct (nth_error rows k) as [p|] eqn:Hk.
  - rewrite (firstn_S_nth rows k p Hk), last_seen_app.
    unfold last_seen at 1. cbn [fold_left].
    destruct (String.eqb (f_site p) (f_site r)) eqn:E; [reflexivity|].
    rewrite last_seen_none; [reflexivity|].
    intros q Hq Eq. apply String.eqb_neq in E. apply E.
    apply In_nth_error in Hq. destruct Hq as [j Hj].
    assert (Hjk : (j < k)%nat).
    { assert (Hlt : (j < List.length (firstn k rows))%nat)
        by (apply nth_error_Some; rewrite Hj; discriminate).
      rewrite length_firstn in Hlt. lia. }
    rewrite nth_error_firstn in Hj.
    destruct (j <? k)%nat eqn:Ejk; [|discriminate Hj].
    exact (sorted_sites_contiguous rows j k (S k) q p r Ho Hjk (Nat.lt_succ_diag_r k)
             Hj Hk Hi Eq).
  - exfalso. apply nth_error_None in Hk.
    assert (Hlt : (S k < List.length rows)%nat)
      by (apply nth_error_Some; rewrite Hi; discriminate).
    lia.
Qed.

Lemma previous_gap_anchor (l l' : list frow) (i : nat) :
  map anchor_of l = map anchor_of l' -> previous_gap l i = previous_gap l' i.
Proof.
  intros E.
  assert (H : forall l0 k,
             option_map anchor_of (nth_error l0 k) = nth_error (map anchor_of l0) k)
    by (intros l0 k; symmetry; apply nth_error_map).
  unfold previous_gap. destruct i as [|k]; [reflexivity|].
  pose proof (H l k) as H1. pose proof (H l' k) as H1'.
  pose proof (H l (S k)) as H2. pose proof (H l' (S k)) as H2'.
  rewrite E in H1, H2. rewrite <- H1' in H1. rewrite <- H2' in H2.
  destruct (nth_error l k) as [p|], (nth_error l' k) as [p'|];
    try discriminate H1; [|reflexivity].
  destruct (nth_error l (S k)) as [r|], (nth_error l' (S k)) as [r'|];
    try discriminate H2; [|reflexivity].
  cbn in H1, H2. unfold anchor_of in H1, H2.
  injection H1 as Es Et _ _. injection H2 as Es' Et' _ _.
  now rewrite Es, Et, Es', Et'.
Qed.

Lemma days_of_ns_nonneg (d : Z) : (0 <= d)%Z -> 0 <= days_of_ns d.
Proof. intros H. unfold days_of_ns, Qle. cbn. lia. Qed.

(** X8.  With [add_days_since_last_chl] on, the cell [days_since_last_chl]
    of the first row of the matrix and of every row whose upper neighbour
    is at another site is null, and that of any other row is the time from
    the row above it to the row, in days, which is never negative. *)
Theorem days_since_last_chl_is_gap_to_row_above
  (self self' : builder) (M : fframe) (i : nat) (r : frow) :
  build ext self = Ok (M, self') ->
  add_days_since_last_chl (config self) = true ->
  nth_error (f_rows M) i = Some r ->
  get_cell "days_since_last_chl" r = Some (FFloat (previous_gap (f_rows M) i)) /\
  (forall d, previous_gap (f_rows M) i = Some d -> 0 <= d).
Proof.
  intros H Hd Hi.
  destruct (build_rows ext self self' M H)
    as [srs [df_feat [_ [_ [_ [Hs [_ Hr]]]]]]].
  rewrite Hd in Hr.
  pose proof (built_order ext self self' M H) as Ho.
  assert (EM : map anchor_of (f_rows M)
               = map anchor_of (seasonal_rows ext self df_feat)).
  { rewrite Hr, map_map.
    rewrite <- (group_diff_anchor (seasonal_rows ext self df_feat) []).
    apply map_ext. intros r0. reflexivity. }
  split.
  - rewrite Hr, nth_error_map in Hi.
    destruct (nth_error (group_diff [] (seasonal_rows ext self df_feat)) i)
      as [g|] eqn:Hg; [|discriminate Hi].
    cbn in Hi. injection Hi as <-.
    assert (Hl : exists r0, nth_error (seasonal_rows ext self df_feat) i = Some r0).
    { destruct (nth_error (seasonal_rows ext self df_feat) i) as [r0|] eqn:E0;
        [exists r0; reflexivity|].
      apply nth_error_None in E0.
      assert (Hlt : (i < List.length (group_diff [] (seasonal_rows ext self df_feat)))%nat)
        by (apply nth_error_Some; rewrite Hg; discriminate).
      rewrite group_diff_length in Hlt. lia. }
    destruct Hl as [r0 Hr0].
    rewrite (group_diff_sorted _ i r0 (frow_sorted_order _ Hs) Hr0) in Hg.
    injection Hg as <-.
    rewrite (previous_gap_anchor _ _ i EM).
    rewrite !get_cell_set_neq by discriminate.
    apply get_cell_set_eq.
  - intros d Hgap. unfold previous_gap in Hgap.
    destruct i as [|k]; [discriminate Hgap|].
    destruct (nth_error (f_rows M) k) as [p|] eqn:Hk; [|discriminate Hgap].
    rewrite Hi in Hgap.
    destruct (String.eqb (f_site p) (f_site r)) eqn:E; [|discriminate Hgap].
    injection Hgap as <-. apply days_of_ns_nonneg.
    apply String.eqb_eq in E.
    destruct (Ho k (S k) p r (Nat.lt_succ_diag_r k) Hk Hi) as [Hlt|[_ Hle]]; [|lia].
    rewrite E, string_compare_refl in Hlt. discriminate Hlt.
Qed.

End DaysSinceLast.

Section DaysSinceLastWitness.

Import FeatureMatrixBuilder OrderSpec TimeSpec Fixtures Lakes.

Lemma days_since_last_chl_is_gap_to_row_above_witness :
  build test_ext two_lakes_builder = Ok (two_lakes_matrix, two_lakes_built) /\
  add_days_since_last_chl (config two_lakes_builder) = true /\
  nth_error (f_rows two_lakes_matrix) 1 = Some two_lakes_row /\
  previous_gap (f_rows two_lakes_matrix) 1 = Some (days_of_ns (4 * NS_PER_DAY)) /\
  get_cell "days_since_last_chl" two_lakes_row
  = Some (FFloat (previous_gap (f_rows two_lakes_matrix) 1)).
Proof.
  split; [vm_compute; reflexivity|]. split; [reflexivity|].
  split; [vm_compute; reflexivity|]. split; [vm_compute; reflexivity|].
  apply (days_since_last_chl_is_gap_to_row_above test_ext two_lakes_builder
           two_lakes_built two_lakes_matrix 1 two_lakes_row);
    [vm_compute; reflexivity|reflexivity|vm_compute; reflexivity].
Defined.

End DaysSinceLastWitness.

(** ** One predictor beside the others *)

Section PredictorIndependence.

Import FeatureMatrixBuilder JoinSpec TimeSpec.

Variable ext : extern.

Lemma build_extracts (self self' : builder) (M : fframe) (pid : DeterminandId) :
  build ext self = Ok (M, self') ->
  In pid (predictor_ids (config self)) ->
  returns (_extract_predictor_series ext self pid).
Proof.
  intros H Hpid.
  destruct (build_Ok_columns ext self self' M H) as [a [d [_ [_ [Hm _]]]]].
  destruct (merge_predictors_columns ext self _ _ _ Hm) as [_ [_ [_ Hall]]].
  exact (proj1 (Hall pid Hpid)).
Qed.

(** X9.  The cells of a predictor do not depend on which other predictors
    are configured: two builds on the same table under configurations that
    differ in the predictor list only give, in rows with the same site and
    time, the same value and matched time for a predictor that both lists
    hold, and the same age and missing flag when those columns are on. *)
Theorem predictor_cells_ignore_other_predictors
  (df : clean_frame) (cfg : FeatureMatrixConfig)
  (pids1 pids2 : list DeterminandId) (arts1 arts2 : list (string * artifact))
  (M1 M2 : fframe) (b1' b2' : builder) (pid : DeterminandId) (r1 r2 : frow) :
  build ext {| _df := df; config := with_predictor_ids cfg pids1;
               artifacts := arts1 |} = Ok (M1, b1') ->
  build ext {| _df := df; config := with_predictor_ids cfg pids2;
               artifacts := arts2 |} = Ok (M2, b2') ->
  NoDup (flat_map predictor_labels pids1) ->
  NoDup (flat_map predictor_labels pids2) ->
  In pid pids1 -> In pid pids2 ->
  In r1 (f_rows M1) -> In r2 (f_rows M2) ->
  f_site r1 = f_site r2 -> f_time r1 = f_time r2 ->
  let name := feature_name pid in
  get_cell name r1 = get_cell name r2 /\
  get_cell (time_name name) r1 = get_cell (time_name name) r2 /\
  (add_age_days cfg = true ->
   get_cell (age_name name) r1 = get_cell (age_name name) r2) /\
  (add_missing_flags cfg = true ->
   get_cell (missing_name name) r1 = get_cell (missing_name name) r2).
Proof.
  intros H1 H2 Hd1 Hd2 Hp1 Hp2 Hr1 Hr2 Es Et name.
  pose proof (build_rows_joined ext _ b1' M1 H1 Hd1 r1 pid Hr1 Hp1) as J1.
  pose proof (build_rows_joined ext _ b2' M2 H2 Hd2 r2 pid Hr2 Hp2) as J2.
  destruct (build_extracts _ b1' M1 pid H1 Hp1) as [srs HS].
  destruct (J1 srs HS) as [_ [A1 [B1 [C1 D1]]]].
  destruct (J2 srs HS) as [_ [A2 [B2 [C2 D2]]]].
  fold name in A1, B1, C1, D1, A2, B2, C2, D2.
  rewrite Es, Et in A1, B1, C1, D1.
  split; [rewrite A1, A2; reflexivity|].
  split; [rewrite B1, B2; reflexivity|].
  split; intros Hc.
  - rewrite (C1 Hc), (C2 Hc). reflexivity.
  - rewrite (D1 Hc), (D2 Hc). reflexivity.
Qed.

End PredictorIndependence.

Section PredictorIndependenceWitness.

Import FeatureMatrixBuilder JoinSpec TimeSpec Fixtures Lakes.

Lemma predictor_cells_ignore_other_predictors_witness :
  build test_ext two_lakes_builder = Ok (two_lakes_matrix, two_lakes_built) /\
  build test_ext more_predictors_builder
  = Ok (more_predictors_matrix, more_predictors_built) /\
  get_cell "det_348" two_lakes_row = get_cell "det_348" more_predictors_row /\
  get_cell "det_348" two_lakes_row = Some (FFloat (Some 2)).
Proof.
  split; [vm_compute; reflexivity|]. split; [vm_compute; reflexivity|].
  split; [|vm_compute; reflexivity].
  apply (predictor_cells_ignore_other_predictors test_ext two_lakes_frame
           (test_config 30 true true) [DStr "348"] [DStr "61"; DStr "348"] [] []
           two_lakes_matrix more_predictors_matrix
           two_lakes_built more_predictors_built (DStr "348")
           two_lakes_row more_predictors_row);
    try (vm_compute; reflexivity).
  - repeat constructor; cbn; intuition discriminate.
  - repeat constructor; cbn; intuition discriminate.
  - left. reflexivity.
  - right. left. reflexivity.
  - right. left. reflexivity.
  - right. left. reflexivity.
Defined.

End PredictorIndependenceWitness.

(** ** Saving *)

Section Save.

Import FeatureMatrixBuilder FeatureMatrixStore.

Variable ext : extern.

(** X10.  The sidecar that [save] writes after a build agrees with the
    matrix that the build returned: its [n_rows] is the number of rows of
    the matrix, its fingerprint is the text that every row carries in
    [feature_config_fingerprint], and the parquet file holds the frame
    given.  A missing or empty [snapshot_id] shows as [unknown_snapshot] in
    the file name. *)
Theorem save_sidecar_agrees_with_built_matrix (self self' : builder) (M : fframe) :
  build ext self = Ok (M, self') ->
  let s := save self' M in
  parquet s = M /\
  sidecar s = (fname s ++ ".meta.json")%string /\
  dict_get "n_rows" (meta s) = Some (JInt (Z.of_nat (List.length (f_rows M)))) /\
  (exists fp,
     dict_get "feature_config_fingerprint" (meta s) = Some (JStr fp) /\
     forall r, In r (f_rows M) ->
       get_cell "feature_config_fingerprint" r = Some (FStr (Some fp))) /\
  (snapshot_id (config self) = None \/ snapshot_id (config self) = Some "" ->
   fname s = ("features_unknown_snapshot_lb"
              ++ str_of_int (lookback_days (config self)) ++ "_"
              ++ feature_version (config self) ++ ".parquet")%string).
Proof.
  intros H s.
  destruct (build_keeps_inputs ext self self' M H) as [_ [Hc Hfp]].
  destruct (build_Ok ext self self' M H) as [anchor [df_feat [_ [_ [Hr Hn]]]]].
  split; [reflexivity|]. split; [reflexivity|]. split; [|split].
  - cbn. rewrite Hn. reflexivity.
  - exists (_make_config_fingerprint ext self). split.
    + cbn. rewrite Hfp. reflexivity.
    + intros r Hin. rewrite Hr in Hin. apply in_map_iff in Hin.
      destruct Hin as [r0 [Er _]]. subst r.
      rewrite get_cell_set_neq by discriminate. apply get_cell_set_eq.
  - intros Hs. unfold s, save. cbn [fname]. rewrite Hc.
    destruct Hs as [-> | ->]; reflexivity.
Qed.

End Save.

Section SaveWitness.

Import FeatureMatrixBuilder FeatureMatrixStore Fixtures Lakes.

Lemma save_sidecar_agrees_with_built_matrix_witness :
  build test_ext two_lakes_builder = Ok (two_lakes_matrix, two_lakes_built) /\
  dict_get "n_rows" (meta (save two_lakes_built two_lakes_matrix))
  = Some (JInt 4) /\
  fname (save two_lakes_built two_lakes_matrix)
  = "features_test_snap_lb30_FEAT_V1.parquet".
Proof.
  assert (E : build test_ext two_lakes_builder
              = Ok (two_lakes_matrix, two_lakes_built))
    by (vm_compute; reflexivity).
  split; [exact E|]. split; [|vm_compute; reflexivity].
  exact (proj1 (proj2 (proj2
    (save_sidecar_agrees_with_built_matrix test_ext two_lakes_builder
       two_lakes_built two_lakes_matrix E)))).
Defined.

End SaveWitness.

(** ** The label builder on whole frames *)

Section LabelFrames.

Import LabelBuilder LabelAudit.

Variable ext : extern.

Lemma dict_set_same {V : Type} (k : string) (v : V) (d : list (string * V)) :
  dict_get k d = Some v -> dict_set k v d = d.
Proof.
  induction d as [|[k' v'] d IH]; cbn; [discriminate|].
  destruct (String.eqb k k') eqn:E.
  - apply String.eqb_eq in E. subst k'. intros H. injection H as ->. reflexivity.
  - intros H. rewrite (IH H). reflexivity.
Qed.

Lemma dict_set_set {V : Type} (k : string) (v v' : V) (d : list (string * V)) :
  dict_set k v (dict_set k v' d) = dict_set k v d.
Proof.
  induction d as [|[k0 v0] d IH]; cbn.
  - rewrite String.eqb_refl. reflexivity.
  - destruct (String.eqb k k0) eqn:E; cbn.
    + rewrite String.eqb_refl. reflexivity.
    + rewrite E, IH. reflexivity.
Qed.

Lemma build_from_feature_matrix_Ok (cfg : LabelConfig) (df out : frame) :
  build_from_feature_matrix ext cfg df = Ok out ->
  exists col,
    dict_get (chl_value_col cfg) (columns df) = Some col /\
    out = set_column "label_config_fingerprint"
            (repeat (CStr (fingerprint ext cfg)) (nrows df))
            (set_column "label_version"
               (repeat (CStr (label_version cfg)) (nrows df))
               (set_column (label_col cfg)
                  (map (fun c => CInt (label_of cfg (to_numeric ext c))) col) df)).
Proof.
  unfold build_from_feature_matrix. intros H.
  destruct (dict_get (chl_value_col cfg) (columns df)) as [col|]; [|discriminate H].
  exists col. split; [reflexivity|]. injection H as <-.
  rewrite map_map. reflexivity.
Qed.

(** X11.  [build_from_feature_matrix] changes nothing but the three columns
    it writes: the number of rows and every other column stay as they were.
    And when the chlorophyll column is none of those three, building the
    labels of its own output gives that output again. *)
Theorem label_builder_keeps_frame_and_is_idempotent (cfg : LabelConfig)
  (df out : frame) :
  build_from_feature_matrix ext cfg df = Ok out ->
  nrows out = nrows df /\
  (forall k, ~ In k (written_labels cfg) ->
             dict_get k (columns out) = dict_get k (columns df)) /\
  (~ In (chl_value_col cfg) (written_labels cfg) ->
   build_from_feature_matrix ext cfg out = Ok out).
Proof.
  intros H. destruct (build_from_feature_matrix_Ok cfg df out H) as [col [Hc ->]].
  split; [reflexivity|].
  assert (Hother : forall k, ~ In k (written_labels cfg) ->
            dict_get k (columns
              (set_column "label_config_fingerprint"
                 (repeat (CStr (fingerprint ext cfg)) (nrows df))
                 (set_column "label_version"
                    (repeat (CStr (label_version cfg)) (nrows df))
                    (set_column (label_col cfg)
                       (map (fun c => CInt (label_of cfg (to_numeric ext c))) col)
                       df)))) = dict_get k (columns df)).
  { intros k Hk. cbn [columns set_column].
    assert (k <> label_col cfg /\ k <> "label_version"
            /\ k <> "label_config_fingerprint") as [H1 [H2 H3]].
    { unfold written_labels in Hk. cbn [In] in Hk.
      repeat split; intros E; apply Hk; rewrite E; tauto. }
    rewrite !dict_get_set_neq by assumption. reflexivity. }
  split; [exact Hother|].
  intros Hchl. unfold build_from_feature_matrix.
  rewrite (Hother _ Hchl), Hc. cbn [nrows set_column columns]. f_equal.
  unfold set_column. cbn [nrows columns]. f_equal.
  rewrite map_map.
  set (L := map (fun c => CInt (label_of cfg (to_numeric ext c))) col).
  set (V := repeat (CStr (label_version cfg)) (nrows df)).
  set (F := repeat (CStr (fingerprint ext cfg)) (nrows df)).
  set (D := dict_set "label_config_fingerprint" F
              (dict_set "label_version" V (dict_set (label_col cfg) L (columns df)))).
  (* writing the three columns again puts the same values where they are *)
  assert (E3 : dict_get "label_config_fingerprint" D = Some F)
    by apply dict_get_set_eq.
  assert (E2 : dict_get "label_version" D = Some V).
  { unfold D. rewrite dict_get_set_neq by discriminate. apply dict_get_set_eq. }
  destruct (String.eqb (label_col cfg) "label_config_fingerprint") eqn:Ef.
  - (* the label column is the fingerprint column: written and overwritten *)
    apply String.eqb_eq in Ef.
    rewrite (dict_set_same "label_version" V (dict_set (label_col cfg) L D)).
    + rewrite Ef, dict_set_set. apply dict_set_same. exact E3.
    + rewrite dict_get_set_neq by (rewrite Ef; discriminate). exact E2.
  - apply String.eqb_neq in Ef.
    assert (E1 : dict_set "label_version" V (dict_set (label_col cfg) L D) = D).
    { destruct (String.eqb (label_col cfg) "label_version") eqn:Ev.
      - apply String.eqb_eq in Ev. rewrite Ev, dict_set_set.
        apply dict_set_same. exact E2.
      - apply String.eqb_neq in Ev.
        rewrite (dict_set_same (label_col cfg) L D); [apply dict_set_same; exact E2|].
        unfold D. rewrite !dict_get_set_neq by assumption. apply dict_get_set_eq. }
    rewrite E1. apply dict_set_same. exact E3.
Qed.

End LabelFrames.

(** ** The audit of a labelled frame *)

Section LabelAuditProperties.

Import LabelBuilder LabelAudit.

Variable text_sum : list cell -> result Z.
Variable ext : extern.

Lemma int_of_float_inject (k : Z) : int_of_float (inject_Z k) = k.
Proof. unfold int_of_float. cbn. apply Z.quot_1_r. Qed.

Lemma nansum_labels (cfg : LabelConfig) (col : list cell) :
  exists x,
    nansum (map (fun c => CInt (label_of cfg (to_numeric ext c))) col) = Some x /\
    x == inject_Z (Z.of_nat (exceedances ext cfg col)).
Proof.
  unfold exceedances. induction col as [|c col [x [Hx Ex]]].
  - exists 0. split; [reflexivity|]. reflexivity.
  - cbn [map nansum filter]. rewrite Hx. cbn [option_map].
    eexists. split; [reflexivity|]. rewrite Ex.
    destruct (label_of_bit cfg (to_numeric ext c)) as [E|E]; rewrite E.
    + change (0 =? 1)%Z with false. cbv iota. rewrite Qplus_0_l. reflexivity.
    + change (1 =? 1)%Z with true. cbv iota. cbn [List.length].
      rewrite Nat2Z.inj_succ, <- Z.add_1_l, inject_Z_plus. reflexivity.
Qed.

Lemma int_of_float_Qeq (x : Q) (k : Z) : x == inject_Z k -> int_of_float x = k.
Proof.
  unfold Qeq, int_of_float. cbn. intros H. rewrite Z.mul_1_r in H. rewrite H.
  apply Z.quot_mul. discriminate.
Qed.

(** X12.  The audit of the frame that [build_from_feature_matrix] returns:
    [n] is the number of rows, [n_pos] is the number of cells of the
    chlorophyll column that are above the threshold (at or above it when
    [strictly_greater] is off) and lies between 0 and [n], [pos_rate] is NaN
    for a frame without rows and [n_pos / n] otherwise, and the fingerprint
    is the one written into the frame. *)
Theorem audit_summary_counts_labels (cfg : LabelConfig) (df : frame)
  (col : list cell) :
  dict_get (chl_value_col cfg) (columns df) = Some col ->
  List.length col = nrows df ->
  label_col cfg <> "label_version" ->
  label_col cfg <> "label_config_fingerprint" ->
  exists out s,
    build_from_feature_matrix ext cfg df = Ok out /\
    audit_summary text_sum ext cfg out = Ok s /\
    n s = Z.of_nat (nrows df) /\
    n_pos s = Z.of_nat (exceedances ext cfg col) /\
    (0 <= n_pos s <= n s)%Z /\
    pos_rate s = (if (n s =? 0)%Z then None
                  else Some (inject_Z (n_pos s) / inject_Z (n s))) /\
    dict_get "label_config_fingerprint" (columns out)
    = Some (repeat (CStr (a_label_config_fingerprint s)) (nrows df)).
Proof.
  intros Hc Hlen Hv Hf.
  destruct (build_from_feature_matrix_labels ext cfg df col Hc Hv Hf)
    as [out [Hout Hlab]].
  destruct (build_from_feature_matrix_Ok ext cfg df out Hout) as [col' [Hc' Eout]].
  assert (Hn : nrows out = nrows df) by (rewrite Eout; reflexivity).
  assert (Hfp : dict_get "label_config_fingerprint" (columns out)
                = Some (repeat (CStr (fingerprint ext cfg)) (nrows df)))
    by (rewrite Eout; apply dict_get_set_eq).
  destruct (nansum_labels cfg col) as [x [Hx Ex]].
  assert (Hle : (exceedances ext cfg col <= nrows df)%nat)
    by (rewrite <- Hlen; apply filter_length_le).
  exists out. unfold audit_summary. rewrite Hlab, Hn, Hx.
  rewrite (int_of_float_Qeq x _ Ex).
  destruct (Z.of_nat (nrows df) =? 0)%Z eqn:E0.
  - eexists. split; [exact Hout|]. split; [reflexivity|]. cbn.
    rewrite E0. apply Z.eqb_eq in E0.
    split; [reflexivity|]. split; [lia|]. split; [lia|].
    split; [reflexivity|exact Hfp].
  - eexists. split; [exact Hout|]. split; [reflexivity|]. cbn.
    rewrite E0.
    split; [reflexivity|]. split; [reflexivity|]. split; [lia|].
    split; [reflexivity|exact Hfp].
Qed.

(** X13.  The two threshold rules differ at the threshold only: a value gets
    the label 1 under [strictly_greater] only if it gets it without, the two
    labels differ exactly for a value equal to the threshold, and under
    either rule a larger value never gets a smaller label. *)
Theorem strict_and_inclusive_labels_differ_at_threshold (cfg : LabelConfig) :
  (forall x,
     (label_of (with_strictly_greater cfg true) x
      <= label_of (with_strictly_greater cfg false) x)%Z) /\
  (forall x,
     label_of (with_strictly_greater cfg true) x
     <> label_of (with_strictly_greater cfg false) x <->
     exists v, x = Some v /\ v == threshold_ugL cfg) /\
  (forall v v', v <= v' ->
                (label_of cfg (Some v) <= label_of cfg (Some v'))%Z).
Proof.
  split; [|split]; [intros x|intros x|].
  - destruct x as [v|]; [|cbn; lia].
    unfold label_of, with_strictly_greater. cbn [strictly_greater LabelBuilder.threshold_ugL gt ge].
    destruct (Qgtb v (threshold_ugL cfg)) eqn:E1; [|cbn; destruct (Qgeb _ _); cbn; lia].
    apply Qgtb_lt in E1.
    assert (E2 : Qgeb v (threshold_ugL cfg) = true) by (apply Qgeb_le; lra).
    rewrite E2. cbn. lia.
  - destruct x as [v|].
    + unfold label_of, with_strictly_greater.
      cbn [strictly_greater LabelBuilder.threshold_ugL gt ge].
      destruct (Qgtb v (threshold_ugL cfg)) eqn:E1;
        destruct (Qgeb v (threshold_ugL cfg)) eqn:E2; cbn [int_of_bool].
      * apply Qgtb_lt in E1. split; [congruence|].
        intros [v0 [Hv Ev]]. injection Hv as <-. lra.
      * apply Qgtb_lt in E1.
        assert (Qgeb v (threshold_ugL cfg) = true) by (apply Qgeb_le; lra).
        congruence.
      * apply Qgeb_le in E2.
        assert (Hn : ~ threshold_ugL cfg < v)
          by (intros Hlt; apply Qgtb_lt in Hlt; congruence).
        split; [intros _; exists v; split; [reflexivity|lra]|discriminate].
      * split; [congruence|].
        intros [v0 [Hv Ev]]. injection Hv as <-.
        assert (Qgeb v (threshold_ugL cfg) = true) by (apply Qgeb_le; lra).
        congruence.
    + cbn. split; [congruence|]. intros [v [Hv _]]. discriminate Hv.
  - intros v v' Hle.
    destruct (label_of_bit cfg (Some v)) as [E|E]; rewrite E.
    + destruct (label_of_bit cfg (Some v')) as [E'|E']; rewrite E'; lia.
    + apply label_of_numeric in E.
      assert (E' : label_of cfg (Some v') = 1%Z).
      { apply label_of_numeric. destruct (strictly_greater cfg); lra. }
      rewrite E'. lia.
Qed.

End LabelAuditProperties.

Section LabelAuditWitness.

Import LabelBuilder LabelAudit Fixtures.

Lemma audit_summary_counts_labels_witness :
  dict_get "chl_ugL" (columns boundary_frame)
  = Some [CFloat (199 # 10); CFloat 20; CFloat (201 # 10)] /\
  exists out s,
    build_from_feature_matrix test_ext default_config boundary_frame = Ok out /\
    audit_summary (fun _ => Ok 0%Z) test_ext default_config out = Ok s /\
    n s = 3%Z /\ n_pos s = 1%Z.
Proof.
  split; [reflexivity|].
  destruct (audit_summary_counts_labels (fun _ => Ok 0%Z) test_ext default_config
              boundary_frame [CFloat (199 # 10); CFloat 20; CFloat (201 # 10)])
    as [out [s [H1 [H2 [H3 [H4 _]]]]]];
    [reflexivity|reflexivity|discriminate|discriminate|].
  exists out, s. split; [exact H1|]. split; [exact H2|].
  split; [exact H3|exact H4].
Defined.

Lemma strict_and_inclusive_labels_differ_at_threshold_witness :
  (exists v, Some 20 = Some v /\ v == threshold_ugL default_config) /\
  label_of (with_strictly_greater default_config true) (Some 20)
  <> label_of (with_strictly_greater default_config false) (Some 20).
Proof.
  assert (H : exists v, Some 20 = Some v /\ v == threshold_ugL default_config)
    by (exists 20; split; reflexivity).
  split; [exact H|].
  exact (proj2 (proj1 (proj2
    (strict_and_inclusive_labels_differ_at_threshold default_config)) (Some 20)) H).
Defined.

Lemma label_builder_keeps_frame_and_is_idempotent_witness :
  exists out,
    build_from_feature_matrix test_ext default_config dirty_frame = Ok out /\
    nrows out = 3%nat /\
    build_from_feature_matrix test_ext default_config out = Ok out.
Proof.
  eexists. split; [vm_compute; reflexivity|]. split; [reflexivity|].
  apply (label_builder_keeps_frame_and_is_idempotent test_ext default_config
           dirty_frame).
  - vm_compute. reflexivity.
  - cbn. intros [H|[H|[H|[]]]]; discriminate H.
Defined.

End LabelAuditWitness.

(** ** Lag features *)

Section LagFeatureProperties.

Import FeatureBuilder LagFeatures.

Lemma shift_by_length {A : Type} (k : Z) (s : list (option A)) :
  List.length (shift_by k s) = List.length s.
Proof.
  unfold shift_by. destruct (0 <=? k)%Z; [apply shift_length|].
  rewrite length_firstn, length_app, length_skipn, repeat_length. lia.
Qed.

Lemma nth_shift_by (k : Z) (s : list (option Q)) (t : nat) :
  (t < List.length s)%nat ->
  nth t (shift_by k s) None = value_at s (Z.of_nat t - k).
Proof.
  intros Ht. unfold shift_by, value_at.
  destruct (0 <=? k)%Z eqn:Ek.
  - apply Z.leb_le in Ek. unfold shift.
    rewrite nth_firstn.
    destruct (t <? List.length s)%nat eqn:E; [|apply Nat.ltb_ge in E; lia].
    destruct (Z.of_nat t - k <? 0)%Z eqn:Elt.
    + apply Z.ltb_lt in Elt.
      assert (E0 : (0 <=? Z.of_nat t - k)%Z = false) by (apply Z.leb_gt; lia).
      rewrite E0. cbn [andb].
      rewrite app_nth1 by (rewrite repeat_length; lia).
      apply nth_repeat.
    + apply Z.ltb_ge in Elt.
      assert (E0 : (0 <=? Z.of_nat t - k)%Z = true) by (apply Z.leb_le; lia).
      assert (E1 : (Z.of_nat t - k <? Z.of_nat (List.length s))%Z = true)
        by (apply Z.ltb_lt; lia).
      rewrite E0, E1. cbn [andb].
      rewrite app_nth2 by (rewrite repeat_length; lia).
      rewrite repeat_length. f_equal. lia.
  - apply Z.leb_gt in Ek. rewrite nth_firstn.
    destruct (t <? List.length s)%nat eqn:E; [|apply Nat.ltb_ge in E; lia].
    assert (E0 : (0 <=? Z.of_nat t - k)%Z = true) by (apply Z.leb_le; lia).
    rewrite E0. cbn [andb].
    destruct (Z.of_nat t - k <? Z.of_nat (List.length s))%Z eqn:E1.
    + apply Z.ltb_lt in E1.
      rewrite app_nth1 by (rewrite length_skipn; lia).
      rewrite nth_skipn. f_equal. lia.
    + apply Z.ltb_ge in E1.
      rewrite app_nth2 by (rewrite length_skipn; lia).
      apply nth_repeat.
Qed.

Lemma lag_loop_columns (prefix : string) (s : list (option Q)) (lags : list Z) :
  forall out0,
    (forall k, In k lags ->
       dict_get (roll_name prefix k) (lag_loop prefix s lags out0)
       = Some (shift_by k s)) /\
    (forall key, (forall k, In k lags -> key <> roll_name prefix k) ->
       dict_get key (lag_loop prefix s lags out0) = dict_get key out0).
Proof.
  induction lags as [|k0 lags IH]; intros out0; cbn [lag_loop].
  - split; [intros k []|reflexivity].
  - destruct (IH (dict_set (roll_name prefix k0) (shift_by k0 s) out0)) as [H1 H2].
    split.
    + intros k Hk.
      destruct (in_dec Z.eq_dec k lags) as [Hin|Hnin]; [exact (H1 k Hin)|].
      destruct Hk as [<-|Hk]; [|contradiction].
      rewrite H2; [apply dict_get_set_eq|].
      intros k' Hk' E. apply roll_name_inj in E. subst k'. contradiction.
    + intros key Hkey. rewrite H2 by (intros k Hk; apply Hkey; right; exact Hk).
      apply dict_get_set_neq. apply Hkey. left. reflexivity.
Qed.

(** X14.  The lag feature [prefix_k] of [_lag_features] holds at position
    [t] the value of the column at position [t - k], and NaN when that
    position is outside the series.  For [k >= 1] this is a value from before
    [t], read from the first [t] values alone; for [k = 0] it is the value at
    [t] itself, and for a negative [k] it is a later value. *)
Theorem lag_feature_reads_position_t_minus_k (ext : extern) (df : frame)
  (col : string) (cells : list cell) (lags : list Z) (prefix : string)
  (k : Z) (t : nat) :
  dict_get col (columns df) = Some cells ->
  In k lags ->
  (t < List.length cells)%nat ->
  let s := map (to_numeric ext) cells in
  exists out feat,
    _lag_features ext df col lags prefix = Ok out /\
    dict_get (roll_name prefix k) out = Some feat /\
    List.length feat = List.length cells /\
    nth_error feat t = Some (value_at s (Z.of_nat t - k)) /\
    ((1 <= k)%Z ->
     value_at s (Z.of_nat t - k) = value_at (firstn t s) (Z.of_nat t - k)).
Proof.
  intros Hc Hk Ht s.
  unfold _lag_features. rewrite Hc. fold s.
  destruct (lag_loop_columns prefix s lags []) as [H1 _].
  assert (Hlen : List.length s = List.length cells) by apply length_map.
  exists (lag_loop prefix s lags []), (shift_by k s).
  split; [reflexivity|]. split; [exact (H1 k Hk)|].
  split; [rewrite shift_by_length; exact Hlen|]. split.
  - rewrite <- (nth_shift_by k s t) by lia.
    apply nth_error_nth'. rewrite shift_by_length. lia.
  - intros Hk1. unfold value_at.
    rewrite length_firstn, Nat.min_l by lia.
    destruct (0 <=? Z.of_nat t - k)%Z eqn:E0; [|reflexivity]. cbn [andb].
    apply Z.leb_le in E0.
    assert (E1 : (Z.of_nat t - k <? Z.of_nat (List.length s))%Z = true)
      by (apply Z.ltb_lt; lia).
    assert (E2 : (Z.of_nat t - k <? Z.of_nat t)%Z = true)
      by (apply Z.ltb_lt; lia).
    rewrite E1, E2. rewrite nth_firstn.
    assert (E3 : (Z.to_nat (Z.of_nat t - k) <? t)%nat = true)
      by (apply Nat.ltb_lt; lia).
    rewrite E3. reflexivity.
Qed.

End LagFeatureProperties.

Section LagFeatureWitness.

Import FeatureBuilder LagFeatures RollingSpec Fixtures.

Lemma lag_feature_reads_position_t_minus_k_witness :
  dict_get "chl" (columns toy_df) = Some (map CFloat toy_values) /\
  In 2%Z [1; 2]%Z /\
  (3 < List.length (map CFloat toy_values))%nat /\
  exists out feat,
    _lag_features test_ext toy_df "chl" [1; 2]%Z "chl_lag" = Ok out /\
    dict_get (roll_name "chl_lag" 2) out = Some feat /\
    nth_error feat 3 = Some (Some 1).
Proof.
  split; [reflexivity|]. split; [right; left; reflexivity|].
  split; [vm_compute; lia|].
  destruct (lag_feature_reads_position_t_minus_k test_ext toy_df "chl"
              (map CFloat toy_values) [1; 2]%Z "chl_lag" 2%Z 3%nat)
    as [out [feat [H1 [H2 [_ [H3 _]]]]]];
    [reflexivity|right; left; reflexivity|vm_compute; lia|].
  exists out, feat. split; [exact H1|]. split; [exact H2|exact H3].
Defined.

End LagFeatureWitness.

(** ** The clean layer: validity rules and numeric coercion *)

Section CleanLayerProperties.

Import FeatureMatrixBuilder CleanLayer.

Lemma filter_split_length {A : Type} (f : A -> bool) (l : list A) :
  (List.length (filter f l) + List.length (filter (fun x => negb (f x)) l)
   = List.length l)%nat.
Proof.
  induction l as [|x l IH]; [reflexivity|]. cbn [filter].
  destruct (f x); cbn [negb List.length]; lia.
Qed.

Lemma range_loop_spec (rules : list (Z * (Q * Q))) :
  forall (out : list (row (option Q))) (dropped : Z),
    let keep r := forallb (fun rule => negb (out_of_range (fst rule) (fst (snd rule))
                                               (snd (snd rule)) r)) rules in
    range_loop rules out dropped
    = (filter keep out,
       (dropped + Z.of_nat (List.length out)
        - Z.of_nat (List.length (filter keep out)))%Z).
Proof.
  induction rules as [|[det_id [mn mx]] rules IH]; intros out dropped keep.
  - cbn [range_loop]. unfold keep. cbn [forallb].
    assert (E : filter (fun _ : row (option Q) => true) out = out).
    { clear. induction out as [|r out IH]; [reflexivity|]. cbn. now rewrite IH. }
    rewrite E. f_equal. lia.
  - cbn [range_loop]. rewrite IH. rewrite filter_filter.
    assert (E : filter (fun a => negb (out_of_range det_id mn mx a)
                                 && forallb (fun rule =>
                                      negb (out_of_range (fst rule) (fst (snd rule))
                                              (snd (snd rule)) a)) rules) out
                = filter keep out)
      by (apply filter_ext; intros r; reflexivity).
    rewrite E. f_equal.
    pose proof (filter_split_length (out_of_range det_id mn mx) out) as Hs.
    lia.
Qed.

Lemma apply_validity_rules_spec (c : CleanConfig) (df : list (row (option Q))) :
  apply_validity_rules c df
  = (filter (valid c) df,
     (Z.of_nat (List.length df)
      - Z.of_nat (List.length (filter (valid c) df)))%Z).
Proof.
  unfold apply_validity_rules, valid.
  set (rules := match min_max_by_determinand c with
                | Some rules => rules | None => [] end).
  set (keep := fun r : row (option Q) =>
                 forallb (fun rule => negb (out_of_range (fst rule) (fst (snd rule))
                                              (snd (snd rule)) r)) rules).
  assert (Hloop : forall out dropped,
             match min_max_by_determinand c with
             | Some (rule :: rules0) => range_loop (rule :: rules0) out dropped
             | _ => (out, dropped)
             end
             = (filter keep out,
                (dropped + Z.of_nat (List.length out)
                 - Z.of_nat (List.length (filter keep out)))%Z)).
  { intros out dropped. unfold keep, rules.
    destruct (min_max_by_determinand c) as [[|rule rules0]|].
    - exact (range_loop_spec [] out dropped).
    - exact (range_loop_spec (rule :: rules0) out dropped).
    - exact (range_loop_spec [] out dropped). }
  destruct (drop_negative c).
  - rewrite Hloop, filter_filter. f_equal.
    pose proof (filter_split_length (fun r : row (option Q) => lt (c_value r) 0) df).
    unfold keep. lia.
  - rewrite Hloop. cbn [andb]. unfold keep. f_equal.
Qed.

(** X15.  [apply_validity_rules] keeps, in their order, exactly the rows
    that pass every rule, and counts every other row once: the rows in are
    the rows out plus the count.  With [drop_negative] no kept value is
    below zero; a kept row under a range rule of its (integer) identifier
    has its value within the bounds; and a row whose value is NaN or whose
    identifier is a text is never dropped by a range rule. *)
Theorem apply_validity_rules_keeps_valid_rows (c : CleanConfig)
  (df : list (row (option Q))) :
  let out := fst (apply_validity_rules c df) in
  let dropped := snd (apply_validity_rules c df) in
  out = filter (valid c) df /\
  Z.of_nat (List.length df) = (Z.of_nat (List.length out) + dropped)%Z /\
  (drop_negative c = true ->
   forall r v, In r out -> c_value r = Some v -> 0 <= v) /\
  (forall rules det_id mn mx r v,
     min_max_by_determinand c = Some rules -> In (det_id, (mn, mx)) rules ->
     In r out -> c_det r = DInt det_id -> c_value r = Some v ->
     mn <= v /\ v <= mx) /\
  (forall r, In r df -> c_value r = None -> In r out) /\
  (drop_negative c = false ->
   forall r s, In r df -> c_det r = DStr s -> In r out).
Proof.
  intros out dropped. unfold out, dropped.
  rewrite apply_validity_rules_spec. cbn [fst snd].
  split; [reflexivity|]. split; [lia|]. split; [|split; [|split]].
  - intros Hn r v Hr Hv. apply filter_In in Hr. destruct Hr as [_ Hr].
    unfold valid in Hr. rewrite Hn in Hr. apply andb_true_iff in Hr.
    destruct Hr as [Hr _]. unfold lt in Hr. rewrite Hv in Hr.
    rewrite negb_involutive in Hr. apply Qle_bool_iff in Hr. exact Hr.
  - intros rules det_id mn mx r v Hrules Hin Hr Hd Hv.
    apply filter_In in Hr. destruct Hr as [_ Hr].
    unfold valid in Hr. rewrite Hrules in Hr. apply andb_true_iff in Hr.
    destruct Hr as [_ Hr]. rewrite forallb_forall in Hr.
    specialize (Hr _ Hin). cbn [fst snd] in Hr.
    unfold out_of_range, det_is, lt, gt in Hr. rewrite Hd, Hv, Z.eqb_refl in Hr.
    cbn [andb] in Hr. apply negb_true_iff, orb_false_iff in Hr.
    destruct Hr as [H1 H2]. apply negb_false_iff, Qle_bool_iff in H1.
    unfold Qgtb in H2. apply negb_false_iff, Qle_bool_iff in H2.
    split; assumption.
  - intros r Hr Hv. apply filter_In. split; [exact Hr|].
    unfold valid. rewrite Hv. apply andb_true_iff. split.
    + destruct (drop_negative c); reflexivity.
    + apply forallb_forall. intros [det_id [mn mx]] _. cbn [fst snd].
      unfold out_of_range. rewrite Hv. cbn. rewrite andb_false_r. reflexivity.
  - intros Hn r s Hr Hs. apply filter_In. split; [exact Hr|].
    unfold valid. rewrite Hn. cbn [andb]. apply forallb_forall.
    intros [det_id [mn mx]] _. cbn [fst snd]. unfold out_of_range.
    rewrite Hs. reflexivity.
Qed.

Lemma astype_float_length (float_of_text : string -> result (option Q))
  (df : list (row cell)) (out : list (row (option Q))) :
  astype_float float_of_text df = Ok out -> List.length out = List.length df.
Proof.
  revert out. induction df as [|r df IH]; intros out H.
  - injection H as <-. reflexivity.
  - cbn [astype_float] in H. apply bind_Ok in H. destruct H as [v [_ H]].
    apply bind_Ok in H. destruct H as [out' [H' H]]. injection H as <-.
    cbn [List.length]. rewrite (IH out' H'). reflexivity.
Qed.

Lemma astype_float_returns (float_of_text : string -> result (option Q))
  (df : list (row cell)) :
  returns (astype_float float_of_text df) <->
  forall r s, In r df -> c_value r = CStr s -> returns (float_of_text s).
Proof.
  induction df as [|r df IH].
  - split; [intros _ r s []|intros _; exists []; reflexivity].
  - cbn [astype_float]. split.
    + intros [out H]. apply bind_Ok in H. destruct H as [v [Hv H]].
      apply bind_Ok in H. destruct H as [out' [H' _]].
      intros r0 s [<-|Hin] Hs.
      * rewrite Hs in Hv. exists v. exact Hv.
      * apply (proj1 IH (ex_intro _ out' H') r0 s Hin Hs).
    + intros H.
      destruct (proj2 IH (fun r0 s Hin => H r0 s (or_intror Hin))) as [out' H'].
      rewrite H'.
      destruct (c_value r) as [x|k|s|] eqn:Ev; cbn [Py.bind];
        try (eexists; reflexivity).
      destruct (H r s (or_introl eq_refl) Ev) as [v Hv]. rewrite Hv.
      cbn [Py.bind]. eexists. reflexivity.
Qed.

(** X16.  [coerce_numeric] refuses any mode but "raise" and "coerce".  In
    "coerce" mode it always returns, and counts the rows whose value is
    null or not numeric; with [drop_non_numeric] it returns the other rows
    in their order, each with its parsed value, so that no returned value
    is NaN and rows in = rows out + count, and without it returns every
    row.  In "raise" mode it returns exactly when [float()] accepts every
    text value, with all rows and the count 0. *)
Theorem coerce_numeric_by_mode (float_of_text : string -> result (option Q))
  (ext : extern) (c : CleanConfig) (df : list (row cell)) :
  (coerce_numeric_errors c <> "raise" -> coerce_numeric_errors c <> "coerce" ->
   raises (coerce_numeric float_of_text ext c df)) /\
  (coerce_numeric_errors c = "coerce" ->
   exists out,
     coerce_numeric float_of_text ext c df
     = Ok (out, Z.of_nat (List.length
                            (filter (fun r => isna (to_numeric ext (c_value r))) df))) /\
     (drop_non_numeric c = true ->
      out = map (fun r => with_value r (to_numeric ext (c_value r)))
              (filter (fun r => negb (isna (to_numeric ext (c_value r)))) df) /\
      (forall r, In r out -> c_value r <> None) /\
      (List.length df
       = List.length out
         + List.length (filter (fun r => isna (to_numeric ext (c_value r))) df))%nat) /\
     (drop_non_numeric c = false ->
      out = map (fun r => with_value r (to_numeric ext (c_value r))) df)) /\
  (coerce_numeric_errors c = "raise" ->
   (returns (coerce_numeric float_of_text ext c df) <->
    forall r s, In r df -> c_value r = CStr s -> returns (float_of_text s)) /\
   forall out k, coerce_numeric float_of_text ext c df = Ok (out, k) ->
                 k = 0%Z /\ List.length out = List.length df).
Proof.
  assert (Hmap : forall (f : row (option Q) -> bool) (l : list (row cell)),
             filter f (map (fun r => with_value r (to_numeric ext (c_value r))) l)
             = map (fun r => with_value r (to_numeric ext (c_value r)))
                   (filter (fun r => f (with_value r (to_numeric ext (c_value r)))) l)).
  { intros f l. induction l as [|r l IH]; [reflexivity|]. cbn [map filter].
    destruct (f _); cbn [map]; rewrite IH; reflexivity. }
  split; [|split].
  - intros H1 H2. unfold coerce_numeric.
    assert (E : str_in (coerce_numeric_errors c) ["raise"; "coerce"] = false).
    { apply str_in_not_In. intros [H|[H|[]]]; congruence. }
    rewrite E. eexists. reflexivity.
  - intros Hm. unfold coerce_numeric. rewrite Hm. cbn [str_in existsb negb].
    change (String.eqb "coerce" "raise") with false.
    change (String.eqb "coerce" "coerce") with true. cbn [orb negb].
    rewrite !Hmap, !length_map. cbn [with_value c_value].
    eexists. split; [reflexivity|]. split; intros Hd; rewrite Hd.
    + split; [reflexivity|]. split.
      * intros r Hr. apply in_map_iff in Hr. destruct Hr as [r0 [<- Hr0]].
        apply filter_In in Hr0. destruct Hr0 as [_ Hr0]. cbn [with_value c_value].
        destruct (to_numeric ext (c_value r0)); [discriminate|discriminate Hr0].
      * rewrite length_map.
        pose proof (filter_split_length
                      (fun r : row cell => isna (to_numeric ext (c_value r))) df).
        lia.
    + reflexivity.
  - intros Hm. unfold coerce_numeric. rewrite Hm. cbn [str_in existsb negb].
    change (String.eqb "raise" "raise") with true. cbn [orb negb].
    split.
    + rewrite <- astype_float_returns. split.
      * intros [[out k] H]. apply bind_Ok in H. destruct H as [o [Ho _]].
        exists o. exact Ho.
      * intros [o Ho]. rewrite Ho. eexists. reflexivity.
    + intros out k H. apply bind_Ok in H. destruct H as [o [Ho H]].
      injection H as <- <-. split; [reflexivity|].
      exact (astype_float_length _ _ _ Ho).
Qed.

End CleanLayerProperties.

Section CleanLayerWitnesses.

Import FeatureMatrixBuilder CleanLayer.

Lemma coerce_numeric_by_mode_witness :
  coerce_numeric_errors test_config = "coerce" /\
  drop_non_numeric test_config = true /\
  exists out,
    coerce_numeric (fun _ => Ok None) test_ext test_config df_filtered
    = Ok (out, 1%Z) /\
    List.length out = 3%nat.
Proof.
  split; [reflexivity|]. split; [reflexivity|].
  destruct (proj1 (proj2 (coerce_numeric_by_mode (fun _ => Ok None) test_ext
                            test_config df_filtered)) eq_refl)
    as [out [H1 [H2 _]]].
  exists out. split; [exact H1|].
  rewrite (proj1 (H2 eq_refl)). reflexivity.
Defined.

Lemma apply_validity_rules_keeps_valid_rows_witness :
  drop_negative test_config = true /\
  exists out,
    coerce_numeric (fun _ => Ok None) test_ext test_config df_filtered
    = Ok (out, 1%Z) /\
    snd (apply_validity_rules test_config out) = 1%Z /\
    forall r v, In r (fst (apply_validity_rules test_config out)) ->
                c_value r = Some v -> 0 <= v.
Proof.
  split; [reflexivity|].
  eexists. split; [vm_compute; reflexivity|]. split; [vm_compute; reflexivity|].
  exact (proj1 (proj2 (proj2 (apply_validity_rules_keeps_valid_rows test_config _)))
           eq_refl).
Defined.

End CleanLayerWitnesses.

(** ** The determinand filter of the clean layer *)

Section DeterminandFilter.

Import FeatureMatrixBuilder CleanDatasetBuilder CleanLayer.

Lemma filter_determinands_map (ids : list DeterminandId) (df : list obs) :
  filter_determinands ids df
  = map (fun o => (o, normalize_id (o_det o))) (filter (wanted ids) df).
Proof.
  unfold filter_determinands, wanted.
  induction df as [|o df IH]; [reflexivity|].
  cbn [map combine select filter].
  destruct (str_in (normalize_id (o_det o)) (map normalize_id ids));
    cbn [map]; rewrite IH; reflexivity.
Qed.

Lemma rstrip_keep (drop : ascii -> bool) (c : ascii) (s : string) :
  drop c = false -> rstrip drop (String c s) = String c (rstrip drop s).
Proof.
  intros H. cbn [rstrip]. destruct (rstrip drop s); [rewrite H|]; reflexivity.
Qed.

Lemma strip_pad_zeros (k : nat) (s : string) :
  lstrip isspace s = s ->
  lstrip is_zero_digit (strip (pad_zeros k s)) = lstrip is_zero_digit (strip s).
Proof.
  intros Hs. induction k as [|k IH]; [reflexivity|].
  rewrite <- IH. unfold strip. cbn [pad_zeros lstrip].
  change (isspace "0"%char) with false. cbv iota.
  rewrite rstrip_keep by reflexivity.
  cbn [lstrip]. change (is_zero_digit "0"%char) with true. cbv iota.
  f_equal. f_equal.
  clear IH. destruct k as [|k]; [symmetry; exact Hs|reflexivity].
Qed.

Lemma normalize_id_pad_zeros (k : nat) (s : string) :
  lstrip isspace s = s ->
  normalize_id (DStr (pad_zeros k s)) = normalize_id (DStr s).
Proof.
  intros Hs. unfold normalize_id. cbn [str_of_det].
  rewrite (strip_pad_zeros k s Hs). reflexivity.
Qed.

(** X17.  [filter_determinands] keeps, in their order and unchanged, exactly
    the rows whose normalised identifier is the normalised form of a wanted
    identifier, and tags each with that normalised identifier; filtering its
    own output changes nothing; and leading zeros never matter: padding a
    wanted identifier, or the identifier cell of a row, with zeros gives the
    same answer (for a text that does not start with white space). *)
Theorem filter_determinands_keeps_wanted_rows (ids : list DeterminandId)
  (df : list obs) :
  map fst (filter_determinands ids df) = filter (wanted ids) df /\
  (forall o k, In (o, k) (filter_determinands ids df) ->
               In o df /\ k = normalize_id (o_det o) /\
               exists id, In id ids /\ normalize_id id = k) /\
  filter_determinands ids (map fst (filter_determinands ids df))
  = filter_determinands ids df /\
  (forall k s, lstrip isspace s = s ->
     filter_determinands (DStr (pad_zeros k s) :: ids) df
     = filter_determinands (DStr s :: ids) df /\
     forall o, o_det o = DStr (pad_zeros k s) ->
       wanted ids o
       = wanted ids {| o_datetime := o_datetime o; o_site := o_site o;
                       o_det := DStr s; o_value := o_value o;
                       o_unit := o_unit o |}).
Proof.
  assert (Hfst : map fst (filter_determinands ids df) = filter (wanted ids) df).
  { rewrite filter_determinands_map, map_map. cbn [fst]. apply map_id. }
  split; [exact Hfst|]. split; [|split].
  - intros o k Hin. rewrite filter_determinands_map in Hin.
    apply in_map_iff in Hin. destruct Hin as [o' [E Hin]].
    injection E as -> <-. apply filter_In in Hin. destruct Hin as [Hin Hw].
    split; [exact Hin|]. split; [reflexivity|].
    unfold wanted in Hw. apply str_in_In, in_map_iff in Hw.
    destruct Hw as [id [E Hid]]. exists id. split; assumption.
  - rewrite Hfst, !filter_determinands_map. f_equal.
    rewrite filter_filter. apply filter_ext. intros o. apply andb_diag.
  - intros k s Hs. split.
    + apply filter_determinands_normalized. cbn [map].
      rewrite (normalize_id_pad_zeros k s Hs). reflexivity.
    + intros o Ho. unfold wanted. cbn [o_det]. rewrite Ho.
      rewrite (normalize_id_pad_zeros k s Hs). reflexivity.
Qed.

End DeterminandFilter.

Section DeterminandFilterWitness.

Import FeatureMatrixBuilder CleanDatasetBuilder CleanLayer Fixtures.

Lemma filter_determinands_keeps_wanted_rows_witness :
  lstrip isspace "61" = "61" /\
  filter_determinands [DStr (pad_zeros 2 "61")] (df_rows ph_frame)
  = filter_determinands [DStr "61"] (df_rows ph_frame) /\
  List.length (filter_determinands [DStr "0061"] (df_rows ph_frame)) = 3%nat.
Proof.
  split; [reflexivity|]. split; [|vm_compute; reflexivity].
  exact (proj1 (proj2 (proj2 (proj2
    (filter_determinands_keeps_wanted_rows [] (df_rows ph_frame)))) 2%nat "61"
    eq_refl)).
Defined.

End DeterminandFilterWitness.

(** ** The persistence baseline *)

Section Persistence.

Import Baselines.

Lemma filter_perm {A : Type} (f : A -> bool) (l l' : list A) :
  Permutation l l' -> Permutation (filter f l) (filter f l').
Proof.
  induction 1 as [|x l l' H IH|x y l|l l' l'' H1 IH1 H2 IH2]; cbn [filter].
  - constructor.
  - destruct (f x); [constructor; exact IH|exact IH].
  - destruct (f x), (f y); try apply Permutation_refl. constructor.
  - exact (Permutation_trans IH1 IH2).
Qed.

Lemma last_label_app (site : string) (l1 l2 : list brow) (acc : option Z) :
  last_label site (l1 ++ l2) acc = last_label site l2 (last_label site l1 acc).
Proof. unfold last_label. apply fold_left_app. Qed.

Lemma last_label_none (site : string) (rows : list brow) :
  (forall p, In p rows -> b_site p <> site) -> last_label site rows None = None.
Proof.
  unfold last_label. induction rows as [|p rows IH]; intros H; [reflexivity|].
  cbn [fold_left].
  destruct (String.eqb (b_site p) site) eqn:E.
  - apply String.eqb_eq in E. elim (H p (or_introl eq_refl) E).
  - apply IH. intros q Hq. apply H. right. exact Hq.
Qed.

Lemma group_shift_nth (rows : list brow) :
  forall (last : list (string * Z)) (i : nat) (r : brow),
    nth_error rows i = Some r ->
    nth_error (group_shift last rows) i
    = Some (last_label (b_site r) (firstn i rows) (dict_get (b_site r) last)).
Proof.
  induction rows as [|r0 rows IH]; intros last i r Hi.
  - destruct i; discriminate Hi.
  - destruct i as [|i]; cbn in Hi.
    + injection Hi as <-. reflexivity.
    + cbn [group_shift nth_error]. rewrite firstn_cons, (IH _ i r Hi).
      unfold last_label. cbn [fold_left]. rewrite dict_get_set. reflexivity.
Qed.

Lemma brow_sorted_contiguous (rows : list brow) (j k i : nat) (q p r : brow) :
  StronglySorted (fun a b => brow_le a b = true) rows ->
  (j < k)%nat -> (k < i)%nat ->
  nth_error rows j = Some q -> nth_error rows k = Some p ->
  nth_error rows i = Some r ->
  b_site q = b_site r -> b_site p = b_site r.
Proof.
  intros Hs Hjk Hki Hq Hp Hr E.
  pose proof (sorted_nth brow brow_le rows Hs j k q p Hjk Hq Hp) as H1.
  pose proof (sorted_nth brow brow_le rows Hs k i p r Hki Hp Hr) as H2.
  apply site_time_le_before in H1, H2.
  destruct H1 as [H1|[H1 _]]; [|congruence].
  destruct H2 as [H2|[H2 _]]; [|exact H2].
  rewrite E in H1. rewrite String.compare_antisym, H1 in H2. discriminate H2.
Qed.

Lemma group_shift_sorted (rows : list brow) (i : nat) (r : brow) :
  StronglySorted (fun a b => brow_le a b = true) rows ->
  nth_error rows i = Some r ->
  nth_error (group_shift [] rows) i = Some (previous_label rows i).
Proof.
  intros Hs Hi. rewrite (group_shift_nth rows [] i r Hi). f_equal.
  cbn [dict_get]. destruct i as [|k]; [reflexivity|].
  unfold previous_label. rewrite Hi.
  destruct (nth_error rows k) as [p|] eqn:Hk.
  - rewrite (firstn_S_nth rows k p Hk), last_label_app.
    unfold last_label at 1. cbn [fold_left].
    destruct (String.eqb (b_site p) (b_site r)) eqn:E; [reflexivity|].
    rewrite last_label_none; [reflexivity|].
    intros q Hq Eq. apply String.eqb_neq in E. apply E.
    apply In_nth_error in Hq. destruct Hq as [j Hj].
    assert (Hjk : (j < k)%nat).
    { assert (Hlt : (j < List.length (firstn k rows))%nat)
        by (apply nth_error_Some; rewrite Hj; discriminate).
      rewrite length_firstn in Hlt. lia. }
    rewrite nth_error_firstn in Hj.
    destruct (j <? k)%nat eqn:Ejk; [|discriminate Hj].
    exact (brow_sorted_contiguous rows j k (S k) q p r Hs Hjk
             (Nat.lt_succ_diag_r k) Hj Hk Hi Eq).
  - exfalso. apply nth_error_None in Hk.
    assert (Hlt : (S k < List.length rows)%nat)
      by (apply nth_error_Some; rewrite Hi; discriminate).
    lia.
Qed.

Lemma mode_among_spec (ys : list Z) (candidates : list Z) :
  forall best,
    let m := mode_among ys candidates best in
    (m = best \/ In m candidates) /\
    (forall x, x = best \/ In x candidates ->
       (count_of x ys <= count_of m ys)%nat /\
       (count_of x ys = count_of m ys -> (m <= x)%Z)).
Proof.
  induction candidates as [|c cs IH]; intros best; cbn [mode_among].
  - split; [left; reflexivity|]. intros x [->|[]]. split; [lia|intros _; lia].
  - set (better := ((count_of best ys <? count_of c ys)%nat
                    || ((count_of best ys =? count_of c ys)%nat && (c <? best)%Z))).
    destruct (IH (if better then c else best)) as [Hin Hmax].
    split.
    + destruct Hin as [Hin|Hin]; [|right; right; exact Hin].
      rewrite Hin. destruct better; [right; left; reflexivity|left; reflexivity].
    + intros x Hx.
      assert (Hb : (count_of x ys <= count_of (if better then c else best) ys)%nat /\
                   (count_of x ys = count_of (if better then c else best) ys ->
                    ((if better then c else best) <= x)%Z) \/ In x cs).
      { destruct Hx as [->|[<-|Hx]]; [| |right; exact Hx]; left.
        - unfold better.
          destruct (count_of best ys <? count_of c ys)%nat eqn:E1; cbn [orb].
          + apply Nat.ltb_lt in E1. split; lia.
          + apply Nat.ltb_ge in E1.
            destruct (count_of best ys =? count_of c ys)%nat eqn:E2; cbn [andb].
            * apply Nat.eqb_eq in E2.
              destruct (c <? best)%Z eqn:E3.
              -- apply Z.ltb_lt in E3. split; lia.
              -- split; lia.
            * split; lia.
        - unfold better.
          destruct (count_of best ys <? count_of c ys)%nat eqn:E1; cbn [orb].
          + split; lia.
          + apply Nat.ltb_ge in E1.
            destruct (count_of best ys =? count_of c ys)%nat eqn:E2; cbn [andb].
            * apply Nat.eqb_eq in E2.
              destruct (c <? best)%Z eqn:E3.
              -- split; lia.
              -- apply Z.ltb_ge in E3. split; lia.
            * apply Nat.eqb_neq in E2. split; lia. }
      destruct Hb as [[Hb1 Hb2]|Hb]; [|apply Hmax; right; exact Hb].
      destruct (Hmax _ (or_introl eq_refl)) as [Hm1 Hm2].
      split; [lia|]. intros E.
      assert (E1 : count_of x ys = count_of (if better then c else best) ys) by lia.
      assert (E2 : count_of (if better then c else best) ys
                   = count_of (mode_among ys cs (if better then c else best)) ys)
        by lia.
      specialize (Hb2 E1). specialize (Hm2 E2). lia.
Qed.

Lemma mode_spec (ys : list Z) :
  ys <> [] ->
  In (mode ys) ys /\
  forall x, In x ys ->
    (count_of x ys <= count_of (mode ys) ys)%nat /\
    (count_of x ys = count_of (mode ys) ys -> (mode ys <= x)%Z).
Proof.
  destruct ys as [|y0 ys]; [intros H; now elim H|]. intros _.
  unfold mode. destruct (mode_among_spec (y0 :: ys) (y0 :: ys) y0) as [Hin Hmax].
  split.
  - destruct Hin as [->|Hin]; [left; reflexivity|exact Hin].
  - intros x Hx. apply Hmax. right. exact Hx.
Qed.

Lemma predict_Ok (df : bframe) (y_col site_col time_col : string)
  (res : BaselineResult) :
  PersistenceBaseline.predict df y_col site_col time_col = Ok res ->
  let d := sort_values brow_le (b_rows df) in
  y_true res = map b_y d /\
  y_pred res = fillna (match d with [] => 0%Z | _ => mode (map b_y d) end)
                 (group_shift [] d) /\
  y_score res = map inject_Z (y_pred res) /\
  meta res = [("fallback_class",
               MInt (match d with [] => 0%Z | _ => mode (map b_y d) end))].
Proof.
  unfold PersistenceBaseline.predict. intros H.
  destruct (str_in site_col (b_columns df)); [|discriminate H].
  destruct (str_in time_col (b_columns df)); [|discriminate H].
  destruct (str_in y_col (b_columns df)); [|discriminate H].
  cbn [negb] in H. injection H as <-. cbn. repeat split; reflexivity.
Qed.

(** X18.  [PersistenceBaseline.predict] raises exactly when one of its three
    columns is missing.  Otherwise, with the rows in (site, time) order:
    [y_true] holds their labels, a rearrangement of the labels given; the
    prediction for a row under a row of the same site is the label of that
    row, and for the first row of a site it is the fallback, the most
    frequent label of the frame given (the smaller one on a tie), 0 for
    an empty frame; the score is the prediction. *)
Theorem persistence_predicts_previous_label_of_site (df : bframe)
  (y_col site_col time_col : string) :
  (raises (PersistenceBaseline.predict df y_col site_col time_col) <->
   ~ (In site_col (b_columns df) /\ In time_col (b_columns df)
      /\ In y_col (b_columns df))) /\
  forall res,
    PersistenceBaseline.predict df y_col site_col time_col = Ok res ->
    let d := sort_values brow_le (b_rows df) in
    y_true res = map b_y d /\
    Permutation (y_true res) (map b_y (b_rows df)) /\
    List.length (y_pred res) = List.length (b_rows df) /\
    y_score res = map inject_Z (y_pred res) /\
    (exists fallback,
       dict_get "fallback_class" (meta res) = Some (MInt fallback) /\
       (b_rows df = [] -> fallback = 0%Z) /\
       (b_rows df <> [] ->
        In fallback (map b_y (b_rows df)) /\
        forall x, In x (map b_y (b_rows df)) ->
          (count_of x (map b_y (b_rows df))
           <= count_of fallback (map b_y (b_rows df)))%nat /\
          (count_of x (map b_y (b_rows df))
           = count_of fallback (map b_y (b_rows df)) -> (fallback <= x)%Z)) /\
       forall i, (i < List.length d)%nat ->
         nth_error (y_pred res) i
         = Some (match previous_label d i with
                 | Some v => v
                 | None => fallback
                 end)).
Proof.
  split.
  - unfold PersistenceBaseline.predict. split.
    + intros [e He] [H1 [H2 H3]].
      apply str_in_In in H1, H2, H3. rewrite H1, H2, H3 in He. discriminate He.
    + intros Hn.
      destruct (str_in site_col (b_columns df)) eqn:E1;
        [|eexists; reflexivity].
      destruct (str_in time_col (b_columns df)) eqn:E2;
        [|eexists; reflexivity].
      destruct (str_in y_col (b_columns df)) eqn:E3;
        [|eexists; reflexivity].
      exfalso. apply Hn. rewrite <- !str_in_In. auto.
  - intros res H d.
    destruct (predict_Ok df y_col site_col time_col res H) as [Ht [Hp [Hs Hm]]].
    fold d in Ht, Hp, Hm.
    assert (Pd : Permutation d (b_rows df))
      by (apply Permutation_sym, sort_values_perm).
    assert (Hcount : forall x, count_of x (map b_y d)
                               = count_of x (map b_y (b_rows df))).
    { intros x. unfold count_of. apply Permutation_length.
      apply filter_perm, Permutation_map. exact Pd. }
    assert (Hsorted : StronglySorted (fun a b => brow_le a b = true) d)
      by (apply (sort_values_sorted brow b_site b_time brow_le (fun _ _ => eq_refl))).
    assert (Hlen : forall last rows, List.length (group_shift last rows)
                                     = List.length rows).
    { intros last rows. revert last.
      induction rows as [|r rows IH]; intros last; [reflexivity|].
      cbn [group_shift List.length]. now rewrite IH. }
    split; [exact Ht|]. split; [rewrite Ht; apply Permutation_map; exact Pd|].
    split.
    { rewrite Hp. unfold fillna. rewrite length_map, Hlen.
      apply Permutation_length. exact Pd. }
    split; [exact Hs|].
    exists (match d with [] => 0%Z | _ => mode (map b_y d) end).
    split; [rewrite Hm; reflexivity|]. split; [|split].
    + intros E. unfold d. rewrite E. reflexivity.
    + intros Hne.
      assert (Hd : d <> []).
      { intros E. apply Hne. apply Permutation_nil. rewrite <- E. exact Pd. }
      assert (Hmd : map b_y d <> [])
        by (destruct d; [now elim Hd|discriminate]).
      destruct (mode_spec (map b_y d) Hmd) as [Hin Hmax].
      assert (Em : match d with [] => 0%Z | _ => mode (map b_y d) end
                   = mode (map b_y d)) by (destruct d; [now elim Hd|reflexivity]).
      rewrite Em. split.
      * apply (Permutation_in _ (Permutation_map b_y Pd)). exact Hin.
      * intros x Hx. rewrite <- !Hcount. apply Hmax.
        apply (Permutation_in _ (Permutation_sym (Permutation_map b_y Pd))).
        exact Hx.
    + intros i Hi. rewrite Hp. unfold fillna. rewrite nth_error_map.
      destruct (nth_error d i) as [r|] eqn:Hr;
        [|apply nth_error_None in Hr; lia].
      rewrite (group_shift_sorted d i r Hsorted Hr). reflexivity.
Qed.

End Persistence.

Section PersistenceWitness.

Import Baselines.

Lemma persistence_predicts_previous_label_of_site_witness :
  exists res,
    PersistenceBaseline.predict persistence_test "y" "samplingPoint.notation"
      "phenomenonTime" = Ok res /\
    List.length (y_pred res) = 3%nat /\
    nth_error (y_pred res) 1 = Some 0%Z.
Proof.
  eexists. split; [vm_compute; reflexivity|].
  destruct (proj2 (persistence_predicts_previous_label_of_site persistence_test "y"
                     "samplingPoint.notation" "phenomenonTime") _ eq_refl)
    as [_ [_ [Hl [_ [fb [_ [_ [_ Hp]]]]]]]].
  split; [exact Hl|].
  assert (H1 : (1 < List.length (sort_values brow_le (b_rows persistence_test)))%nat)
    by (vm_compute; lia).
  exact (Hp 1%nat H1).
Defined.

End PersistenceWitness.

(** ** The seasonal-mean baseline *)

Section SeasonalMean.

Import Baselines Baselines.SeasonalMeanBaseline.

Lemma get_map (f : Z -> Q) (ks : list Z) (m : Z) (default : Q) :
  get m (map (fun k => (k, f k)) ks) default
  = if existsb (Z.eqb m) ks then f m else default.
Proof.
  induction ks as [|k ks IH]; [reflexivity|]. cbn [map get existsb].
  destruct (Z.eqb m k) eqn:E; cbn [orb]; [|exact IH].
  apply Z.eqb_eq in E. subst k. reflexivity.
Qed.

Lemma months_of_In (rows : list brow) (m : Z) :
  existsb (Z.eqb m) (months_of rows) = true <-> In m (map b_month rows).
Proof.
  unfold months_of. rewrite existsb_exists. split.
  - intros [k [Hk E]]. apply Z.eqb_eq in E. subst k.
    apply sort_values_In in Hk. apply nodup_In in Hk. exact Hk.
  - intros H. exists m. split; [|apply Z.eqb_refl].
    apply sort_values_In. apply nodup_In. exact H.
Qed.

Lemma Qsum_binary (ys : list Z) :
  (forall y, In y ys -> y = 0%Z \/ y = 1%Z) ->
  0 <= Qsum (map inject_Z ys) /\
  Qsum (map inject_Z ys) <= inject_Z (Z.of_nat (List.length ys)).
Proof.
  induction ys as [|y ys IH]; intros H.
  - cbn. split; apply Qle_refl.
  - destruct (IH (fun y' Hy' => H y' (or_intror Hy'))) as [H0 H1].
    cbn [map Qsum fold_right List.length]. fold (Qsum (map inject_Z ys)).
    rewrite Nat2Z.inj_succ, <- Z.add_1_l, inject_Z_plus.
    destruct (H y (or_introl eq_refl)) as [-> | ->].
    + change (inject_Z 0) with 0. change (inject_Z 1) with 1. split; lra.
    + change (inject_Z 1) with 1. split; lra.
Qed.

Lemma mean_binary (ys : list Z) :
  (forall y, In y ys -> y = 0%Z \/ y = 1%Z) -> 0 <= mean ys /\ mean ys <= 1.
Proof.
  intros H. destruct (Qsum_binary ys H) as [H0 H1]. unfold mean.
  destruct ys as [|y ys].
  - cbn. split; [apply Qle_refl|discriminate].
  - assert (Hq : 0 < inject_Z (Z.of_nat (List.length (y :: ys)))).
    { change 0 with (inject_Z 0). rewrite <- Zlt_Qlt. cbn [List.length]. lia. }
    split.
    + apply Qle_shift_div_l; [exact Hq|]. rewrite Qmult_0_l. exact H0.
    + apply Qle_shift_div_r; [exact Hq|]. rewrite Qmult_1_l. exact H1.
Qed.

Lemma fit_Ok (self st : state) (df_train : bframe) (y_col : string) :
  fit self df_train y_col = Ok st ->
  month_col st = month_col self /\
  global_p st = match b_rows df_train with
                | [] => 0
                | _ => mean (map b_y (b_rows df_train))
                end /\
  p_by_month st
  = map (fun m => (m, mean (labels_of_month m (b_rows df_train))))
        (months_of (b_rows df_train)).
Proof.
  unfold fit. intros H.
  destruct (str_in (month_col self) (b_columns df_train)); [|discriminate H].
  destruct (str_in y_col (b_columns df_train)); [|discriminate H].
  cbn [negb] in H. injection H as <-. cbn. repeat split; reflexivity.
Qed.

Lemma seasonal_predict_Ok (st : state) (df : bframe) (y_col : string)
  (res : BaselineResult) :
  predict st df y_col = Ok res ->
  y_true res = map b_y (b_rows df) /\
  y_score res = map (fun m => get m (p_by_month st) (global_p st))
                    (map b_month (b_rows df)) /\
  y_pred res = map (fun s => int_of_bool (Qgeb s (1 # 2))) (y_score res).
Proof.
  unfold predict. intros H.
  destruct (str_in (month_col st) (b_columns df)); [|discriminate H].
  destruct (str_in y_col (b_columns df)); [|discriminate H].
  cbn [negb] in H. injection H as <-. cbn. repeat split; reflexivity.
Qed.

(** X19.  The scores of [SeasonalMeanBaseline] come from the training frame
    alone.  After [fit] on [train], [predict] gives a row of a month that
    occurs in [train] the mean of the training labels of that month, and a
    row of any other month the mean of all training labels (0 for an empty
    training frame); the prediction is 1 exactly when the score is at least
    one half; with training labels 0 and 1 every score lies between 0 and
    1; and two frames with the same months get the same scores and
    predictions, whatever their labels. *)
Theorem seasonal_mean_scores_come_from_training (mcol y_col : string)
  (train test : bframe) (st : state) (res : BaselineResult) :
  fit (__init__ mcol) train y_col = Ok st ->
  predict st test y_col = Ok res ->
  y_true res = map b_y (b_rows test) /\
  List.length (y_score res) = List.length (b_rows test) /\
  (forall i r, nth_error (b_rows test) i = Some r ->
     exists s,
       nth_error (y_score res) i = Some s /\
       nth_error (y_pred res) i = Some (int_of_bool (Qgeb s (1 # 2))) /\
       (In (b_month r) (map b_month (b_rows train)) ->
        s = mean (labels_of_month (b_month r) (b_rows train))) /\
       (~ In (b_month r) (map b_month (b_rows train)) ->
        s = match b_rows train with
            | [] => 0
            | _ => mean (map b_y (b_rows train))
            end) /\
       (binary (b_rows train) -> 0 <= s /\ s <= 1)) /\
  (forall test' res',
     predict st test' y_col = Ok res' ->
     map b_month (b_rows test') = map b_month (b_rows test) ->
     y_score res' = y_score res /\ y_pred res' = y_pred res).
Proof.
  intros Hfit Hpred.
  destruct (fit_Ok _ st train y_col Hfit) as [_ [Hg Hp]].
  destruct (seasonal_predict_Ok st test y_col res Hpred) as [Ht [Hs Hy]].
  split; [exact Ht|]. split; [rewrite Hs, !length_map; reflexivity|]. split.
  - intros i r Hi.
    set (s := get (b_month r) (p_by_month st) (global_p st)).
    assert (Es : nth_error (y_score res) i = Some s).
    { rewrite Hs, !nth_error_map, Hi. reflexivity. }
    exists s. split; [exact Es|]. split.
    { rewrite Hy, nth_error_map, Es. reflexivity. }
    assert (Eget : s = if existsb (Z.eqb (b_month r)) (months_of (b_rows train))
                       then mean (labels_of_month (b_month r) (b_rows train))
                       else global_p st).
    { unfold s. rewrite Hp. apply get_map. }
    split; [|split].
    + intros Hin. apply months_of_In in Hin. rewrite Hin in Eget. exact Eget.
    + intros Hnin.
      destruct (existsb (Z.eqb (b_month r)) (months_of (b_rows train))) eqn:E.
      * apply months_of_In in E. contradiction.
      * rewrite Eget, Hg. reflexivity.
    + intros Hb. rewrite Eget.
      destruct (existsb (Z.eqb (b_month r)) (months_of (b_rows train))).
      * apply mean_binary. intros y Hy'. unfold labels_of_month in Hy'.
        apply in_map_iff in Hy'. destruct Hy' as [r' [<- Hr']].
        apply filter_In in Hr'. apply Hb. exact (proj1 Hr').
      * rewrite Hg. destruct (b_rows train) as [|r0 rows] eqn:Er.
        -- split; [apply Qle_refl|discriminate].
        -- apply mean_binary. intros y Hy'.
           apply in_map_iff in Hy'. destruct Hy' as [r' [<- Hr']].
           apply Hb. exact Hr'.
  - intros test' res' Hpred' Em.
    destruct (seasonal_predict_Ok st test' y_col res' Hpred') as [_ [Hs' Hy']].
    assert (E : y_score res' = y_score res) by (rewrite Hs', Hs, Em; reflexivity).
    split; [exact E|]. rewrite Hy', Hy, E. reflexivity.
Qed.

End SeasonalMean.

Section SeasonalMeanWitness.

Import Baselines Baselines.SeasonalMeanBaseline.

Lemma seasonal_mean_scores_come_from_training_witness :
  exists st res,
    fit (__init__ "month") seasonal_train "y" = Ok st /\
    predict st seasonal_test "y" = Ok res /\
    y_pred res = [1; 0; 0]%Z /\
    List.length (y_score res) = 3%nat.
Proof.
  eexists. eexists.
  split; [vm_compute; reflexivity|].
  assert (Hp : predict {| month_col := "month";
                          p_by_month := [(1%Z, 1 # 2); (2%Z, 0 # 2)];
                          global_p := 1 # 4 |} seasonal_test "y"
               = Ok {| name := "seasonal_mean"; y_true := [0; 0; 1]%Z;
                       y_score := [1 # 2; 0 # 2; 1 # 4]; y_pred := [1; 0; 0]%Z;
                       meta := [("global_p", MFloat (1 # 4));
                                ("p_by_month",
                                 MDict [(1%Z, 1 # 2); (2%Z, 0 # 2)])] |})
    by (vm_compute; reflexivity).
  split; [exact Hp|]. split; [reflexivity|].
  refine (proj1 (proj2 (seasonal_mean_scores_come_from_training "month" "y"
                          seasonal_train seasonal_test _ _ _ Hp))).
  vm_compute. reflexivity.
Defined.

End SeasonalMeanWitness.

(** ** No leakage from the future *)

Section NoFutureLeakage.

Import FeatureMatrixBuilder MatrixSpec JoinSpec LeakageSpec.

Variable ext : extern.

(** The backward search looks at the right rows up to the left key only. *)
Lemma asof_scan_filter {R : Type} (r_on : R -> Z) (r_by : R -> string)
  (b : string) (t : Z) (right : list R) :
  is_monotonic_increasing (map r_on right) = true ->
  forall last,
    asof_scan r_on r_by b t right last
    = asof_scan r_on r_by b t (filter (fun r => (r_on r <=? t)%Z) right) last.
Proof.
  induction right as [|r right IH]; intros Hm last; [reflexivity|].
  destruct (monotonic_cons _ _ Hm) as [Hm' Hall].
  cbn [asof_scan filter].
  destruct (r_on r <=? t)%Z eqn:E.
  - cbn [asof_scan]. rewrite E. apply IH. exact Hm'.
  - assert (En : filter (fun r0 => (r_on r0 <=? t)%Z) right = []).
    { apply filter_nil_iff. intros x Hx. apply Z.leb_gt.
      apply Z.leb_gt in E.
      assert (r_on r <= r_on x)%Z
        by (apply Hall; apply in_map; exact Hx).
      lia. }
    rewrite En. reflexivity.
Qed.

(** A stable sort and a filter can change places. *)
Lemma filter_insert_sorted (P : srow -> bool) (x : srow) (l : list srow) :
  StronglySorted (fun a b => srow_le a b = true) l ->
  filter P (insert_sorted srow_le x l)
  = if P x then insert_sorted srow_le x (filter P l) else filter P l.
Proof.
  induction 1 as [|y l Hs IH Hy]; cbn [insert_sorted filter].
  - destruct (P x); reflexivity.
  - destruct (srow_le x y) eqn:E.
    + cbn [filter]. destruct (P x) eqn:Px; destruct (P y) eqn:Py;
        cbn [insert_sorted]; try rewrite E; try reflexivity.
      (* [y] goes, [x] stays in front of what is left *)
      clear IH. induction l as [|z l IHl]; [reflexivity|].
      inversion Hy as [|? ? Hyz Hy']; subst. inversion Hs as [|? ? Hs' Hz]; subst.
      cbn [filter]. destruct (P z); [|apply IHl; assumption].
      cbn [insert_sorted].
      assert (Exz : srow_le x z = true).
      { unfold srow_le in *.
        exact (site_time_le_trans _ _ _ _ _ _ E Hyz). }
      rewrite Exz. reflexivity.
    + cbn [filter]. rewrite IH.
      destruct (P x); destruct (P y); cbn [insert_sorted]; try rewrite E;
        reflexivity.
Qed.

Lemma filter_sort_values (P : srow -> bool) (l : list srow) :
  filter P (sort_values srow_le l) = sort_values srow_le (filter P l).
Proof.
  induction l as [|x l IH]; [reflexivity|].
  cbn [sort_values fold_right]. fold (sort_values srow_le l).
  rewrite filter_insert_sorted
    by (apply (sort_values_sorted srow s_site s_time srow_le (fun _ _ => eq_refl))).
  cbn [filter]. destruct (P x); [|exact IH].
  cbn [sort_values fold_right]. fold (sort_values srow_le (filter P l)).
  rewrite IH. reflexivity.
Qed.

(** The series up to [T] comes from the table rows up to [T]. *)
Lemma numeric_rows_observed_by (T : Z) (P : wrow -> bool) (rows : list obs) :
  filter (fun p => (s_time p <=? T)%Z)
         (numeric_rows ext (filter P (parse_datetimes rows)))
  = numeric_rows ext
      (filter P (parse_datetimes (filter (observed_by T) rows))).
Proof.
  induction rows as [|o rows IH]; [reflexivity|].
  cbn [parse_datetimes filter]. unfold observed_by at 1.
  destruct (o_datetime o) as [t|] eqn:Et; [|exact IH].
  destruct (t <=? T)%Z eqn:ET.
  - cbn [parse_datetimes filter]. rewrite Et. cbn [filter].
    destruct (P _); [|exact IH].
    cbn [numeric_rows w_obs w_time].
    destruct (to_numeric ext (o_value o)); [|exact IH].
    cbn [filter s_time]. rewrite ET, IH. reflexivity.
  - cbn [filter]. destruct (P _); [|exact IH].
    cbn [numeric_rows w_obs w_time].
    destruct (to_numeric ext (o_value o)); [|exact IH].
    cbn [filter s_time]. rewrite ET. exact IH.
Qed.

Lemma determinand_series_observed_by (cfg : FeatureMatrixConfig)
  (df1 df2 : clean_frame) (id : DeterminandId) (S1 S2 : list srow) (T : Z) :
  filter (observed_by T) (df_rows df1) = filter (observed_by T) (df_rows df2) ->
  determinand_series ext cfg df1 id = Ok S1 ->
  determinand_series ext cfg df2 id = Ok S2 ->
  filter (fun p => (s_time p <=? T)%Z) S1
  = filter (fun p => (s_time p <=? T)%Z) S2.
Proof.
  intros E H1 H2.
  rewrite (determinand_series_Ok ext _ _ _ _ H1),
          (determinand_series_Ok ext _ _ _ _ H2).
  rewrite !filter_sort_values. f_equal.
  unfold _filter_window. rewrite !filter_filter, !numeric_rows_observed_by, E.
  reflexivity.
Qed.

Lemma filter_le_le (t T : Z) (l : list srow) :
  (t <= T)%Z ->
  filter (fun p => (s_time p <=? t)%Z) l
  = filter (fun p => (s_time p <=? t)%Z) (filter (fun p => (s_time p <=? T)%Z) l).
Proof.
  intros H. rewrite filter_filter. apply filter_ext. intros p.
  destruct (s_time p <=? t)%Z eqn:E; [|rewrite andb_false_r; reflexivity].
  apply Z.leb_le in E.
  assert (E' : (s_time p <=? T)%Z = true) by (apply Z.leb_le; lia).
  rewrite E'. reflexivity.
Qed.

Lemma sorted_series_id (cfg : FeatureMatrixConfig) (df : clean_frame)
  (id : DeterminandId) (srs : list srow) :
  determinand_series ext cfg df id = Ok srs ->
  sort_values srow_le srs = srs.
Proof.
  intros H. apply sort_values_sorted_id.
  rewrite (determinand_series_Ok ext _ _ _ _ H).
  apply (sort_values_sorted srow s_site s_time srow_le (fun _ _ => eq_refl)).
Qed.

(** X20.  Observations from after a time [T] change nothing at or before
    [T]: when two tables hold the same rows with a timestamp up to [T] and
    both are built under the same configuration, rows of the two matrices
    with the same site and the same time, not after [T], carry the same
    value and matched time for every predictor, and the same age and
    missing flag when those columns are on. *)
Theorem later_observations_do_not_change_earlier_rows
  (cfg : FeatureMatrixConfig) (df1 df2 : clean_frame)
  (arts1 arts2 : list (string * artifact)) (M1 M2 : fframe) (b1' b2' : builder)
  (T : Z) (pid : DeterminandId) (r1 r2 : frow) :
  build ext {| _df := df1; config := cfg; artifacts := arts1 |} = Ok (M1, b1') ->
  build ext {| _df := df2; config := cfg; artifacts := arts2 |} = Ok (M2, b2') ->
  labels_distinct cfg ->
  filter (observed_by T) (df_rows df1) = filter (observed_by T) (df_rows df2) ->
  In pid (predictor_ids cfg) ->
  In r1 (f_rows M1) -> In r2 (f_rows M2) ->
  f_site r1 = f_site r2 -> f_time r1 = f_time r2 -> (f_time r1 <= T)%Z ->
  let name := feature_name pid in
  get_cell name r1 = get_cell name r2 /\
  get_cell (time_name name) r1 = get_cell (time_name name) r2 /\
  (add_age_days cfg = true ->
   get_cell (age_name name) r1 = get_cell (age_name name) r2) /\
  (add_missing_flags cfg = true ->
   get_cell (missing_name name) r1 = get_cell (missing_name name) r2).
Proof.
  intros H1 H2 Hd E Hp Hr1 Hr2 Es Et HT name.
  pose proof (build_rows_joined ext _ b1' M1 H1 Hd r1 pid Hr1 Hp) as J1.
  pose proof (build_rows_joined ext _ b2' M2 H2 Hd r2 pid Hr2 Hp) as J2.
  destruct (build_extracts ext _ b1' M1 pid H1 Hp) as [S1 HS1].
  destruct (build_extracts ext _ b2' M2 pid H2 Hp) as [S2 HS2].
  destruct (J1 S1 HS1) as [Hm1 K1]. destruct (J2 S2 HS2) as [Hm2 K2].
  cbn [config] in K1, K2.
  unfold _extract_predictor_series in HS1, HS2. cbn [config _df] in HS1, HS2.
  rewrite (sorted_series_id _ _ _ _ HS1) in Hm1, K1.
  rewrite (sorted_series_id _ _ _ _ HS2) in Hm2, K2.
  assert (Escan : asof_scan s_time s_site (f_site r1) (f_time r1) S1 None
                  = asof_scan s_time s_site (f_site r2) (f_time r2) S2 None).
  { rewrite <- Es, <- Et.
    rewrite (asof_scan_filter s_time s_site _ _ S1 Hm1),
            (asof_scan_filter s_time s_site _ _ S2 Hm2).
    rewrite (filter_le_le (f_time r1) T S1 HT),
            (filter_le_le (f_time r1) T S2 HT).
    rewrite (determinand_series_observed_by cfg df1 df2 pid S1 S2 T E HS1 HS2).
    reflexivity. }
  rewrite Escan in K1. unfold joined in K1, K2. cbv zeta in K1, K2.
  rewrite Et in K1.
  destruct K1 as [A1 [B1 [C1 D1]]]. destruct K2 as [A2 [B2 [C2 D2]]].
  fold name in A1, B1, C1, D1, A2, B2, C2, D2.
  split; [rewrite A1, A2; reflexivity|].
  split; [rewrite B1, B2; reflexivity|].
  split; intros Hc.
  - rewrite (C1 Hc), (C2 Hc). reflexivity.
  - rewrite (D1 Hc), (D2 Hc). reflexivity.
Qed.

End NoFutureLeakage.

Section NoFutureLeakageWitness.

Import FeatureMatrixBuilder JoinSpec Fixtures Lakes LeakageSpec.

Lemma later_observations_do_not_change_earlier_rows_witness :
  build test_ext two_lakes_builder = Ok (two_lakes_matrix, two_lakes_built) /\
  build test_ext later_lakes_builder = Ok (later_lakes_matrix, later_lakes_built) /\
  filter (observed_by (jan_2005 20)) (df_rows two_lakes_frame)
  = filter (observed_by (jan_2005 20)) (df_rows later_lakes_frame) /\
  List.length (f_rows later_lakes_matrix) = 5%nat /\
  get_cell "det_348" two_lakes_row = get_cell "det_348" later_lakes_row.
Proof.
  split; [vm_compute; reflexivity|]. split; [vm_compute; reflexivity|].
  split; [vm_compute; reflexivity|]. split; [vm_compute; reflexivity|].
  apply (later_observations_do_not_change_earlier_rows test_ext
           (test_config 30 true true) two_lakes_frame later_lakes_frame [] []
           two_lakes_matrix later_lakes_matrix two_lakes_built later_lakes_built
           (jan_2005 20) (DStr "348") two_lakes_row later_lakes_row);
    try (vm_compute; reflexivity).
  - apply test_labels_distinct.
  - left. reflexivity.
  - right. left. reflexivity.
  - right. left. reflexivity.
  - vm_compute. discriminate.
Defined.

End NoFutureLeakageWitness.

(** ** The labels of the matrix and the label builder *)

Section RelabelProperties.

Import FeatureMatrixBuilder JoinSpec Relabel.

Variable ext : extern.

(** X21.  Labelling a built matrix again with the label builder, at the
    threshold of the feature configuration and with the strict rule, leaves
    the frame as it was but for the two governance columns: the column [y]
    that the label builder writes is the column [y] that the matrix
    had. *)
Theorem label_builder_reproduces_matrix_labels (self self' : builder)
  (M : fframe) :
  build ext self = Ok (M, self') ->
  exists out,
    LabelBuilder.build_from_feature_matrix ext
      (label_config (threshold_ugL (config self))) (matrix_frame M) = Ok out /\
    dict_get "y" (columns out) = dict_get "y" (columns (matrix_frame M)) /\
    dict_get "chl_ugL" (columns out) = dict_get "chl_ugL" (columns (matrix_frame M)) /\
    nrows out = List.length (f_rows M).
Proof.
  intros H.
  pose proof (built_matrix_labels ext self self' M H) as Hy.
  eexists. split; [reflexivity|]. cbn. split; [|split; reflexivity].
  f_equal. rewrite !map_map. apply map_ext_in. intros r Hr.
  rewrite (Hy r Hr). reflexivity.
Qed.

(** X22.  No predictor cell looks ahead: in a built matrix the matched
    time of a predictor, when there is one, is not after the time of the
    row, and its age, when there is one, is at least 0 and at most
    [lookback_days]. *)
Theorem matched_observation_is_never_later (self self' : builder) (M : fframe)
  (pid : DeterminandId) (r : frow) :
  build ext self = Ok (M, self') ->
  labels_distinct (config self) ->
  In pid (predictor_ids (config self)) ->
  In r (f_rows M) ->
  let name := feature_name pid in
  (forall t, get_cell (time_name name) r = Some (FTime (Some t)) ->
             (t <= f_time r)%Z /\
             (f_time r - t <= lookback_days (config self) * NS_PER_DAY)%Z) /\
  (add_age_days (config self) = true ->
   forall a, get_cell (age_name name) r = Some (FFloat (Some a)) ->
             0 <= a /\ a <= inject_Z (lookback_days (config self))).
Proof.
  intros H Hd Hp Hr name.
  pose proof (build_rows_joined ext self self' M H Hd r pid Hr Hp) as J.
  destruct (build_extracts ext self self' M pid H Hp) as [srs HS].
  destruct (row_joined_cases ext self pid srs r J HS)
    as [[_ K]|[o [[[_ [_ Hle]] _] K]]];
    unfold joined in K; cbv zeta in K; fold name in K;
    destruct K as [_ [B [C _]]].
  - rewrite match_stale_None in B, C. split.
    + intros t Ht. rewrite B in Ht. discriminate Ht.
    + intros Ha a Hc. rewrite (C Ha) in Hc. discriminate Hc.
  - destruct (match_stale (config self) (f_time r) (Some o)) eqn:Est.
    + split.
      * intros t Ht. rewrite B in Ht. discriminate Ht.
      * intros Ha a Hc. rewrite (C Ha) in Hc. discriminate Hc.
    + apply match_stale_false in Est. unfold within_lookback in Est. split.
      * intros t Ht. rewrite B in Ht. cbn in Ht. injection Ht as <-.
        split; [exact Hle|exact Est].
      * intros Ha a Hc. rewrite (C Ha) in Hc. cbn in Hc. injection Hc as <-.
        split; [apply days_of_ns_nonneg; lia|].
        apply days_le_iff. exact Est.
Qed.

End RelabelProperties.

Section RelabelWitnesses.

Import FeatureMatrixBuilder JoinSpec Relabel Fixtures Lakes.

Lemma label_builder_reproduces_matrix_labels_witness :
  build test_ext two_lakes_builder = Ok (two_lakes_matrix, two_lakes_built) /\
  exists out,
    LabelBuilder.build_from_feature_matrix test_ext (label_config 20)
      (matrix_frame two_lakes_matrix) = Ok out /\
    dict_get "y" (columns out) = Some [CInt 0; CInt 1; CInt 0; CInt 1].
Proof.
  assert (E : build test_ext two_lakes_builder
              = Ok (two_lakes_matrix, two_lakes_built))
    by (vm_compute; reflexivity).
  split; [exact E|].
  destruct (label_builder_reproduces_matrix_labels test_ext two_lakes_builder
              two_lakes_built two_lakes_matrix E) as [out [H1 [H2 _]]].
  exists out. split; [exact H1|]. rewrite H2. reflexivity.
Defined.

Lemma matched_observation_is_never_later_witness :
  build test_ext two_lakes_builder = Ok (two_lakes_matrix, two_lakes_built) /\
  labels_distinct (config two_lakes_builder) /\
  In (DStr "348") (predictor_ids (config two_lakes_builder)) /\
  In two_lakes_row (f_rows two_lakes_matrix) /\
  get_cell "det_348__time" two_lakes_row = Some (FTime (Some (jan_2005 3))) /\
  (jan_2005 3 <= f_time two_lakes_row)%Z.
Proof.
  assert (E : build test_ext two_lakes_builder
              = Ok (two_lakes_matrix, two_lakes_built))
    by (vm_compute; reflexivity).
  assert (Hd : labels_distinct (config two_lakes_builder))
    by apply test_labels_distinct.
  assert (Hp : In (DStr "348") (predictor_ids (config two_lakes_builder)))
    by (left; reflexivity).
  assert (Hr : In two_lakes_row (f_rows two_lakes_matrix))
    by (right; left; reflexivity).
  assert (Ht : get_cell "det_348__time" two_lakes_row
               = Some (FTime (Some (jan_2005 3))))
    by (vm_compute; reflexivity).
  split; [exact E|]. split; [exact Hd|]. split; [exact Hp|].
  split; [exact Hr|]. split; [exact Ht|].
  exact (proj1 (proj1 (matched_observation_is_never_later test_ext two_lakes_builder
                         two_lakes_built two_lakes_matrix (DStr "348")
                         two_lakes_row E Hd Hp Hr) (jan_2005 3) Ht)).
Defined.

End RelabelWitnesses.

(** ** The determinand filter on integer identifiers *)

Section DeterminandIntegers.

Import FeatureMatrixBuilder CleanDatasetBuilder CleanLayer.

Lemma rstrip_string_of_uint (d : Decimal.uint) :
  rstrip isspace (NilEmpty.string_of_uint d) = NilEmpty.string_of_uint d.
Proof.
  induction d; cbn [NilEmpty.string_of_uint]; [reflexivity| | | | | | | | | |];
    rewrite rstrip_keep by reflexivity; rewrite IHd; reflexivity.
Qed.

Lemma to_uint_normal (p : positive) :
  Decimal.nzhead (Pos.to_uint p) = Pos.to_uint p.
Proof.
  pose proof (DecimalN.Unsigned.to_of (Pos.to_uint p)) as H.
  change (N.of_uint (Pos.to_uint p)) with (Pos.of_uint (Pos.to_uint p)) in H.
  rewrite DecimalPos.Unsigned.of_to in H. cbn [N.to_uint] in H.
  unfold Decimal.unorm in H.
  destruct (Decimal.nzhead (Pos.to_uint p)) eqn:E; try (symmetry; exact H).
  elim (Unsigned.to_uint_nonzero p). exact H.
Qed.

Lemma lstrip_zero_to_uint (p : positive) :
  lstrip is_zero_digit (NilEmpty.string_of_uint (Pos.to_uint p))
  = NilEmpty.string_of_uint (Pos.to_uint p).
Proof.
  pose proof (to_uint_normal p) as H.
  destruct (Pos.to_uint p) as [|d|d|d|d|d|d|d|d|d|d] eqn:E; try reflexivity.
  exfalso. exact (DecimalFacts.nzhead_nonzero _ _ H).
Qed.

Lemma lstrip_space_string_of_uint (d : Decimal.uint) :
  lstrip isspace (NilEmpty.string_of_uint d) = NilEmpty.string_of_uint d.
Proof. destruct d; reflexivity. Qed.

Lemma str_of_int_stripped (n : Z) :
  lstrip isspace (str_of_int n) = str_of_int n /\
  strip (str_of_int n) = str_of_int n.
Proof.
  unfold str_of_int, strip. destruct n as [|p|p]; cbn [Z.to_int NilZero.string_of_int].
  - split; reflexivity.
  - unfold NilZero.string_of_uint.
    destruct (Pos.to_uint p) eqn:E; try (elim (Unsigned.to_uint_nonnil p E));
      rewrite <- E; rewrite lstrip_space_string_of_uint;
      (split; [reflexivity|apply rstrip_string_of_uint]).
  - unfold NilZero.string_of_uint.
    destruct (Pos.to_uint p) eqn:E; try (elim (Unsigned.to_uint_nonnil p E));
      rewrite <- E; cbn [lstrip]; change (isspace "-"%char) with false; cbv iota;
      rewrite rstrip_keep by reflexivity; rewrite rstrip_string_of_uint;
      split; reflexivity.
Qed.

(** [str(n).strip().lstrip("0") or "0"] is [str(n)]. *)
Lemma normalize_id_int (n : Z) : normalize_id (DInt n) = str_of_int n.
Proof.
  unfold normalize_id. cbn [str_of_det].
  rewrite (proj2 (str_of_int_stripped n)).
  unfold str_of_int. destruct n as [|p|p]; cbn [Z.to_int NilZero.string_of_int].
  - reflexivity.
  - unfold NilZero.string_of_uint.
    destruct (Pos.to_uint p) eqn:E; try (elim (Unsigned.to_uint_nonnil p E));
      rewrite <- E; rewrite lstrip_zero_to_uint; rewrite E; reflexivity.
  - reflexivity.
Qed.

(** X23.  The determinand filter tells integers apart: with the wanted
    identifiers given as integers, a row whose identifier is the integer
    [n], or the decimal text of [n] behind any number of zeros, is kept
    exactly when [n] is one of the wanted integers. *)
Theorem filter_determinands_tells_integers_apart (ids : list Z) (df : list obs)
  (o : obs) (n : Z) (k : nat) :
  In o df ->
  o_det o = DInt n \/ o_det o = DStr (pad_zeros k (str_of_int n)) ->
  (In o (map fst (filter_determinands (map DInt ids) df)) <-> In n ids).
Proof.
  intros Ho Hd.
  assert (En : normalize_id (o_det o) = str_of_int n).
  { destruct Hd as [-> | ->]; [apply normalize_id_int|].
    rewrite (normalize_id_pad_zeros k _ (proj1 (str_of_int_stripped n))).
    apply (normalize_id_int n). }
  rewrite filter_determinands_map, map_map. cbn [fst]. rewrite map_id.
  rewrite filter_In. unfold wanted. rewrite En, str_in_In, map_map.
  split.
  - intros [_ H]. apply in_map_iff in H. destruct H as [m [Em Hm]].
    rewrite normalize_id_int in Em. apply str_of_int_inj in Em. subst m. exact Hm.
  - intros H. split; [exact Ho|]. apply in_map_iff. exists n.
    split; [apply normalize_id_int|exact H].
Qed.

End DeterminandIntegers.

Section DeterminandIntegersWitness.

Import FeatureMatrixBuilder CleanDatasetBuilder CleanLayer Fixtures.

Lemma filter_determinands_tells_integers_apart_witness :
  In (mk_obs "A" 3 (DStr "061") 9) (df_rows ph_frame) /\
  DStr "061" = DStr (pad_zeros 1 (str_of_int 61)) /\
  (In (mk_obs "A" 3 (DStr "061") 9)
      (map fst (filter_determinands (map DInt [7887; 61]%Z) (df_rows ph_frame)))
   <-> In 61%Z [7887; 61]%Z).
Proof.
  assert (H1 : In (mk_obs "A" 3 (DStr "061") 9) (df_rows ph_frame))
    by (right; right; left; reflexivity).
  split; [exact H1|]. split; [reflexivity|].
  apply (filter_determinands_tells_integers_apart [7887; 61]%Z (df_rows ph_frame)
           (mk_obs "A" 3 (DStr "061") 9) 61%Z 1%nat H1).
  right. reflexivity.
Defined.

End DeterminandIntegersWitness.
